(** * ReqRes demo app: session store, transport client and record controller

    A shallow embedding of the orchestration core of the ReqRes todo client
    ([src/config.ts], [src/api.ts] and the [App] component), and the proofs of
    the properties its specification states about it.

    The embedding follows the TypeScript sources function by function.  Values
    whose shape is only known at run time (what [JSON.parse] returns, the
    [data] of a record) are JavaScript values of type [value]; values the
    sources handle at a declared type (configuration, session, pagination
    metadata) are records.  Numbers are integers ([Z]): the sources only
    count, clamp and compare, and fractional numbers and [NaN] are outside the
    model.  React state is an explicit record: an event handler reads the
    state captured by its closure and accumulates its updates.  Browser
    services ([localStorage], the clock, [fetch], [JSON], [Date],
    [encodeURIComponent]) are explicit: storage, clock and the log of requests
    sent are threaded through as a [World]; the remaining builtins are the
    fields of a [Platform]. *)

From Stdlib Require Import ZArith String Ascii List Bool Lia DecimalString.
From stdpp Require Import base option gmap strings list.

Set Warnings "-register-all".
Open Scope Z_scope.

(** ** JavaScript values *)

Inductive value : Type :=
  | VUndefined
  | VNull
  | VBool (b : bool)
  | VNum (n : Z)
  | VStr (s : string)
  | VArr (xs : list value)
  | VObj (fields : list (string * value)).

(** [Boolean(v)], the test behind [!v], [a && b], [a || b] and [c ? a : b]. *)
Definition truthy (v : value) : bool :=
  match v with
  | VUndefined | VNull => false
  | VBool b => b
  | VNum n => negb (n =? 0)
  | VStr s => negb (String.eqb s "")
  | VArr _ | VObj _ => true
  end.

Definition typeof (v : value) : string :=
  match v with
  | VUndefined => "undefined"
  | VNull => "object"
  | VBool _ => "boolean"
  | VNum _ => "number"
  | VStr _ => "string"
  | VArr _ | VObj _ => "object"
  end.

Fixpoint assoc (k : string) (fields : list (string * value)) : option value :=
  match fields with
  | [] => None
  | (k', v) :: rest => if String.eqb k k' then Some v else assoc k rest
  end.

(** [v?.k] for a key [k] that is no builtin member of strings, numbers,
    booleans or arrays (the sources only read [session], [token], [baseUrl],
    [projectId], [error], [message], [title], [notes], [completed]): an own
    field of an object, [undefined] everywhere else. *)
Definition get (v : value) (k : string) : value :=
  match v with
  | VObj fields => default VUndefined (assoc k fields)
  | _ => VUndefined
  end.

(** [a && b] and [a || b] return one of their operands; [a ?? b] tests for
    [null] and [undefined] only. *)
Definition js_and (a b : value) : value := if truthy a then b else a.
Definition js_or (a b : value) : value := if truthy a then a else b.
Definition nullish (v : value) : bool :=
  match v with VUndefined | VNull => true | _ => false end.
Definition js_coalesce (a b : value) : value := if nullish a then b else a.

(** [a === b] on primitives.  Two objects are identical only when they are
    the same reference, which values do not record: the sources compare
    strings and numbers only. *)
Definition strict_eq (a b : value) : bool :=
  match a, b with
  | VUndefined, VUndefined | VNull, VNull => true
  | VBool x, VBool y => Bool.eqb x y
  | VNum x, VNum y => x =? y
  | VStr x, VStr y => String.eqb x y
  | _, _ => false
  end.

(** [String(n)] for an integer below [10^21] in size, from where on the
    builtin writes an exponent: the decimal digits. *)
Definition number_to_string (n : Z) : string :=
  NilZero.string_of_int (Z.to_int n).

Fixpoint join (sep : string) (parts : list string) : string :=
  match parts with
  | [] => ""
  | [p] => p
  | p :: rest => p +:+ sep +:+ join sep rest
  end.

(** [String(v)], as template literals and the [Error] constructor apply it. *)
Fixpoint ToString (v : value) : string :=
  match v with
  | VUndefined => "undefined"
  | VNull => "null"
  | VBool true => "true"
  | VBool false => "false"
  | VNum n => number_to_string n
  | VStr s => s
  | VArr xs =>
      join "," (map (fun x => if nullish x then "" else ToString x) xs)
  | VObj _ => "[object Object]"
  end.

Definition str_truthy (s : string) : bool := negb (String.eqb s "").

(** [s.toLowerCase()] on the ASCII letters.  No character outside ASCII
    lowers to one of [t], [r], [u], [e], so the comparison with the literal
    [true] in [normalizeTodo] is exact. *)
Definition lower_ascii (c : ascii) : ascii :=
  let n := nat_of_ascii c in
  if (Nat.leb 65 n && Nat.leb n 90)%bool then ascii_of_nat (n + 32) else c.

Fixpoint toLowerCase (s : string) : string :=
  match s with
  | EmptyString => EmptyString
  | String c rest => String (lower_ascii c) (toLowerCase rest)
  end.

(** [s.replace(/\/$/, "")]: one trailing slash is dropped. *)
Fixpoint strip_trailing_slash (s : string) : string :=
  match s with
  | EmptyString => EmptyString
  | String c rest =>
      match rest with
      | EmptyString => if Ascii.eqb c "/" then EmptyString else s
      | _ => String c (strip_trailing_slash rest)
      end
  end.

Definition startsWith (s p : string) : bool := String.prefix p s.

(** ** Configuration ([src/config.ts]) *)

Module DemoConfig.
Record t := mk {
  baseUrl : string;
  projectId : option Z;
  publicProjectKey : string;
  manageProjectKey : string;
  collectionSlug : string }.
End DemoConfig.

(** [number | null] as a JavaScript value, for truthiness tests. *)
Definition of_nullable_number (n : option Z) : value :=
  match n with Some k => VNum k | None => VNull end.

(** The four items the application needs before it talks to the service. *)
Inductive ConfigItem := ProjectId | PublicKey | ManageKey | CollectionSlug.

#[global] Instance ConfigItem_eq_dec : EqDecision ConfigItem.
Proof. solve_decision. Defined.

Definition config_item (config : DemoConfig.t) (item : ConfigItem) : value :=
  match item with
  | ProjectId => of_nullable_number (DemoConfig.projectId config)
  | PublicKey => VStr (DemoConfig.publicProjectKey config)
  | ManageKey => VStr (DemoConfig.manageProjectKey config)
  | CollectionSlug => VStr (DemoConfig.collectionSlug config)
  end.

(** An item is missing when the guard [!config.item] fires. *)
Definition missing (config : DemoConfig.t) (item : ConfigItem) : bool :=
  negb (truthy (config_item config item)).

Definition warning_of (item : ConfigItem) : string :=
  match item with
  | ProjectId => "Add a project ID"
  | PublicKey => "Add the public project key"
  | ManageKey => "Add the manage project key"
  | CollectionSlug => "Set a collection slug"
  end.

(** [issues.push(msg)] under a guard. *)
Definition push_if (guard : bool) (msg : string) (issues : list string)
  : list string :=
  if guard then issues ++ [msg] else issues.

Definition configWarnings (config : DemoConfig.t) : list string :=
  let issues := [] in
  let issues :=
    push_if (negb (truthy (of_nullable_number (DemoConfig.projectId config))))
      "Add a project ID" issues in
  let issues :=
    push_if (negb (str_truthy (DemoConfig.publicProjectKey config)))
      "Add the public project key" issues in
  let issues :=
    push_if (negb (str_truthy (DemoConfig.manageProjectKey config)))
      "Add the manage project key" issues in
  let issues :=
    push_if (negb (str_truthy (DemoConfig.collectionSlug config)))
      "Set a collection slug" issues in
  issues.

Definition configReady (config : DemoConfig.t) : bool :=
  Nat.eqb (length (configWarnings config)) 0.

(** ** Wire types of the transport client ([src/api.ts]) *)

Module Request.
(** What [fetch(url, requestInit)] receives.  Of [RequestInit] the sources
    set the method, the headers and the body. *)
Record t := mk {
  url : string;
  method : option string;
  headers : gmap string string;
  body : option string }.
End Request.

Module Response.
Record t := mk {
  ok : bool;
  status : Z;
  statusText : string;
  text : string }.
End Response.

(** [await fetch(...)] resolves to a response or rejects (no network). *)
Inductive FetchResult :=
  | Responded (r : Response.t)
  | Rejected.

Module Session.
Record t := mk {
  token : string;
  expiresAt : string;
  projectId : Z;
  email : string }.
End Session.

(** ** Browser services *)

(** The builtins the sources call.  [JSON_parse] is [None] where
    [JSON.parse] throws a [SyntaxError]; [Date_getTime s] is
    [new Date(s).getTime()], a whole number of milliseconds, or [None] for
    [NaN]; [fetch] and [latency] are the remote service: its answer to a
    request and the time the answer takes.  [envConfig] is the configuration
    [config.ts] resolves from the environment. *)
Class Platform := {
  envConfig : DemoConfig.t;
  JSON_parse : string -> option value;
  JSON_stringify : value -> string;
  Date_getTime : string -> option Z;
  encodeURIComponent : string -> string;
  fetch : Request.t -> FetchResult;
  latency : Request.t -> Z }.

(** [localStorage]: absent ([typeof localStorage === "undefined"]) or a
    string-to-string store. *)
Inductive LocalStorage :=
  | NoStorage
  | Storage (items : gmap string string).

Definition getItem (k : string) (ls : LocalStorage) : option string :=
  match ls with
  | NoStorage => None
  | Storage items => items !! k
  end.

Definition setItem (k v : string) (ls : LocalStorage) : LocalStorage :=
  match ls with
  | NoStorage => NoStorage
  | Storage items => Storage (<[k := v]> items)
  end.

Definition removeItem (k : string) (ls : LocalStorage) : LocalStorage :=
  match ls with
  | NoStorage => NoStorage
  | Storage items => Storage (delete k items)
  end.

(** What a handler reads and changes outside React state: the store, the
    clock ([Date.now()], in milliseconds) and the requests sent so far. *)
Module World.
Record t := mk {
  storage : LocalStorage;
  now : Z;
  sent : list Request.t }.

Definition with_storage (ls : LocalStorage) (w : t) : t :=
  mk ls (now w) (sent w).
End World.

(** A statement that completes or throws. *)
Inductive completion (A : Type) :=
  | Normal (a : A)
  | Thrown.
Arguments Normal {A} a.
Arguments Thrown {A}.

(** ** Session store ([App.tsx]) *)

Definition SESSION_STORAGE_KEY : string := "reqres-todo-session-v1".

Section SessionStore.
Context `{Platform}.

Definition normalizeBaseUrl (value : string) : string :=
  let base :=
    if str_truthy value then value
    else if str_truthy (DemoConfig.baseUrl envConfig)
         then DemoConfig.baseUrl envConfig
         else "" in
  strip_trailing_slash base.

(** The [stored] of [loadStoredSession]: the parsed value itself when it
    wraps a session, a wrapper with an empty base URL around a legacy
    token-only value, [null] otherwise. *)
Definition stored_of_parsed (parsed : value) : value :=
  if truthy (get parsed "session") then parsed
  else if truthy (get parsed "token") then
    VObj [("session", parsed);
          ("baseUrl", VStr "");
          ("projectId", js_coalesce (get parsed "projectId") VNull)]
  else VNull.

(** The body of the [try] block, past the [localStorage] test.  Only
    [JSON.parse] throws: once the token guard has passed, [stored] is an
    object and its members are read without optional chaining. *)
Definition loadStoredSession_try (config : DemoConfig.t) (ls : LocalStorage)
  : completion (option value) * LocalStorage :=
  let raw := getItem SESSION_STORAGE_KEY ls in
  match raw with
  | None => (Normal None, ls)
  | Some raw =>
      if negb (str_truthy raw) then (Normal None, ls)
      else
        match JSON_parse raw with
        | None => (Thrown, ls)
        | Some parsed =>
            let stored := stored_of_parsed parsed in
            if negb (truthy (get (get stored "session") "token"))
            then (Normal None, ls)
            else
              let expectedBaseUrl :=
                normalizeBaseUrl (DemoConfig.baseUrl config) in
              if negb (truthy (get stored "baseUrl"))
                 || negb (strict_eq (get stored "baseUrl")
                            (VStr expectedBaseUrl))
              then (Normal None, removeItem SESSION_STORAGE_KEY ls)
              else if truthy (of_nullable_number
                                (DemoConfig.projectId config))
                      && truthy (get stored "projectId")
                      && negb (strict_eq
                                 (of_nullable_number
                                    (DemoConfig.projectId config))
                                 (get stored "projectId"))
              then (Normal None, removeItem SESSION_STORAGE_KEY ls)
              else (Normal (Some (get stored "session")), ls)
        end
  end.

(** [loadStoredSession]: [null] is [None]. *)
Definition loadStoredSession (config : DemoConfig.t) (ls : LocalStorage)
  : option value * LocalStorage :=
  match ls with
  | NoStorage => (None, ls)
  | Storage _ =>
      match loadStoredSession_try config ls with
      | (Normal r, ls') => (r, ls')
      | (Thrown, ls') => (None, ls')
      end
  end.

(** A [Session] as the object [verifyMagicToken] builds. *)
Definition session_value (s : Session.t) : value :=
  VObj [("token", VStr (Session.token s));
        ("expiresAt", VStr (Session.expiresAt s));
        ("projectId", VNum (Session.projectId s));
        ("email", VStr (Session.email s))].

(** The [StoredSession] that [persistSession] writes. *)
Definition stored_session (session : Session.t) (config : DemoConfig.t)
  : value :=
  VObj [("session", session_value session);
        ("baseUrl", VStr (normalizeBaseUrl (DemoConfig.baseUrl config)));
        ("projectId", js_coalesce (VNum (Session.projectId session)) VNull)].

Definition persistSession (session : Session.t) (config : DemoConfig.t)
    (ls : LocalStorage) : LocalStorage :=
  match ls with
  | NoStorage => ls
  | Storage _ =>
      setItem SESSION_STORAGE_KEY
        (JSON_stringify (stored_session session config)) ls
  end.

(** What the first version of the application (the second [App] of the
    sources) saved under the same key: the bare session,
    [localStorage.setItem(SESSION_STORAGE_KEY, JSON.stringify(session))]. *)
Definition persistSession_v1 (session : Session.t) (ls : LocalStorage)
  : LocalStorage :=
  setItem SESSION_STORAGE_KEY (JSON_stringify (session_value session)) ls.

Definition hasStoredSessionToken (config : DemoConfig.t) (ls : LocalStorage)
  : bool * LocalStorage :=
  let '(loaded, ls') := loadStoredSession config ls in
  (truthy (get (default VNull loaded) "token"), ls').

Definition isSessionExpired (session : option Session.t) (now : Z) : bool :=
  match session with
  | None => true
  | Some s =>
      if negb (str_truthy (Session.expiresAt s)) then true
      else
        match Date_getTime (Session.expiresAt s) with
        | None => true
        | Some expiresAt => expiresAt <=? now
        end
  end.

End SessionStore.

(** ** Transport client ([src/api.ts]) *)

Module ApiError.
Record t := mk {
  message : string;
  status : option Z;
  details : value }.
End ApiError.

(** [new ApiError(message, status, details)]: [Error] stores [String(message)];
    an argument left out is [undefined]. *)
Definition new_ApiError (message : value) (status : option Z) (details : value)
  : ApiError.t :=
  ApiError.mk (ToString message) status details.

(** How an [async] call ends: with a value, with an [ApiError], or with
    another exception (a rejected [fetch]). *)
Inductive Outcome (A : Type) :=
  | Returned (a : A)
  | ThrownApi (e : ApiError.t)
  | ThrownOther.
Arguments Returned {A} a.
Arguments ThrownApi {A} e.
Arguments ThrownOther {A}.

Inductive Require_ := RequirePublic | RequireManage | RequireSession.

Module RequestOptions.
(** [headers] are the caller's [init.headers] (empty when left out), [token]
    and [require] are optional, an absent [body] is [VUndefined]. *)
Record t := mk {
  method : option string;
  headers : gmap string string;
  token : option string;
  usePublicProjectKey : bool;
  useManageProjectKey : bool;
  body : value;
  require : option Require_ }.
End RequestOptions.

Definition require_is (options : RequestOptions.t) (r : Require_) : bool :=
  match RequestOptions.require options, r with
  | Some RequirePublic, RequirePublic
  | Some RequireManage, RequireManage
  | Some RequireSession, RequireSession => true
  | _, _ => false
  end.

Section Transport.
Context `{Platform}.

(** The [url] of [jsonRequest]. *)
Definition request_url (config : DemoConfig.t) (path : string) : string :=
  let base :=
    strip_trailing_slash
      (if str_truthy (DemoConfig.baseUrl config)
       then DemoConfig.baseUrl config else "https://reqres.in") in
  base +:+ (if startsWith path "/" then path else "/" +:+ path).

(** [jsonRequest] up to [await fetch]: the credential checks and the request
    they let through. *)
Definition jsonRequest_prepare (config : DemoConfig.t) (path : string)
    (options : RequestOptions.t) : ApiError.t + Request.t :=
  let url := request_url config path in
  let token := RequestOptions.token options in
  let body := RequestOptions.body options in
  let headers : gmap string string :=
    RequestOptions.headers options
    ∪ (if negb (strict_eq body VUndefined)
       then {[ "Content-Type" := "application/json" ]} else ∅)
    ∪ {[ "Accept" := "application/json" ]} in
  (* if (require === 'session') *)
  let session_step : ApiError.t + gmap string string :=
    if require_is options RequireSession then
      if negb (str_truthy (default "" token))
      then inl (new_ApiError (VStr "Access is required for this action.")
                  None VUndefined)
      else inr (<[ "Authorization" := "Bearer " +:+ default "" token ]> headers)
    else inr headers in
  match session_step with
  | inl e => inl e
  | inr headers =>
      (* if (require === 'public') ... else if (usePublicProjectKey && ...) *)
      let public_step : ApiError.t + gmap string string :=
        if require_is options RequirePublic then
          if negb (str_truthy (DemoConfig.publicProjectKey config))
          then inl (new_ApiError (VStr "Public access key is missing.")
                      None VUndefined)
          else inr (<[ "x-api-key" := DemoConfig.publicProjectKey config ]>
                      headers)
        else if RequestOptions.usePublicProjectKey options
                && str_truthy (DemoConfig.publicProjectKey config)
        then inr (<[ "x-api-key" := DemoConfig.publicProjectKey config ]>
                    headers)
        else inr headers in
      match public_step with
      | inl e => inl e
      | inr headers =>
          (* if (require === 'manage') ... else if (useManageProjectKey && ...) *)
          let manage_step : ApiError.t + gmap string string :=
            if require_is options RequireManage then
              if negb (str_truthy (DemoConfig.manageProjectKey config))
              then inl (new_ApiError (VStr "Management access key is missing.")
                          None VUndefined)
              else inr (<[ "x-api-key" := DemoConfig.manageProjectKey config ]>
                          headers)
            else if RequestOptions.useManageProjectKey options
                    && str_truthy (DemoConfig.manageProjectKey config)
            then inr (<[ "x-api-key" := DemoConfig.manageProjectKey config ]>
                        headers)
            else inr headers in
          match manage_step with
          | inl e => inl e
          | inr headers =>
              let request_body :=
                if nullish body then None
                else Some (match body with
                           | VStr s => s
                           | _ => JSON_stringify body
                           end) in
              inr (Request.mk url (RequestOptions.method options) headers
                     request_body)
          end
      end
  end.

(** The [data] read off a response: [null] for an empty body, the parsed
    JSON, or the raw text where it does not parse. *)
Definition response_data (text : string) : value :=
  if str_truthy text then
    match JSON_parse text with
    | Some data => data
    | None => VStr text
    end
  else VNull.

(** The message of the error raised for a response that is not [ok]. *)
Definition failure_message (data : value) (statusText : string) : value :=
  js_or
    (js_or
       (js_or
          (js_and (VBool (String.eqb (typeof data) "object")) (get data "error"))
          (js_and (VBool (String.eqb (typeof data) "object"))
             (get data "message")))
       (VStr statusText))
    (VStr "Request failed").

(** [jsonRequest] from the response on. *)
Definition jsonRequest_receive (response : Response.t) : Outcome value :=
  let data := response_data (Response.text response) in
  if negb (Response.ok response) then
    ThrownApi
      (new_ApiError (failure_message data (Response.statusText response))
         (Some (Response.status response)) data)
  else Returned (js_coalesce data (VObj [])).

(** [await fetch(url, requestInit)]: the request is logged, the clock moves
    on by the time the answer takes. *)
Definition do_fetch (req : Request.t) (w : World.t) : FetchResult * World.t :=
  (fetch req,
   World.mk (World.storage w) (World.now w + latency req)
     (World.sent w ++ [req])).

Definition jsonRequest (config : DemoConfig.t) (path : string)
    (options : RequestOptions.t) (w : World.t) : Outcome value * World.t :=
  match jsonRequest_prepare config path options with
  | inl e => (ThrownApi e, w)
  | inr req =>
      match do_fetch req w with
      | (Rejected, w') => (ThrownOther, w')
      | (Responded response, w') => (jsonRequest_receive response, w')
      end
  end.

End Transport.

(** ** Record calls ([src/api.ts]) *)

Module TodoPayload.
Record t := mk {
  title : string;
  notes : string;
  completed : bool }.
End TodoPayload.

Module PaginationMeta.
Record t := mk {
  page : Z;
  limit : Z;
  total : Z;
  pages : Z }.
End PaginationMeta.

Inductive Order := Asc | Desc.

Module ListOptions.
(** The [opts] of [fetchTodos]; a field left out is [None]. *)
Record t := mk {
  page : option Z;
  limit : option Z;
  order : option Order }.
End ListOptions.

(** [Number(x) || d] for [x] a number or [undefined]: [NaN] and [0] are
    falsy. *)
Definition number_or (x : option Z) (d : Z) : Z :=
  match x with
  | Some n => if n =? 0 then d else n
  | None => d
  end.

(** The [page], [limit] and [order] that [fetchTodos] puts in its query. *)
Definition effective_page (opts : ListOptions.t) : Z :=
  Z.max 1 (number_or (ListOptions.page opts) 1).

Definition effective_limit (opts : ListOptions.t) : Z :=
  let rawLimit := number_or (ListOptions.limit opts) 10 in
  Z.min (Z.max rawLimit 1) 100.

Definition effective_order (opts : ListOptions.t) : string :=
  match ListOptions.order opts with
  | Some Asc => "asc"
  | _ => "desc"
  end.

(** A [TodoPayload] as the object literal the handlers build. *)
Definition payload_value (todo : TodoPayload.t) : value :=
  VObj [("title", VStr (TodoPayload.title todo));
        ("notes", VStr (TodoPayload.notes todo));
        ("completed", VBool (TodoPayload.completed todo))].

(** The elements of a [TodoItem[]]; a value of another type has none. *)
Definition array_items (v : value) : list value :=
  match v with
  | VArr xs => xs
  | _ => []
  end.

(** [meta.field ?? fallback] at the declared type [number]. *)
Definition meta_field (v : value) (fallback : Z) : Z :=
  match v with
  | VNum n => n
  | _ => fallback
  end.

(** [Math.ceil(a / b)] for [a >= 0] and [b >= 1]. *)
Definition ceil_div (a b : Z) : Z := (a + b - 1) / b.

Section Records.
Context `{Platform}.

Definition session_options (method : string) (sessionToken : string)
    (body : value) : RequestOptions.t :=
  RequestOptions.mk (Some method) ∅ (Some sessionToken) false false body
    (Some RequireSession).

Definition records_path (config : DemoConfig.t) : string :=
  "/app/collections/"
  +:+ encodeURIComponent (DemoConfig.collectionSlug config) +:+ "/records".

Definition todos_path (config : DemoConfig.t) (order : string)
    (limit page : Z) : string :=
  records_path config +:+ "?order=" +:+ order
  +:+ "&limit=" +:+ number_to_string limit
  +:+ "&page=" +:+ number_to_string page.

Definition record_path (config : DemoConfig.t) (todoId : string) : string :=
  records_path config +:+ "/" +:+ encodeURIComponent todoId.

Definition not_configured : ApiError.t :=
  new_ApiError (VStr "Task register is not configured.") None VUndefined.

(** The request [jsonRequest] sends for these options when the token is not
    empty. *)
Definition session_request (config : DemoConfig.t) (path method token : string)
    (body : value) : Request.t :=
  Request.mk (request_url config path) (Some method)
    (<[ "Authorization" := "Bearer " +:+ token ]>
       (∅ ∪ (if negb (strict_eq body VUndefined)
             then {[ "Content-Type" := "application/json" ]} else ∅)
          ∪ {[ "Accept" := "application/json" ]}))
    (if nullish body then None
     else Some (match body with VStr s => s | _ => JSON_stringify body end)).

Definition fetchTodos (config : DemoConfig.t) (sessionToken : string)
    (opts : ListOptions.t) (w : World.t)
  : Outcome (list value * PaginationMeta.t) * World.t :=
  if negb (str_truthy (DemoConfig.collectionSlug config))
  then (ThrownApi not_configured, w)
  else
    let page := effective_page opts in
    let limit := effective_limit opts in
    let order := effective_order opts in
    match jsonRequest config (todos_path config order limit page)
            (session_options "GET" sessionToken VUndefined) w with
    | (ThrownApi e, w') => (ThrownApi e, w')
    | (ThrownOther, w') => (ThrownOther, w')
    | (Returned res, w') =>
        let data := array_items (js_or (get res "data") (VArr [])) in
        let count := Z.of_nat (length data) in
        let fallbackMeta :=
          PaginationMeta.mk page limit count
            (Z.max 1 (ceil_div (if count =? 0 then 1 else count) limit)) in
        let meta :=
          if truthy (get res "meta") then
            PaginationMeta.mk
              (meta_field (get (get res "meta") "page") page)
              (meta_field (get (get res "meta") "limit") limit)
              (meta_field (get (get res "meta") "total")
                 (PaginationMeta.total fallbackMeta))
              (meta_field (get (get res "meta") "pages")
                 (PaginationMeta.pages fallbackMeta))
          else fallbackMeta in
        (Returned (data, meta), w')
    end.

Definition updateTodo (config : DemoConfig.t) (sessionToken todoId : string)
    (todo : TodoPayload.t) (w : World.t) : Outcome value * World.t :=
  if negb (str_truthy (DemoConfig.collectionSlug config))
  then (ThrownApi not_configured, w)
  else
    match jsonRequest config (record_path config todoId)
            (session_options "PUT" sessionToken
               (VObj [("data", payload_value todo)])) w with
    | (Returned res, w') => (Returned (get res "data"), w')
    | other => other
    end.

Definition deleteTodo (config : DemoConfig.t) (sessionToken todoId : string)
    (w : World.t) : Outcome unit * World.t :=
  if negb (str_truthy (DemoConfig.collectionSlug config))
  then (ThrownApi not_configured, w)
  else
    match jsonRequest config (record_path config todoId)
            (session_options "DELETE" sessionToken VUndefined) w with
    | (Returned _, w') => (Returned tt, w')
    | (ThrownApi e, w') => (ThrownApi e, w')
    | (ThrownOther, w') => (ThrownOther, w')
    end.

End Records.

(** ** The [App] component's state and handlers ([App.tsx]) *)

Definition DEFAULT_PAGE_SIZE : Z := 10.

Definition normalizeTodo (data : value) : TodoPayload.t :=
  let source := js_coalesce data (VObj []) in
  let completedValue := get source "completed" in
  TodoPayload.mk
    (match get source "title" with VStr title => title | _ => "" end)
    (match get source "notes" with VStr notes => notes | _ => "" end)
    (match completedValue with
     | VBool b => b
     | VStr s => String.eqb (toLowerCase s) "true"
     | _ => truthy completedValue
     end).

Module AppState.
(** The [useState] cells the modelled handlers read or write.  The request
    log and its toast, which [trackRequest] maintains for the developer
    console, are left out: [trackRequest] returns or rethrows what its action
    does. *)
Record t := mk {
  session : option Session.t;
  profile : option value;
  todos : list value;
  todoDrafts : gmap string TodoPayload.t;
  activeEditId : option string;
  todoBusyId : option string;
  status : option string;
  error : option string;
  tokenInput : string;
  loadingTodos : bool;
  todoMeta : option PaginationMeta.t;
  todoPage : Z;
  todoPageSize : Z }.

Definition setStatus (v : option string) (st : t) : t :=
  mk (session st) (profile st) (todos st) (todoDrafts st) (activeEditId st)
    (todoBusyId st) v (error st) (tokenInput st) (loadingTodos st)
    (todoMeta st) (todoPage st) (todoPageSize st).

Definition setError (v : option string) (st : t) : t :=
  mk (session st) (profile st) (todos st) (todoDrafts st) (activeEditId st)
    (todoBusyId st) (status st) v (tokenInput st) (loadingTodos st)
    (todoMeta st) (todoPage st) (todoPageSize st).

Definition setTodoBusyId (v : option string) (st : t) : t :=
  mk (session st) (profile st) (todos st) (todoDrafts st) (activeEditId st)
    v (status st) (error st) (tokenInput st) (loadingTodos st)
    (todoMeta st) (todoPage st) (todoPageSize st).

Definition setActiveEditId (v : option string) (st : t) : t :=
  mk (session st) (profile st) (todos st) (todoDrafts st) v
    (todoBusyId st) (status st) (error st) (tokenInput st) (loadingTodos st)
    (todoMeta st) (todoPage st) (todoPageSize st).

Definition setLoadingTodos (v : bool) (st : t) : t :=
  mk (session st) (profile st) (todos st) (todoDrafts st) (activeEditId st)
    (todoBusyId st) (status st) (error st) (tokenInput st) v
    (todoMeta st) (todoPage st) (todoPageSize st).

Definition setTodos (v : list value) (st : t) : t :=
  mk (session st) (profile st) v (todoDrafts st) (activeEditId st)
    (todoBusyId st) (status st) (error st) (tokenInput st) (loadingTodos st)
    (todoMeta st) (todoPage st) (todoPageSize st).

Definition setTodoPage (v : Z) (st : t) : t :=
  mk (session st) (profile st) (todos st) (todoDrafts st) (activeEditId st)
    (todoBusyId st) (status st) (error st) (tokenInput st) (loadingTodos st)
    (todoMeta st) v (todoPageSize st).

Definition setTodoPageSize (v : Z) (st : t) : t :=
  mk (session st) (profile st) (todos st) (todoDrafts st) (activeEditId st)
    (todoBusyId st) (status st) (error st) (tokenInput st) (loadingTodos st)
    (todoMeta st) (todoPage st) v.

(** [setTodoMeta(meta); setTodoPage(meta.page); setTodoPageSize(meta.limit)] *)
Definition setPagination (meta : PaginationMeta.t) (st : t) : t :=
  mk (session st) (profile st) (todos st) (todoDrafts st) (activeEditId st)
    (todoBusyId st) (status st) (error st) (tokenInput st) (loadingTodos st)
    (Some meta) (PaginationMeta.page meta) (PaginationMeta.limit meta).
End AppState.

Module RefreshArgs.
(** The argument of [refreshTodos]; a field left out takes its default
    from the state the closure captured.  [activeConfig] is never passed. *)
Record t := mk {
  page : option Z;
  limit : option Z;
  activeSession : option Session.t }.
End RefreshArgs.

(** [todo.id] where a string is expected (a path segment, [todoBusyId]). *)
Definition todo_id (todo : value) : string := ToString (get todo "id").

(** The page [handleDeleteTodo] lists after a delete. *)
Definition nextPage_after_delete (todoMeta : option PaginationMeta.t)
    (todos : list value) : Z :=
  match todoMeta with
  | Some meta =>
      if (Z.of_nat (length todos) <=? 1) && (1 <? PaginationMeta.page meta)
      then PaginationMeta.page meta - 1
      else number_or (Some (PaginationMeta.page meta)) 1
  | None => 1
  end.

(** The page the component shows as current. *)
Definition currentPage (st : AppState.t) : Z :=
  match AppState.todoMeta st with
  | Some meta =>
      if PaginationMeta.page meta =? 0 then AppState.todoPage st
      else PaginationMeta.page meta
  | None => AppState.todoPage st
  end.

(** The payload [handleToggleTodo] sends for [todo]. *)
Definition toggle_payload (todo : value) : TodoPayload.t :=
  let current := normalizeTodo (get todo "data") in
  TodoPayload.mk (TodoPayload.title current) (TodoPayload.notes current)
    (negb (TodoPayload.completed current)).

Section App.
Context `{Platform}.
Variable config : DemoConfig.t.

Definition clearSession (st : AppState.t) (w : World.t)
  : AppState.t * World.t :=
  (AppState.mk None None [] ∅ None (AppState.todoBusyId st)
     (Some "Signed out.") (AppState.error st) "" (AppState.loadingTodos st)
     None 1 DEFAULT_PAGE_SIZE,
   World.with_storage (removeItem SESSION_STORAGE_KEY (World.storage w)) w).

Definition ensureActiveSession (activeSession : option Session.t)
    (missingMessage : string) (st : AppState.t) (w : World.t)
  : option Session.t * AppState.t * World.t :=
  match activeSession with
  | None => (None, AppState.setError (Some missingMessage) st, w)
  | Some s =>
      let '(has, ls) := hasStoredSessionToken config (World.storage w) in
      let w := World.with_storage ls w in
      if negb has then
        let '(st, w) :=
          clearSession
            (AppState.setError (Some "Access not active. Request access.") st)
            w in
        (None, st, w)
      else if isSessionExpired activeSession (World.now w) then
        let '(st, w) :=
          clearSession
            (AppState.setError (Some "Access expired. Request access again.")
               st)
            w in
        (None, st, w)
      else (activeSession, st, w)
  end.

(** [refreshTodos], called from a handler whose closure captured [cl]. *)
Definition refreshTodos (cl : AppState.t) (args : RefreshArgs.t)
    (st : AppState.t) (w : World.t) : AppState.t * World.t :=
  let page := default (AppState.todoPage cl) (RefreshArgs.page args) in
  let limit := default (AppState.todoPageSize cl) (RefreshArgs.limit args) in
  let activeSession :=
    match RefreshArgs.activeSession args with
    | Some s => Some s
    | None => AppState.session cl
    end in
  match activeSession with
  | None => (st, w)
  | Some _ =>
      match ensureActiveSession activeSession
              "Access required. Request access." st w with
      | (None, st, w) => (st, w)
      | (Some readySession, st, w) =>
          let st := AppState.setError None (AppState.setLoadingTodos true st) in
          let '(result, w) :=
            fetchTodos config (Session.token readySession)
              (ListOptions.mk (Some page) (Some limit) (Some Desc)) w in
          let st :=
            match result with
            | Returned (data, meta) =>
                AppState.setPagination meta (AppState.setTodos data st)
            | ThrownApi e =>
                AppState.setError (Some (ApiError.message e)) st
            | ThrownOther =>
                AppState.setError (Some "Could not load records.") st
            end in
          (AppState.setLoadingTodos false st, w)
      end
  end.

(** [handlePageSizeChange], the handler of the page-size control. *)
Definition handlePageSizeChange (cl : AppState.t) (nextLimit : Z) (w : World.t)
  : AppState.t * World.t :=
  let clamped := Z.min (Z.max nextLimit 1) 100 in
  let st := AppState.setTodoPageSize clamped (AppState.setTodoPage 1 cl) in
  refreshTodos cl (RefreshArgs.mk (Some 1) (Some clamped) None) st w.

Definition handleToggleTodo (cl : AppState.t) (todo : value) (w : World.t)
  : AppState.t * World.t :=
  match ensureActiveSession (AppState.session cl)
          "Access required. Request access." cl w with
  | (None, st, w) => (st, w)
  | (Some activeSession, st, w) =>
      let st :=
        AppState.setStatus None
          (AppState.setError None
             (AppState.setTodoBusyId (Some (todo_id todo)) st)) in
      let payload := toggle_payload todo in
      let '(result, w) :=
        updateTodo config (Session.token activeSession) (todo_id todo)
          payload w in
      let st :=
        match result with
        | Returned updated =>
            AppState.setStatus
              (Some (if TodoPayload.completed payload
                     then "Record marked complete."
                     else "Record in progress."))
              (AppState.setTodos
                 (map (fun item =>
                         if strict_eq (get item "id") (get todo "id")
                         then updated else item)
                    (AppState.todos st))
                 st)
        | ThrownApi e => AppState.setError (Some (ApiError.message e)) st
        | ThrownOther => AppState.setError (Some "Could not update record.") st
        end in
      (AppState.setTodoBusyId None st, w)
  end.

(** [handleDeleteTodo]; [confirmDelete] is the answer to [window.confirm]. *)
Definition handleDeleteTodo (cl : AppState.t) (todoId : string)
    (confirmDelete : bool) (w : World.t) : AppState.t * World.t :=
  match ensureActiveSession (AppState.session cl)
          "Access required. Request access." cl w with
  | (None, st, w) => (st, w)
  | (Some activeSession, st, w) =>
      if negb confirmDelete then (st, w)
      else
        let st :=
          AppState.setStatus None
            (AppState.setError None
               (AppState.setTodoBusyId (Some todoId) st)) in
        let '(result, w) :=
          deleteTodo config (Session.token activeSession) todoId w in
        let '(st, w) :=
          match result with
          | Returned _ =>
              let nextPage :=
                nextPage_after_delete (AppState.todoMeta cl)
                  (AppState.todos cl) in
              let st :=
                if bool_decide (AppState.activeEditId cl = Some todoId)
                then AppState.setActiveEditId None st else st in
              let '(st, w) :=
                refreshTodos cl (RefreshArgs.mk (Some nextPage) None None)
                  st w in
              (AppState.setStatus (Some "Record archived.") st, w)
          | ThrownApi e =>
              (AppState.setError (Some (ApiError.message e)) st, w)
          | ThrownOther =>
              (AppState.setError (Some "Could not archive record.") st, w)
          end in
        (AppState.setTodoBusyId None st, w)
  end.

End App.

(** ** Text helpers for the remaining code

    Strings are sequences of code units below 256, so the white space
    [trim] removes is tab, line feed, vertical tab, form feed, carriage
    return, space and no-break space. *)

Definition is_js_space (c : ascii) : bool :=
  let n := nat_of_ascii c in
  (Nat.leb 9 n && Nat.leb n 13) || Nat.eqb n 32 || Nat.eqb n 160.

Fixpoint trimStart (s : string) : string :=
  match s with
  | EmptyString => EmptyString
  | String c rest => if is_js_space c then trimStart rest else s
  end.

Fixpoint trimEnd (s : string) : string :=
  match s with
  | EmptyString => EmptyString
  | String c rest =>
      match trimEnd rest with
      | EmptyString => if is_js_space c then EmptyString else String c EmptyString
      | kept => String c kept
      end
  end.

(** [s.trim()] *)
Definition trim (s : string) : string := trimStart (trimEnd s).

(** ** Configuration resolver ([src/config.ts]) *)

Module Env.
(** [import.meta.env]: the five variables, each possibly unset, and the
    development flag. *)
Record t := mk {
  VITE_REQRES_BASE_URL : option string;
  VITE_REQRES_PROJECT_ID : option string;
  VITE_REQRES_PUBLIC_KEY : option string;
  VITE_REQRES_MANAGE_KEY : option string;
  VITE_REQRES_COLLECTION_SLUG : option string;
  DEV : bool }.
End Env.

(** [value || fallback] for an optional string. *)
Definition string_or (value : option string) (fallback : string) : string :=
  match value with
  | Some s => if str_truthy s then s else fallback
  | None => fallback
  end.

Definition sanitizeBaseUrl (value : option string) : string :=
  match value with
  | None => ""
  | Some s => if str_truthy s then trim (strip_trailing_slash s) else ""
  end.

Section Resolver.
(** [Number(text)] where it is a finite number, [None] where it is [NaN] or
    infinite. *)
Variable StringToNumber : string -> option Z.

Definition numberFromEnv (value : option string) : option Z :=
  match value with
  | None => None
  | Some s => if str_truthy s then StringToNumber s else None
  end.

(** The [envConfig] of [config.ts], as a function of the environment. *)
Definition resolveConfig (env : Env.t) : DemoConfig.t :=
  DemoConfig.mk
    (string_or (Some (sanitizeBaseUrl (Env.VITE_REQRES_BASE_URL env)))
       (if Env.DEV env then "http://localhost:8000" else "https://reqres.in"))
    (numberFromEnv (Env.VITE_REQRES_PROJECT_ID env))
    (trim (string_or (Env.VITE_REQRES_PUBLIC_KEY env) ""))
    (trim (string_or (Env.VITE_REQRES_MANAGE_KEY env) ""))
    (trim (string_or (Env.VITE_REQRES_COLLECTION_SLUG env) "todos")).

(** [Number(v)] for a value; an array or an object goes through its string
    form. *)
Definition ToNumber (v : value) : option Z :=
  match v with
  | VUndefined => None
  | VNull => Some 0
  | VBool b => Some (if b then 1 else 0)
  | VNum n => Some n
  | VStr s => StringToNumber s
  | VArr _ | VObj _ => StringToNumber (ToString v)
  end.

End Resolver.

(** ** The remaining calls of [src/api.ts]

    Beside the keys [get] lists, these read [total], [data], [sent],
    [magicLink], [expires_in_minutes], [note], [message], [session_token],
    [expires_at], [project_id] and [email], none of them a builtin member of
    a string, a number, a boolean or an array. *)

Definition project_missing : ApiError.t :=
  new_ApiError (VStr "Project identifier is missing. Update configuration.")
    None VUndefined.

(** The options of a call made with a project key. *)
Definition key_options (method : string) (body : value) (r : Require_)
  : RequestOptions.t :=
  RequestOptions.mk (Some method) ∅ None false false body (Some r).

(** [!config.projectId] *)
Definition no_project (config : DemoConfig.t) : bool :=
  negb (truthy (of_nullable_number (DemoConfig.projectId config))).

(** [config.projectId] past the guard [!config.projectId]. *)
Definition project_number (config : DemoConfig.t) : Z :=
  default 0 (DemoConfig.projectId config).

Section Calls.
Context `{Platform}.
Variable StringToNumber : string -> option Z.

Definition total_path (config : DemoConfig.t) : string :=
  "/api/projects/" +:+ number_to_string (project_number config)
  +:+ "/app-users/total".

(** [Number(res.total) || 0] is read with [ToNumber]: a [total] that is a
    text reading as an infinite number is outside [Z] and counts as zero. *)
Definition fetchAppUserTotal (config : DemoConfig.t) (w : World.t)
  : Outcome Z * World.t :=
  if no_project config then (ThrownApi project_missing, w)
  else
    let canUsePublic := str_truthy (DemoConfig.publicProjectKey config) in
    let canUseManage := str_truthy (DemoConfig.manageProjectKey config) in
    if negb canUsePublic && negb canUseManage then
      (ThrownApi
         (new_ApiError
            (VStr "Access key is missing. Add a public or management key.")
            None VUndefined),
       w)
    else
      match jsonRequest config (total_path config)
              (key_options "GET" VUndefined
                 (if canUsePublic then RequirePublic else RequireManage))
              w with
      | (Returned res, w') =>
          (Returned
             (match get res "total" with
              | VNum total => total
              | other => default 0 (ToNumber StringToNumber other)
              end),
           w')
      | (ThrownApi e, w') => (ThrownApi e, w')
      | (ThrownOther, w') => (ThrownOther, w')
      end.

Definition login_body (config : DemoConfig.t) (email : string) : value :=
  VObj [("email", VStr email); ("project_id", VNum (project_number config))].

(** The [MagicLinkResult] built from the payload of the login response. *)
Definition magic_link_result (res : value) : value :=
  let payload := js_coalesce (get res "data") res in
  VObj [("sent", VBool (truthy (js_coalesce (get payload "sent") (VBool true))));
        ("token", get payload "token");
        ("magicLink", get payload "magicLink");
        ("expiresInMinutes", get payload "expires_in_minutes");
        ("note", get payload "note");
        ("message", get payload "message")].

Definition requestMagicLink (config : DemoConfig.t) (email : string)
    (w : World.t) : Outcome value * World.t :=
  if no_project config then (ThrownApi project_missing, w)
  else if negb (str_truthy (DemoConfig.publicProjectKey config)) then
    (ThrownApi
       (new_ApiError
          (VStr "Public access key is missing. Access requests are disabled.")
          None VUndefined),
     w)
  else
    match jsonRequest config "/api/app-users/login"
            (key_options "POST" (login_body config email) RequirePublic) w with
    | (Returned res, w') => (Returned (magic_link_result res), w')
    | other => other
    end.

Definition verify_body (config : DemoConfig.t) (token : string) : value :=
  VObj [("token", VStr token); ("project_id", VNum (project_number config))].

(** The session object [verifyMagicToken] returns; reading a field of a
    [data] that is [null] or [undefined] throws a [TypeError]. *)
Definition verified_session (res : value) : Outcome value :=
  let data := get res "data" in
  if nullish data then ThrownOther
  else
    Returned
      (VObj [("token", get data "session_token");
             ("expiresAt", get data "expires_at");
             ("projectId", get data "project_id");
             ("email", get data "email")]).

Definition verifyMagicToken (config : DemoConfig.t) (token : string)
    (w : World.t) : Outcome value * World.t :=
  if no_project config then (ThrownApi project_missing, w)
  else
    match jsonRequest config "/api/app-users/verify"
            (key_options "POST" (verify_body config token) RequireManage) w with
    | (Returned res, w') => (verified_session res, w')
    | other => other
    end.

Definition fetchProfile (config : DemoConfig.t) (sessionToken : string)
    (w : World.t) : Outcome value * World.t :=
  match jsonRequest config "/api/app-users/me"
          (session_options "GET" sessionToken VUndefined) w with
  | (Returned res, w') => (Returned (get res "data"), w')
  | other => other
  end.

Definition createTodo (config : DemoConfig.t) (sessionToken : string)
    (todo : TodoPayload.t) (w : World.t) : Outcome value * World.t :=
  if negb (str_truthy (DemoConfig.collectionSlug config))
  then (ThrownApi not_configured, w)
  else
    match jsonRequest config (records_path config)
            (session_options "POST" sessionToken
               (VObj [("data", payload_value todo)])) w with
    | (Returned res, w') => (Returned (get res "data"), w')
    | other => other
    end.

End Calls.

Section KeyRequests.
Context `{Platform}.

(** The request [jsonRequest] sends for [key_options] when the key is
    configured. *)
Definition key_request (config : DemoConfig.t) (path method : string)
    (body : value) (key : string) : Request.t :=
  Request.mk (request_url config path) (Some method)
    (<[ "x-api-key" := key ]>
       (∅ ∪ (if negb (strict_eq body VUndefined)
             then {[ "Content-Type" := "application/json" ]} else ∅)
          ∪ {[ "Accept" := "application/json" ]}))
    (if nullish body then None
     else Some (match body with VStr s => s | _ => JSON_stringify body end)).

End KeyRequests.

(** A call leaves the log of requests as it was or adds one request, of
    which [P] holds. *)
Definition sends_at_most_one (w w' : World.t) (P : Request.t -> Prop) : Prop :=
  World.sent w' = World.sent w
  \/ exists req, World.sent w' = World.sent w ++ [req] /\ P req.

(** The request carries the bearer token and no project key. *)
Definition bearer_only (token : string) (req : Request.t) : Prop :=
  Request.headers req !! "Authorization" = Some ("Bearer " +:+ token)
  /\ Request.headers req !! "x-api-key" = None.

(** The request carries this project key and no bearer token. *)
Definition key_only (key : string) (req : Request.t) : Prop :=
  Request.headers req !! "x-api-key" = Some key
  /\ Request.headers req !! "Authorization" = None.

(** ** The remaining state and handlers of [App.tsx] *)

Definition emptyTodo : TodoPayload.t := TodoPayload.mk "" "" false.

Definition MAX_LOGS : nat := 50.

Inductive RequestLogStatus := Pending | Success | Failed.

Module ApiRequestLog.
Record t := mk {
  id : string;
  time : string;
  method : string;
  path : string;
  description : string;
  status : RequestLogStatus;
  errorMessage : option string }.
End ApiRequestLog.

Module LogPatch.
(** A [Partial<ApiRequestLog>]: the fields the patch sets. *)
Record t := mk {
  id : option string;
  time : option string;
  method : option string;
  path : option string;
  description : option string;
  status : option RequestLogStatus;
  errorMessage : option (option string) }.
End LogPatch.

(** [{ ...log, ...patch }] *)
Definition apply_patch (log : ApiRequestLog.t) (patch : LogPatch.t)
  : ApiRequestLog.t :=
  ApiRequestLog.mk
    (default (ApiRequestLog.id log) (LogPatch.id patch))
    (default (ApiRequestLog.time log) (LogPatch.time patch))
    (default (ApiRequestLog.method log) (LogPatch.method patch))
    (default (ApiRequestLog.path log) (LogPatch.path patch))
    (default (ApiRequestLog.description log) (LogPatch.description patch))
    (default (ApiRequestLog.status log) (LogPatch.status patch))
    (default (ApiRequestLog.errorMessage log) (LogPatch.errorMessage patch)).

Module LogState.
(** The cells [requestLogs] and [requestToast]. *)
Record t := mk {
  requestLogs : list ApiRequestLog.t;
  requestToast : option ApiRequestLog.t }.
End LogState.

Definition pushRequestLog (entry : ApiRequestLog.t) (logs : LogState.t)
  : LogState.t :=
  LogState.mk (take MAX_LOGS (entry :: LogState.requestLogs logs)) (Some entry).

Definition updateRequestLog (id : string) (patch : LogPatch.t)
    (logs : LogState.t) : LogState.t :=
  LogState.mk
    (map (fun log =>
            if String.eqb (ApiRequestLog.id log) id then apply_patch log patch
            else log)
       (LogState.requestLogs logs))
    (LogState.requestToast logs).

Inductive Filter := FilterAll | FilterActive | FilterCompleted.

(** [normalizeTodo(todo.data).completed] *)
Definition is_completed (todo : value) : bool :=
  TodoPayload.completed (normalizeTodo (get todo "data")).

Definition visibleTodos (filter : Filter) (todos : list value) : list value :=
  match filter with
  | FilterAll => todos
  | _ =>
      let needsCompleted :=
        match filter with FilterCompleted => true | _ => false end in
      List.filter (fun todo => Bool.eqb (is_completed todo) needsCompleted) todos
  end.

Definition completedCount (todos : list value) : Z :=
  Z.of_nat (length (List.filter is_completed todos)).

Definition remainingCount (todos : list value) : Z :=
  Z.of_nat (length todos) - completedCount todos.

Inductive Direction := Prev | Next.

(** The setters of [AppState] the handlers above did not need. *)
Definition setTodoDrafts (v : gmap string TodoPayload.t) (st : AppState.t)
  : AppState.t :=
  AppState.mk (AppState.session st) (AppState.profile st) (AppState.todos st)
    v (AppState.activeEditId st) (AppState.todoBusyId st) (AppState.status st)
    (AppState.error st) (AppState.tokenInput st) (AppState.loadingTodos st)
    (AppState.todoMeta st) (AppState.todoPage st) (AppState.todoPageSize st).

Module Forms.
(** The cells of the create form. *)
Record t := mk {
  draftTodo : TodoPayload.t;
  creatingTodo : bool }.
End Forms.

(** [{ ...draft, title: draft.title.trim(), notes: draft.notes.trim() }] *)
Definition trimmed_payload (draft : TodoPayload.t) : TodoPayload.t :=
  TodoPayload.mk (trim (TodoPayload.title draft))
    (trim (TodoPayload.notes draft)) (TodoPayload.completed draft).

Section MoreHandlers.
Context `{Platform}.
Variable config : DemoConfig.t.

(** [ensureConfigReady] *)
Definition ensureConfigReady (st : AppState.t) : bool * AppState.t :=
  if negb (configReady config)
  then (false,
        AppState.setError (Some "System configuration is incomplete.") st)
  else (true, st).

Definition handlePageChange (cl : AppState.t) (direction : Direction)
    (w : World.t) : AppState.t * World.t :=
  let current := currentPage cl in
  let totalPages :=
    match AppState.todoMeta cl with
    | Some meta => number_or (Some (PaginationMeta.pages meta)) 1
    | None => 1
    end in
  let nextPage :=
    match direction with
    | Prev => Z.max 1 (current - 1)
    | Next => Z.min totalPages (current + 1)
    end in
  let st := AppState.setTodoPage nextPage cl in
  refreshTodos config cl (RefreshArgs.mk (Some nextPage) None None) st w.

Definition beginEditTodo (cl : AppState.t) (todo : value) : AppState.t :=
  let draft := normalizeTodo (get todo "data") in
  AppState.setError None
    (AppState.setStatus None
       (setTodoDrafts (<[todo_id todo := draft]> (AppState.todoDrafts cl))
          (AppState.setActiveEditId (Some (todo_id todo)) cl))).

Definition cancelEditTodo (cl : AppState.t) : AppState.t :=
  AppState.setTodoBusyId None (AppState.setActiveEditId None cl).

Definition handleUpdateTodo (cl : AppState.t) (todoId : string) (w : World.t)
  : AppState.t * World.t :=
  match ensureActiveSession config (AppState.session cl)
          "Access required. Request access." cl w with
  | (None, st, w) => (st, w)
  | (Some activeSession, st, w) =>
      match AppState.todoDrafts cl !! todoId with
      | Some draft =>
          if negb (str_truthy (trim (TodoPayload.title draft))) then
            (AppState.setError (Some "Enter a record title before saving.") st,
             w)
          else
            let st :=
              AppState.setStatus None
                (AppState.setError None
                   (AppState.setTodoBusyId (Some todoId) st)) in
            let payload := trimmed_payload draft in
            let '(result, w) :=
              updateTodo config (Session.token activeSession) todoId payload
                w in
            let st :=
              match result with
              | Returned updated =>
                  AppState.setActiveEditId None
                    (AppState.setStatus (Some "Record updated.")
                       (AppState.setTodos
                          (map (fun todo =>
                                  if strict_eq (get todo "id") (VStr todoId)
                                  then updated else todo)
                             (AppState.todos st))
                          st))
              | ThrownApi e => AppState.setError (Some (ApiError.message e)) st
              | ThrownOther =>
                  AppState.setError (Some "Could not update record.") st
              end in
            (AppState.setTodoBusyId None st, w)
      | None =>
          (AppState.setError (Some "Enter a record title before saving.") st, w)
      end
  end.

Definition handleCreateTodo (cl : AppState.t) (form : Forms.t) (w : World.t)
  : AppState.t * Forms.t * World.t :=
  match ensureActiveSession config (AppState.session cl)
          "Access required. Request access." cl w with
  | (None, st, w) => (st, form, w)
  | (Some activeSession, st, w) =>
      let draftTodo := Forms.draftTodo form in
      if negb (str_truthy (trim (TodoPayload.title draftTodo))) then
        (AppState.setError (Some "Enter a record title before saving.") st,
         form, w)
      else
        let st := AppState.setError None st in
        let payload := trimmed_payload draftTodo in
        let '(result, w) :=
          createTodo config (Session.token activeSession) payload w in
        let '(st, draft, w) :=
          match result with
          | Returned _ =>
              let st := AppState.setTodoPage 1 st in
              let '(st, w) :=
                refreshTodos config cl (RefreshArgs.mk (Some 1) None None)
                  st w in
              (AppState.setStatus (Some "Record created.") st, emptyTodo, w)
          | ThrownApi e =>
              (AppState.setError (Some (ApiError.message e)) st, draftTodo, w)
          | ThrownOther =>
              (AppState.setError (Some "Could not add record.") st, draftTodo,
               w)
          end in
        (st, Forms.mk draft false, w)
  end.

End MoreHandlers.

(** A text of white space only, the empty text included. *)
Fixpoint blank (s : string) : bool :=
  match s with
  | EmptyString => true
  | String c rest => is_js_space c && blank rest
  end.

(** The store is as it was, or the session key was removed from it. *)
Definition store_kept_or_signed_out (w w' : World.t) : Prop :=
  World.storage w' = World.storage w
  \/ World.storage w' = removeItem SESSION_STORAGE_KEY (World.storage w).

(** ** Vocabulary of the specification

    The notions the specification states its properties with, defined from
    its words, to be compared with what the code computes. *)

(** The first candidate that is present, that is, truthy: an empty string,
    [null], [false] and [0] count as absent, as an absent field does. *)
Definition first_present (candidates : list value) (fallback : value) : value :=
  match filter (fun v => truthy v = true) candidates with
  | v :: _ => v
  | [] => fallback
  end.

(** A field of a parsed JSON body; a body that is no JSON object has none. *)
Definition body_field (data : value) (k : string) : value :=
  match data with
  | VObj fields => default VUndefined (assoc k fields)
  | _ => VUndefined
  end.

(** The error message of a failed request: the [error] field of the body,
    else its [message] field, else the status text, else a fixed string. *)
Definition cascade_message (data : value) (statusText : string) : value :=
  first_present
    [body_field data "error"; body_field data "message"; VStr statusText]
    (VStr "Request failed").



(** A payload keeps every field of a record's data but the completion
    flag. *)
Definition preserves_other_fields (data payload : value) : Prop :=
  forall k, k <> "completed" -> get payload k = get data k.

(** A session as the data model describes it: a token, an expiry time and
    an owner email that are strings, and a project id that is a number. *)
Definition is_session (v : value) : bool :=
  match get v "token", get v "expiresAt", get v "projectId", get v "email" with
  | VStr _, VStr _, VNum _, VStr _ => true
  | _, _, _, _ => false
  end.

(** ** A reference platform

    Executable stand-ins for the browser services, used to run the model on
    concrete inputs: a JSON printer and parser over [value] (integers only,
    strings of code units below 256), the clock reading of an ISO-8601 UTC
    date, percent-encoding, and a small scripted service. *)

Module Reference.

Definition dquote : ascii := ascii_of_nat 34.
Definition backslash : ascii := ascii_of_nat 92.

(** JSON text written with single quotes for double quotes. *)
Fixpoint json_text (s : string) : string :=
  match s with
  | EmptyString => EmptyString
  | String c rest =>
      String (if Ascii.eqb c "'" then dquote else c) (json_text rest)
  end.

Definition hex_digit (n : nat) : ascii :=
  ascii_of_nat (if Nat.ltb n 10 then 48 + n else 55 + n).

Definition lower_hex_digit (n : nat) : ascii :=
  ascii_of_nat (if Nat.ltb n 10 then 48 + n else 87 + n).

(** The letter of the two-character escape of a control character. *)
Definition short_escape (n : nat) : option ascii :=
  if Nat.eqb n 8 then Some "b"%char
  else if Nat.eqb n 9 then Some "t"%char
  else if Nat.eqb n 10 then Some "n"%char
  else if Nat.eqb n 12 then Some "f"%char
  else if Nat.eqb n 13 then Some "r"%char
  else None.

Fixpoint escape (s : string) : string :=
  match s with
  | EmptyString => EmptyString
  | String c rest =>
      let n := nat_of_ascii c in
      if Ascii.eqb c dquote then String backslash (String dquote (escape rest))
      else if Ascii.eqb c backslash
      then String backslash (String backslash (escape rest))
      else if Nat.ltb n 32 then
        match short_escape n with
        | Some letter => String backslash (String letter (escape rest))
        | None =>
            String backslash
              ("u00" +:+ String (lower_hex_digit (Nat.div n 16))
                           (String (lower_hex_digit (Nat.modulo n 16))
                              (escape rest)))
        end
      else String c (escape rest)
  end.

Definition quoted (s : string) : string :=
  String dquote (escape s +:+ String dquote EmptyString).

(** [JSON.stringify]: a field whose value is [undefined] is dropped, an
    [undefined] array element prints as [null]. *)
Fixpoint stringify (v : value) : string :=
  match v with
  | VUndefined | VNull => "null"
  | VBool true => "true"
  | VBool false => "false"
  | VNum n => number_to_string n
  | VStr s => quoted s
  | VArr xs => "[" +:+ join "," (map stringify xs) +:+ "]"
  | VObj fields =>
      "{" +:+
      join ","
        (omap (fun '(k, x) =>
                 if strict_eq x VUndefined then None
                 else Some (quoted k +:+ ":" +:+ stringify x))
           fields)
      +:+ "}"
  end.

Definition is_space (c : ascii) : bool :=
  let n := nat_of_ascii c in
  Nat.eqb n 32 || Nat.eqb n 9 || Nat.eqb n 10 || Nat.eqb n 13.

Fixpoint skip_space (s : string) : string :=
  match s with
  | String c rest => if is_space c then skip_space rest else s
  | EmptyString => s
  end.

Definition digit_value (c : ascii) : option Z :=
  let n := nat_of_ascii c in
  if Nat.leb 48 n && Nat.leb n 57 then Some (Z.of_nat (n - 48)) else None.

Definition hex_value (c : ascii) : option nat :=
  let n := nat_of_ascii c in
  if Nat.leb 48 n && Nat.leb n 57 then Some (n - 48)%nat
  else if Nat.leb 65 n && Nat.leb n 70 then Some (n - 55)%nat
  else if Nat.leb 97 n && Nat.leb n 102 then Some (n - 87)%nat
  else None.

(** The digits at the head of [s], read onto [acc], and what follows. *)
Fixpoint read_digits (acc : Z) (s : string) : Z * string :=
  match s with
  | String c rest =>
      match digit_value c with
      | Some d => read_digits (10 * acc + d) rest
      | None => (acc, s)
      end
  | EmptyString => (acc, s)
  end.

Definition starts_with_digit (s : string) : bool :=
  match s with
  | String c _ => bool_decide (is_Some (digit_value c))
  | EmptyString => false
  end.

(** An integer literal without leading zeros, read exactly (the builtin
    rounds an integer beyond [2^53] in size).  A fraction or an exponent is
    refused: [value] has integers only. *)
Definition read_number (s : string) : option (Z * string) :=
  let '(negative, body) :=
    match s with
    | String "-" rest => (true, rest)
    | _ => (false, s)
    end in
  let leading_zero :=
    match body with
    | String "0" rest => starts_with_digit rest
    | _ => false
    end in
  if leading_zero then None
  else if starts_with_digit body then
    let '(n, rest) := read_digits 0 body in
    match rest with
    | String "." _ | String "e" _ | String "E" _ => None
    | _ => Some (if negative then - n else n, rest)
    end
  else None.

(** The characters of a string literal after its opening quote. *)
Fixpoint read_string (s : string) : option (string * string) :=
  match s with
  | EmptyString => None
  | String c rest =>
      if Ascii.eqb c dquote then Some (EmptyString, rest)
      else if Ascii.eqb c backslash then
        match rest with
        | String e rest' =>
            let plain (x : ascii) (tail : string) :=
              match read_string tail with
              | Some (str, out) => Some (String x str, out)
              | None => None
              end in
            if Ascii.eqb e dquote then plain dquote rest'
            else if Ascii.eqb e backslash then plain backslash rest'
            else if Ascii.eqb e "/" then plain "/"%char rest'
            else if Ascii.eqb e "n" then plain (ascii_of_nat 10) rest'
            else if Ascii.eqb e "r" then plain (ascii_of_nat 13) rest'
            else if Ascii.eqb e "t" then plain (ascii_of_nat 9) rest'
            else if Ascii.eqb e "b" then plain (ascii_of_nat 8) rest'
            else if Ascii.eqb e "f" then plain (ascii_of_nat 12) rest'
            else if Ascii.eqb e "u" then
              match rest' with
              | String "0" (String "0" (String h (String l tail))) =>
                  match hex_value h, hex_value l with
                  | Some hi, Some lo =>
                      plain (ascii_of_nat (16 * hi + lo)) tail
                  | _, _ => None
                  end
              | _ => None
              end
            else None
        | EmptyString => None
        end
      else if Nat.ltb (nat_of_ascii c) 32 then None
      else
        match read_string rest with
        | Some (str, out) => Some (String c str, out)
        | None => None
        end
  end.

(** [obj[k] = v]: a repeated key keeps its place and takes the later value. *)
Fixpoint set_field (k : string) (v : value) (fields : list (string * value))
  : list (string * value) :=
  match fields with
  | [] => [(k, v)]
  | (k', v') :: rest =>
      if String.eqb k k' then (k, v) :: rest
      else (k', v') :: set_field k v rest
  end.

Definition expect (p : string) (s : string) : option string :=
  if String.prefix p s
  then Some (String.substring (String.length p)
               (String.length s - String.length p) s)
  else None.

Fixpoint read_value (fuel : nat) (s : string) : option (value * string) :=
  match fuel with
  | O => None
  | S fuel =>
      match skip_space s with
      | String "n" _ => pair VNull <$> expect "null" (skip_space s)
      | String "t" _ => pair (VBool true) <$> expect "true" (skip_space s)
      | String "f" _ => pair (VBool false) <$> expect "false" (skip_space s)
      | String "[" rest =>
          match skip_space rest with
          | String "]" out => Some (VArr [], out)
          | _ =>
              '(xs, out) ← read_elements fuel rest;
              Some (VArr xs, out)
          end
      | String "{" rest =>
          match skip_space rest with
          | String "}" out => Some (VObj [], out)
          | _ =>
              '(fields, out) ← read_members fuel [] rest;
              Some (VObj fields, out)
          end
      | String c rest =>
          if Ascii.eqb c dquote then
            '(str, out) ← read_string rest;
            Some (VStr str, out)
          else
            '(n, out) ← read_number (String c rest);
            Some (VNum n, out)
      | EmptyString => None
      end
  end
with read_elements (fuel : nat) (s : string) : option (list value * string) :=
  match fuel with
  | O => None
  | S fuel =>
      '(x, out) ← read_value fuel s;
      match skip_space out with
      | String "," rest =>
          '(xs, out') ← read_elements fuel rest;
          Some (x :: xs, out')
      | String "]" rest => Some ([x], rest)
      | _ => None
      end
  end
with read_members (fuel : nat) (acc : list (string * value)) (s : string)
  : option (list (string * value) * string) :=
  match fuel with
  | O => None
  | S fuel =>
      match skip_space s with
      | String c rest =>
          if Ascii.eqb c dquote then
            '(k, out) ← read_string rest;
            match skip_space out with
            | String ":" rest' =>
                '(x, out') ← read_value fuel rest';
                let acc := set_field k x acc in
                match skip_space out' with
                | String "," rest'' => read_members fuel acc rest''
                | String "}" rest'' => Some (acc, rest'')
                | _ => None
                end
            | _ => None
            end
          else None
      | EmptyString => None
      end
  end.

(** [JSON.parse]: one value, then nothing but white space. *)
Definition parse (s : string) : option value :=
  '(v, out) ← read_value (2 * String.length s + 2) s;
  match skip_space out with
  | EmptyString => Some v
  | _ => None
  end.

(** A run of decimal digits, as a number. *)
Definition digits (s : string) : option Z :=
  if starts_with_digit s then
    match read_digits 0 s with
    | (n, EmptyString) => Some n
    | _ => None
    end
  else None.

Definition is_leap (y : Z) : bool :=
  ((y mod 4 =? 0) && negb (y mod 100 =? 0)) || (y mod 400 =? 0).

Definition days_in_month (y m : Z) : Z :=
  if m =? 2 then (if is_leap y then 29 else 28)
  else if (m =? 4) || (m =? 6) || (m =? 9) || (m =? 11) then 30
  else 31.

(** Days from 1970-01-01 to the given day of the Gregorian calendar. *)
Definition days_from_epoch (y m d : Z) : Z :=
  let y' := if m <=? 2 then y - 1 else y in
  let era := y' / 400 in
  let yoe := y' - era * 400 in
  let doy := (153 * (if 2 <? m then m - 3 else m + 9) + 2) / 5 + d - 1 in
  let doe := yoe * 365 + yoe / 4 - yoe / 100 + doy in
  era * 146097 + doe - 719468.

(** The fraction of a second that ends a date, in microseconds: [Z] alone,
    or a point, one or more digits of which the first six count, and [Z]. *)
Definition fraction_us (rest : string) : option Z :=
  if String.eqb rest "Z" then Some 0
  else
    let n := String.length rest in
    if String.eqb (String.substring 0 1 rest) "."
       && String.eqb (String.substring (n - 1)%nat 1 rest) "Z"
    then
      let ds := String.substring 1 (n - 2)%nat rest in
      _ ← digits ds;
      digits (String.substring 0 6 (ds +:+ "000000"))
    else None.

(** The instant a date of the form [YYYY-MM-DDTHH:mm:ssZ], with or without
    a fraction of a second, denotes, in microseconds since the epoch.  Dates
    of other forms are not read: they count as invalid. *)
Definition iso_instant (s : string) : option Z :=
  let part (from len : nat) := String.substring from len s in
  if String.eqb (part 4%nat 1%nat) "-" && String.eqb (part 7%nat 1%nat) "-"
     && String.eqb (part 10%nat 1%nat) "T" && String.eqb (part 13%nat 1%nat) ":"
     && String.eqb (part 16%nat 1%nat) ":"
  then
    y ← digits (part 0%nat 4%nat);
    m ← digits (part 5%nat 2%nat);
    d ← digits (part 8%nat 2%nat);
    hh ← digits (part 11%nat 2%nat);
    mm ← digits (part 14%nat 2%nat);
    ss ← digits (part 17%nat 2%nat);
    us ← fraction_us (part 19%nat (String.length s - 19)%nat);
    if (1 <=? m) && (m <=? 12) && (1 <=? d) && (d <=? days_in_month y m)
       && (hh <=? 23) && (mm <=? 59) && (ss <=? 59)
    then Some ((((days_from_epoch y m d * 24 + hh) * 60 + mm) * 60 + ss)
               * 1000000 + us)
    else None
  else None.

(** [new Date(s).getTime()]: the instant in whole milliseconds, what is
    left of the fraction dropped. *)
Definition iso_getTime (s : string) : option Z :=
  us ← iso_instant s; Some (us / 1000).

Definition unreserved (c : ascii) : bool :=
  let n := nat_of_ascii c in
  (Nat.leb 48 n && Nat.leb n 57) || (Nat.leb 65 n && Nat.leb n 90)
  || (Nat.leb 97 n && Nat.leb n 122)
  || bool_decide (c ∈ ["-"; "_"; "."; "!"; "~"; "*"; "'"; "("; ")"]%char).

(** One byte, percent-escaped, before [rest]. *)
Definition escaped_byte (n : nat) (rest : string) : string :=
  String "%" (String (hex_digit (Nat.div n 16))
                (String (hex_digit (Nat.modulo n 16)) rest)).

(** [encodeURIComponent] on strings of code units below 256: a code unit
    below 128 is one byte, one from 128 on the two bytes of its UTF-8
    form. *)
Fixpoint percent_encode (s : string) : string :=
  match s with
  | EmptyString => EmptyString
  | String c rest =>
      if unreserved c then String c (percent_encode rest)
      else
        let n := nat_of_ascii c in
        if Nat.ltb n 128 then escaped_byte n (percent_encode rest)
        else
          escaped_byte (192 + Nat.div n 64)
            (escaped_byte (128 + Nat.modulo n 64) (percent_encode rest))
  end.

(** A scripted service: it archives on [DELETE], echoes the payload of a
    [PUT] inside a record, lists one empty page on [GET], and refuses
    anything else. *)
Definition service (req : Request.t) : FetchResult :=
  match Request.method req with
  | Some "DELETE" => Responded (Response.mk true 204 "No Content" "")
  | Some "PUT" =>
      let sent := default VNull (Request.body req ≫= parse) in
      Responded
        (Response.mk true 200 "OK"
           (stringify
              (VObj [("data",
                      VObj [("id", VStr "r1");
                            ("data", get sent "data");
                            ("created_at", VStr "2030-01-01T00:00:00.000Z");
                            ("updated_at", VStr "2030-01-02T00:00:00.000Z")])])))
  | Some "GET" =>
      Responded
        (Response.mk true 200 "OK"
           (json_text
              "{'data':[],'meta':{'page':1,'limit':10,'total':0,'pages':1}}"))
  | _ =>
      Responded
        (Response.mk false 404 "Not Found" (json_text "{'error':'Not found'}"))
  end.

(** A service that turns every request down with the given response. *)
Definition refusing (response : Response.t) (req : Request.t) : FetchResult :=
  Responded response.

Definition config : DemoConfig.t :=
  DemoConfig.mk "https://reqres.in" (Some 7) "pub_key" "manage_key" "todos".

(** The reference platform over a service whose answers take 120 ms. *)
Definition platform (remote : Request.t -> FetchResult) : Platform :=
  {| envConfig := config;
     JSON_parse := parse;
     JSON_stringify := stringify;
     Date_getTime := iso_getTime;
     encodeURIComponent := percent_encode;
     fetch := remote;
     latency := fun _ => 120 |}.

(** Sample data. *)
Definition online : Platform := platform service.

Definition unauthorized : Response.t :=
  Response.mk false 401 "Unauthorized"
    (json_text "{'error':'Invalid token','message':'Sign in again'}").

Definition turned_down : Platform := platform (refusing unauthorized).

Definition session0 : Session.t :=
  Session.mk "tok" "2030-01-01T00:00:00.000Z" 7 "a@b.com".

(** The clock reading of [session0]'s expiry. *)
Definition expiry0 : Z := 1893456000000.

(** A session that expires one microsecond after [session0] does, and the
    store after it was saved under [config]. *)
Definition session1 : Session.t :=
  Session.mk "tok" "2030-01-01T00:00:00.000001Z" 7 "a@b.com".

Definition empty_world : World.t := World.mk (Storage ∅) 0 [].

(** A store that holds one text under the session key. *)
Definition holding (raw : string) : LocalStorage :=
  Storage {[ SESSION_STORAGE_KEY := raw ]}.

(** [session0] as the first version of the application stored it: the bare
    session, with no base URL around it. *)
Definition legacy_text : string :=
  json_text
    "{'token':'tok','expiresAt':'2030-01-01T00:00:00.000Z','projectId':7,'email':'a@b.com'}".

(** The store after [session0] was saved under [config]. *)
Definition saved : LocalStorage :=
  @persistSession online session0 config (Storage ∅).

Definition saved1 : LocalStorage :=
  @persistSession online session1 config (Storage ∅).

(** The world at clock reading [t], with [session0] saved and nothing sent. *)
Definition world_at (t : Z) : World.t := World.mk saved t [].

(** A record with an extension field, not yet completed. *)
Definition todo0 : value :=
  VObj [("id", VStr "r1");
        ("data", VObj [("title", VStr "Buy milk");
                       ("notes", VStr "");
                       ("completed", VBool false);
                       ("priority", VNum 3)]);
        ("created_at", VStr "2029-12-01T00:00:00.000Z");
        ("updated_at", VStr "2029-12-01T00:00:00.000Z")].

(** Signed in as [session0], on page 3 of 3, which holds [todo0] alone. *)
Definition state0 : AppState.t :=
  AppState.mk (Some session0) None [todo0] ∅ None None None None "" false
    (Some (PaginationMeta.mk 3 10 21 3)) 3 10.

End Reference.

(** * Properties *)

(** ** The model at work *)

Example strip_trailing_slash_once :
  strip_trailing_slash "https://reqres.in//" = "https://reqres.in/"
  /\ strip_trailing_slash "/" = "".
Proof. split; reflexivity. Qed.

Example normalizeTodo_reads_loose_flags :
  normalizeTodo (VObj [("title", VNum 4); ("completed", VStr "TRUE")])
  = TodoPayload.mk "" "" true.
Proof. reflexivity. Qed.

Example empty_config_warns_four_times :
  configWarnings (DemoConfig.mk "" None "" "" "")
  = ["Add a project ID"; "Add the public project key";
     "Add the manage project key"; "Set a collection slug"].
Proof. reflexivity. Qed.

(** Signing in again under the reference configuration: the saved session
    is found, the toggle goes out, and the list holds what the service
    returned. *)
Example toggle_on_reference_platform :
  AppState.todos
    (@handleToggleTodo Reference.online Reference.config Reference.state0
       Reference.todo0 (Reference.world_at 0)).1
  = [VObj [("id", VStr "r1");
           ("data", VObj [("title", VStr "Buy milk");
                          ("notes", VStr "");
                          ("completed", VBool true)]);
           ("created_at", VStr "2030-01-01T00:00:00.000Z");
           ("updated_at", VStr "2030-01-02T00:00:00.000Z")]].
Proof. vm_compute. reflexivity. Qed.

(** An expired session signs the operator out and sends nothing. *)
Example delete_after_expiry_sends_nothing :
  let '(st, w) :=
    @handleDeleteTodo Reference.online Reference.config Reference.state0 "r1"
      true (Reference.world_at Reference.expiry0) in
  AppState.session st = None
  /\ AppState.error st = Some "Access expired. Request access again."
  /\ World.sent w = []
  /\ World.storage w = Storage ∅.
Proof. vm_compute. repeat split; reflexivity. Qed.

(** ** Configuration warnings *)

Lemma warning_of_inj (i j : ConfigItem) : warning_of i = warning_of j -> i = j.
Proof. destruct i, j; simpl; intros Heq; first [reflexivity | discriminate Heq]. Qed.

(** The warnings, read off the four guards. *)
Lemma configWarnings_filter (config : DemoConfig.t) :
  configWarnings config
  = map warning_of
      (filter (fun item => missing config item = true)
         [ProjectId; PublicKey; ManageKey; CollectionSlug]).
Proof.
  rewrite !filter_cons, filter_nil.
  unfold configWarnings, missing, config_item, str_truthy, push_if; simpl.
  destruct (truthy (of_nullable_number (DemoConfig.projectId config)));
    destruct (String.eqb (DemoConfig.publicProjectKey config) "");
    destruct (String.eqb (DemoConfig.manageProjectKey config) "");
    destruct (String.eqb (DemoConfig.collectionSlug config) "");
    reflexivity.
Qed.

(** C9.  Whichever of the project id, the public key, the manage key and the
    collection slug is missing from a configuration, [configReady] is false
    and the warning list holds the entry that names that item, an entry no
    other item shares; the list holds no entry for an item that is present;
    and when all four are present the list is empty and [configReady] is
    true. *)
Theorem configWarnings_report (config : DemoConfig.t) (item : ConfigItem) :
  (missing config item = true ->
     configReady config = false /\ warning_of item ∈ configWarnings config)
  /\ (forall other, warning_of other = warning_of item -> other = item)
  /\ (warning_of item ∈ configWarnings config -> missing config item = true)
  /\ NoDup (configWarnings config)
  /\ ((forall i, missing config i = false) ->
        configWarnings config = [] /\ configReady config = true).
Proof.
  assert (Hmem : forall i, warning_of i ∈ configWarnings config
                           <-> missing config i = true).
  { intros i. rewrite configWarnings_filter, list_elem_of_fmap. split.
    - intros (j & Hj & Hin). apply warning_of_inj in Hj. subst j.
      apply list_elem_of_filter in Hin. tauto.
    - intros Hi. exists i. split; [reflexivity|].
      apply list_elem_of_filter. split; [exact Hi|].
      destruct i; set_solver. }
  split; [|split; [|split; [|split]]].
  - intros Hmiss. split; [|by apply Hmem].
    apply Hmem in Hmiss. unfold configReady.
    destruct (configWarnings config); [by apply elem_of_nil in Hmiss | done].
  - intros other. apply warning_of_inj.
  - apply Hmem.
  - rewrite configWarnings_filter. apply NoDup_fmap_2.
    + intros i j. apply warning_of_inj.
    + apply NoDup_filter. by apply (bool_decide_unpack _).
  - intros Hall. assert (Hnil : configWarnings config = []).
    { rewrite configWarnings_filter.
      rewrite !filter_cons, filter_nil.
      repeat case_decide; try reflexivity;
        match goal with Hm : missing _ ?i = true |- _ =>
          rewrite (Hall i) in Hm; discriminate Hm end. }
    split; [exact Hnil|]. unfold configReady. by rewrite Hnil.
Qed.

(** ** Transport client *)

Section TransportFacts.
Context `{Platform}.

(** A request that passes the credential checks is sent, once. *)
Lemma jsonRequest_sends config path options w req :
  jsonRequest_prepare config path options = inr req ->
  (jsonRequest config path options w).2
  = World.mk (World.storage w) (World.now w + latency req)
      (World.sent w ++ [req])
  /\ (jsonRequest config path options w).1
     = match fetch req with
       | Responded response => jsonRequest_receive response
       | Rejected => ThrownOther
       end.
Proof.
  intros Hprep. unfold jsonRequest, do_fetch. rewrite Hprep.
  destruct (fetch req); auto.
Qed.

(** A request that fails them is not. *)
Lemma jsonRequest_refuses config path options w e :
  jsonRequest_prepare config path options = inl e ->
  jsonRequest config path options w = (ThrownApi e, w).
Proof. intros Hprep. unfold jsonRequest. by rewrite Hprep. Qed.

Lemma prepare_session_request config path method token body :
  token <> "" ->
  jsonRequest_prepare config path (session_options method token body)
  = inr (session_request config path method token body).
Proof.
  intros Htoken. unfold jsonRequest_prepare, session_options, session_request,
    require_is, str_truthy; simpl.
  apply String.eqb_neq in Htoken. rewrite Htoken. reflexivity.
Qed.

End TransportFacts.

(** C5.  A request that requires the session and carries no token, or that
    requires the public or the manage key where the configuration has none,
    ends in an [ApiError] that names the missing credential, and the world is
    as it was: nothing was sent.  Otherwise exactly one request goes out; it
    carries [Authorization: Bearer <token>] for the session, and the
    [x-api-key] header for the public and the manage key (the configured key
    of that class; for the public class the manage key instead when the
    caller also set [useManageProjectKey] and a manage key is configured,
    which no caller in the sources does). *)
Theorem jsonRequest_credentials `{Platform} (config : DemoConfig.t)
    (path : string) (options : RequestOptions.t) (w : World.t) :
  let '(outcome, w') := jsonRequest config path options w in
  let token := default "" (RequestOptions.token options) in
  let sends (header value : string) :=
    exists req, World.sent w' = World.sent w ++ [req]
                /\ Request.headers req !! header = Some value in
  let refuses (message : string) :=
    outcome = ThrownApi (ApiError.mk message None VUndefined) /\ w' = w in
  match RequestOptions.require options with
  | Some RequireSession =>
      if str_truthy token then sends "Authorization" ("Bearer " +:+ token)
      else refuses "Access is required for this action."
  | Some RequirePublic =>
      if str_truthy (DemoConfig.publicProjectKey config)
      then sends "x-api-key"
             (if RequestOptions.useManageProjectKey options
                 && str_truthy (DemoConfig.manageProjectKey config)
              then DemoConfig.manageProjectKey config
              else DemoConfig.publicProjectKey config)
      else refuses "Public access key is missing."
  | Some RequireManage =>
      if str_truthy (DemoConfig.manageProjectKey config)
      then sends "x-api-key" (DemoConfig.manageProjectKey config)
      else refuses "Management access key is missing."
  | None => True
  end.
Proof.
  destruct (jsonRequest config path options w) as [outcome w'] eqn:Hrun.
  destruct options as [method headers token usePub useMan body require].
  assert (Hsend : forall req,
            jsonRequest_prepare config path
              (RequestOptions.mk method headers token usePub useMan body
                 require) = inr req ->
            World.sent w' = World.sent w ++ [req]).
  { intros req Hprep.
    destruct (jsonRequest_sends config path _ w req Hprep) as [Hw _].
    rewrite Hrun in Hw. simpl in Hw. by rewrite Hw. }
  assert (Hrefuse : forall e,
            jsonRequest_prepare config path
              (RequestOptions.mk method headers token usePub useMan body
                 require) = inl e ->
            outcome = ThrownApi e /\ w' = w).
  { intros e Hprep. rewrite (jsonRequest_refuses _ _ _ _ _ Hprep) in Hrun.
    by inversion Hrun. }
  clear Hrun. unfold jsonRequest_prepare, require_is in Hsend, Hrefuse.
  simpl in Hsend, Hrefuse |- *.
  destruct require as [[| |]|]; [| | |exact I].
  - (* public *)
    destruct (str_truthy (DemoConfig.publicProjectKey config));
      simpl in Hsend, Hrefuse; [|by apply Hrefuse].
    destruct (useMan && str_truthy (DemoConfig.manageProjectKey config));
      (eexists; split; [by apply Hsend|]); simpl; by simplify_map_eq.
  - (* manage *)
    destruct (str_truthy (DemoConfig.manageProjectKey config)) eqn:Hman;
      simpl in Hsend, Hrefuse.
    + destruct (usePub && str_truthy (DemoConfig.publicProjectKey config));
        (eexists; split; [by apply Hsend|]); simpl; by simplify_map_eq.
    + destruct (usePub && str_truthy (DemoConfig.publicProjectKey config));
        by apply Hrefuse.
  - (* session *)
    destruct (str_truthy (default "" token)); simpl in Hsend, Hrefuse;
      [|by apply Hrefuse].
    destruct (usePub && str_truthy (DemoConfig.publicProjectKey config));
      destruct (useMan && str_truthy (DemoConfig.manageProjectKey config));
      (eexists; split; [by apply Hsend|]); simpl; by simplify_map_eq.
Qed.

Section Failure.
Context `{Platform}.

(** The message the code picks is the one the cascade describes. *)
Lemma failure_message_spec (data : value) (statusText : string) :
  failure_message data statusText = cascade_message data statusText.
Proof.
  unfold failure_message, cascade_message, first_present, body_field, js_or,
    js_and.
  rewrite !filter_cons, filter_nil.
  destruct data as [| |b|n|s|xs|fields]; simpl;
    try (destruct (String.eqb statusText ""); reflexivity).
  unfold get.
  set (e := default VUndefined (assoc "error" fields)).
  set (m := default VUndefined (assoc "message" fields)).
  destruct (truthy e) eqn:He, (truthy m) eqn:Hm,
    (String.eqb statusText "") eqn:Hs;
    simpl; rewrite ?He, ?Hm; simpl; rewrite ?He, ?Hm, ?Hs; reflexivity.
Qed.

End Failure.

(** C6.  When the response to a request that was sent is not a success, the
    call ends in an [ApiError] that carries the response status, the body
    read off the response, and the message chosen by the cascade: the [error]
    field of a parsed JSON body if present, else its [message] field, else
    the HTTP status text, else [Request failed]. *)
Theorem failure_message_cascade `{Platform} (config : DemoConfig.t)
    (path : string) (options : RequestOptions.t) (w : World.t)
    (req : Request.t) (response : Response.t) :
  jsonRequest_prepare config path options = inr req ->
  fetch req = Responded response ->
  Response.ok response = false ->
  (jsonRequest config path options w).1
  = ThrownApi
      (ApiError.mk
         (ToString
            (cascade_message (response_data (Response.text response))
               (Response.statusText response)))
         (Some (Response.status response))
         (response_data (Response.text response))).
Proof.
  intros Hprep Hfetch Hok.
  destruct (jsonRequest_sends config path options w req Hprep) as [_ Hout].
  rewrite Hout, Hfetch. unfold jsonRequest_receive. rewrite Hok. simpl.
  unfold new_ApiError. by rewrite failure_message_spec.
Qed.

(** The profile call, turned down with [401] and an [error] field. *)
Lemma failure_message_cascade_witness :
  (@jsonRequest Reference.turned_down Reference.config "/api/app-users/me"
     (session_options "GET" "tok" VUndefined) Reference.empty_world).1
  = ThrownApi
      (ApiError.mk "Invalid token" (Some 401)
         (VObj [("error", VStr "Invalid token");
                ("message", VStr "Sign in again")])).
Proof.
  etrans.
  - apply (@failure_message_cascade Reference.turned_down Reference.config
             "/api/app-users/me" (session_options "GET" "tok" VUndefined)
             Reference.empty_world
             (@session_request Reference.turned_down Reference.config
                "/api/app-users/me" "GET" "tok" VUndefined)
             Reference.unauthorized);
      reflexivity.
  - vm_compute. reflexivity.
Defined.

(** ** Listing records *)

Section Listing.
Context `{Platform}.

Lemma effective_limit_range (opts : ListOptions.t) :
  1 <= effective_limit opts <= 100.
Proof. unfold effective_limit. lia. Qed.

Lemma effective_page_range (opts : ListOptions.t) : 1 <= effective_page opts.
Proof. unfold effective_page. lia. Qed.

(** With a collection and a token, [fetchTodos] sends the list request for
    the effective page and page size, and nothing else. *)
Lemma fetchTodos_sends config sessionToken opts w :
  DemoConfig.collectionSlug config <> "" ->
  sessionToken <> "" ->
  World.sent (fetchTodos config sessionToken opts w).2
  = World.sent w
    ++ [session_request config
          (todos_path config (effective_order opts) (effective_limit opts)
             (effective_page opts))
          "GET" sessionToken VUndefined].
Proof.
  intros Hslug Htoken. unfold fetchTodos, str_truthy.
  apply String.eqb_neq in Hslug. rewrite Hslug. simpl.
  pose proof (prepare_session_request config
                (todos_path config (effective_order opts)
                   (effective_limit opts) (effective_page opts))
                "GET" sessionToken VUndefined Htoken) as Hprep.
  destruct (jsonRequest_sends config _ _ w _ Hprep) as [Hw _].
  destruct (jsonRequest config _ _ w) as [[res|e|] w'];
    simpl in Hw |- *; by rewrite Hw.
Qed.

End Listing.

(** ** Session store *)

Section StoreFacts.
Context `{Platform}.

(** What [loadStoredSession] does with a stored text that parses. *)
Lemma loadStoredSession_parsed config items raw parsed :
  items !! SESSION_STORAGE_KEY = Some raw ->
  raw <> "" ->
  JSON_parse raw = Some parsed ->
  loadStoredSession config (Storage items)
  = let stored := stored_of_parsed parsed in
    if negb (truthy (get (get stored "session") "token"))
    then (None, Storage items)
    else if negb (truthy (get stored "baseUrl"))
            || negb (strict_eq (get stored "baseUrl")
                       (VStr (normalizeBaseUrl (DemoConfig.baseUrl config))))
    then (None, Storage (delete SESSION_STORAGE_KEY items))
    else if truthy (of_nullable_number (DemoConfig.projectId config))
            && truthy (get stored "projectId")
            && negb (strict_eq (of_nullable_number (DemoConfig.projectId config))
                       (get stored "projectId"))
    then (None, Storage (delete SESSION_STORAGE_KEY items))
    else (Some (get stored "session"), Storage items).
Proof.
  intros Hraw Hne Hparse. unfold loadStoredSession, loadStoredSession_try.
  simpl. rewrite Hraw. unfold str_truthy.
  apply String.eqb_neq in Hne. rewrite Hne. simpl. rewrite Hparse. simpl.
  repeat match goal with |- context [if ?b then _ else _] =>
           destruct b; simpl; try reflexivity end.
Qed.

(** A value is only returned with a truthy token, and the store is then left
    as it was. *)
Lemma loadStoredSession_some config ls v ls' :
  loadStoredSession config ls = (Some v, ls') ->
  truthy (get v "token") = true /\ ls' = ls.
Proof.
  destruct ls as [|items]; [discriminate|].
  unfold loadStoredSession, loadStoredSession_try. simpl.
  destruct (items !! SESSION_STORAGE_KEY) as [raw|]; [|discriminate].
  destruct (negb (str_truthy raw)); [discriminate|].
  destruct (JSON_parse raw) as [parsed|]; [|discriminate].
  destruct (truthy (get (get (stored_of_parsed parsed) "session") "token"))
    eqn:Htoken; simpl; [|discriminate].
  repeat match goal with |- context [if ?b then _ else _] =>
           destruct b; simpl; try discriminate end.
  intros Heq. inversion Heq. subst. auto.
Qed.

Lemma hasStoredSessionToken_true config ls :
  (hasStoredSessionToken config ls).1 = true ->
  hasStoredSessionToken config ls = (true, ls).
Proof.
  unfold hasStoredSessionToken.
  destruct (loadStoredSession config ls) as [[v|] ls'] eqn:Hload; simpl.
  - intros Htoken. apply loadStoredSession_some in Hload as [_ ->].
    by rewrite Htoken.
  - discriminate.
Qed.

Lemma with_storage_same (w : World.t) :
  World.with_storage (World.storage w) w = w.
Proof. by destruct w. Qed.

End StoreFacts.

(** A persisted value in the legacy shape (a bare object with a token and
    no [session] field) is recognised and wrapped, with an empty base URL
    and its project id, for the checks that follow.  The first of them,
    [!stored.baseUrl], turns every such wrapper down: under every
    configuration the load removes the value from the store and returns
    nothing, and the project check the wrapper was given its project id for
    is never reached. *)
Lemma legacy_session_purged `{Platform} (config : DemoConfig.t)
    (items : gmap string string) (raw : string) (parsed : value) :
  items !! SESSION_STORAGE_KEY = Some raw ->
  raw <> "" ->
  JSON_parse raw = Some parsed ->
  truthy (get parsed "session") = false ->
  truthy (get parsed "token") = true ->
  loadStoredSession config (Storage items)
  = (None, Storage (delete SESSION_STORAGE_KEY items))
  /\ getItem SESSION_STORAGE_KEY (loadStoredSession config (Storage items)).2
     = None.
Proof.
  intros Hraw Hne Hparse Hsession Htoken.
  rewrite (loadStoredSession_parsed config items raw parsed Hraw Hne Hparse).
  unfold stored_of_parsed. rewrite Hsession, Htoken. simpl.
  rewrite Htoken. simpl. split; [reflexivity|]. apply lookup_delete_eq.
Qed.

(** C4.  The code does not do what the claim says, and what its own comment
    announces ([Accept legacy token-only storage and clean up mismatched
    config]).  [session0] as the first version of the application saved it,
    the bare session under the same key, is well-formed JSON for the very
    session; loaded under the reference configuration, whose project is the
    session's, it is not returned: the load answers nothing and empties the
    store. *)
Theorem legacy_session_not_returned :
  @persistSession_v1 Reference.online Reference.session0 (Storage ∅)
  = Reference.holding Reference.legacy_text
  /\ Reference.parse Reference.legacy_text
     = Some (session_value Reference.session0)
  /\ @loadStoredSession Reference.online Reference.config
       (Reference.holding Reference.legacy_text)
     = (None, Storage ∅)
  /\ (@hasStoredSessionToken Reference.online Reference.config
        (Reference.holding Reference.legacy_text)).1
     = false.
Proof. repeat split; vm_compute; reflexivity. Qed.

(** C10, as stated, fails: what the load returns need not be a well-formed
    session.  Only the truthiness of [session.token] is tested, so a stored
    object whose token is a number, and that has no expiry and no email, is
    handed to the caller. *)
Lemma unchecked_session_returned :
  (@loadStoredSession Reference.online Reference.config
     (Reference.holding
        (Reference.json_text
           "{'session':{'token':1},'baseUrl':'https://reqres.in'}"))).1
  = Some (VObj [("token", VNum 1)])
  /\ is_session (VObj [("token", VNum 1)]) = false.
Proof. split; vm_compute; reflexivity. Qed.

(** C10, amended.  Loading the stored session never throws: an exception in
    the [try] block ends in nothing returned.  For a store that is absent,
    empty, not JSON, or JSON without a truthy token (neither
    [session.token] nor a bare [token]) it returns nothing and leaves the
    store as it is.  Whatever it does return has a truthy [token]; its other
    fields are not checked. *)
Theorem loadStoredSession_safe `{Platform} (config : DemoConfig.t)
    (ls : LocalStorage) :
  let '(loaded, ls') := loadStoredSession config ls in
  (getItem SESSION_STORAGE_KEY ls = None -> loaded = None /\ ls' = ls)
  /\ (getItem SESSION_STORAGE_KEY ls = Some "" -> loaded = None /\ ls' = ls)
  /\ (forall raw, getItem SESSION_STORAGE_KEY ls = Some raw ->
        JSON_parse raw = None -> loaded = None /\ ls' = ls)
  /\ (forall raw parsed, getItem SESSION_STORAGE_KEY ls = Some raw ->
        JSON_parse raw = Some parsed ->
        truthy (get (get parsed "session") "token") = false ->
        truthy (get parsed "token") = false ->
        loaded = None /\ ls' = ls)
  /\ ((loadStoredSession_try config ls).1 = Thrown -> loaded = None)
  /\ (forall v, loaded = Some v -> truthy (get v "token") = true /\ ls' = ls).
Proof.
  destruct (loadStoredSession config ls) as [loaded ls'] eqn:Hload.
  assert (Hsome : forall v, loaded = Some v ->
                            truthy (get v "token") = true /\ ls' = ls).
  { intros v ->. by apply (loadStoredSession_some config). }
  destruct ls as [|items].
  { inversion Hload. subst. repeat split; auto; discriminate. }
  unfold loadStoredSession, loadStoredSession_try in Hload |- *.
  simpl in Hload |- *.
  destruct (items !! SESSION_STORAGE_KEY) as [raw|] eqn:Hraw.
  2:{ inversion Hload. subst. repeat split; auto; discriminate. }
  unfold str_truthy in *.
  destruct (String.eqb raw "") eqn:Hempty; simpl in Hload |- *.
  { inversion Hload. subst. repeat split; auto; discriminate. }
  assert (Hne : raw <> "") by by apply String.eqb_neq.
  destruct (JSON_parse raw) as [parsed|] eqn:Hparse.
  2:{ inversion Hload. subst. repeat split; auto; try discriminate.
      all: intros; congruence. }
  split; [discriminate|]. split; [intros [= ->]; by destruct Hne|].
  split; [intros raw' [= <-] Hnone; congruence|].
  split; [|split; [|exact Hsome]].
  - intros raw' parsed' [= <-] Hparse' Hwrapped Hbare.
    rewrite Hparse in Hparse'. injection Hparse' as <-.
    assert (Hstored : truthy (get (get (stored_of_parsed parsed) "session")
                                "token") = false).
    { unfold stored_of_parsed.
      destruct (truthy (get parsed "session")); [exact Hwrapped|].
      by rewrite Hbare. }
    rewrite Hstored in Hload. simpl in Hload. by inversion Hload.
  - repeat match goal with |- context [if ?b then _ else _] =>
             destruct b; simpl; try discriminate end.
Qed.

(** C3, as stated, fails: not every session is loaded back under the
    configuration it was saved under.  A session issued for project 7, saved
    and loaded under a configuration for project 1, is purged by the project
    guard. *)
Lemma persisted_session_purged_on_project_mismatch :
  @loadStoredSession Reference.online
    (DemoConfig.mk "https://reqres.in" (Some 1) "pub_key" "manage_key" "todos")
    (@persistSession Reference.online Reference.session0
       (DemoConfig.mk "https://reqres.in" (Some 1) "pub_key" "manage_key"
          "todos")
       (Storage ∅))
  = (None, Storage ∅).
Proof. vm_compute. reflexivity. Qed.

(** C3, amended.  Take a store that is available, a session whose token is
    not empty, and a platform whose [JSON.parse] reads back what
    [JSON.stringify] wrote for the stored record.  Saving the session under a
    configuration and loading under the same configuration returns an equal
    session and leaves the store as saved, provided the normalized base URL
    is not empty and the project ids of session and configuration, when both
    are known, agree.  Loading under a configuration whose normalized base
    URL differs returns nothing and removes the persisted value. *)
Theorem persist_load_roundtrip `{Platform} (session : Session.t)
    (config config' : DemoConfig.t) (items : gmap string string) :
  let ls := persistSession session config (Storage items) in
  JSON_parse (JSON_stringify (stored_session session config))
  = Some (stored_session session config) ->
  JSON_stringify (stored_session session config) <> "" ->
  Session.token session <> "" ->
  (normalizeBaseUrl (DemoConfig.baseUrl config) <> "" ->
   match DemoConfig.projectId config with
   | Some p => p = 0 \/ Session.projectId session = 0
               \/ p = Session.projectId session
   | None => True
   end ->
   loadStoredSession config ls = (Some (session_value session), ls))
  /\ (normalizeBaseUrl (DemoConfig.baseUrl config')
      <> normalizeBaseUrl (DemoConfig.baseUrl config) ->
      loadStoredSession config' ls
      = (None, removeItem SESSION_STORAGE_KEY ls)
      /\ getItem SESSION_STORAGE_KEY (removeItem SESSION_STORAGE_KEY ls)
         = None).
Proof.
  intros ls Hcodec Hnonempty Htoken. subst ls.
  unfold persistSession, setItem, removeItem, getItem.
  assert (Hload : forall cfg,
    loadStoredSession cfg
      (Storage (<[SESSION_STORAGE_KEY :=
                    JSON_stringify (stored_session session config)]> items))
    = if negb (String.eqb (normalizeBaseUrl (DemoConfig.baseUrl config)) "")
         && String.eqb (normalizeBaseUrl (DemoConfig.baseUrl config))
              (normalizeBaseUrl (DemoConfig.baseUrl cfg))
      then
        if truthy (of_nullable_number (DemoConfig.projectId cfg))
           && negb (Session.projectId session =? 0)
           && negb (strict_eq (of_nullable_number (DemoConfig.projectId cfg))
                      (VNum (Session.projectId session)))
        then (None,
              Storage (delete SESSION_STORAGE_KEY
                         (<[SESSION_STORAGE_KEY :=
                              JSON_stringify (stored_session session config)]>
                            items)))
        else (Some (session_value session),
              Storage (<[SESSION_STORAGE_KEY :=
                           JSON_stringify (stored_session session config)]>
                         items))
      else (None,
            Storage (delete SESSION_STORAGE_KEY
                       (<[SESSION_STORAGE_KEY :=
                            JSON_stringify (stored_session session config)]>
                          items)))).
  { intros cfg.
    rewrite (loadStoredSession_parsed cfg _ _ _ (lookup_insert_eq _ _ _)
               Hnonempty Hcodec).
    apply String.eqb_neq in Htoken.
    unfold stored_of_parsed, stored_session; simpl. rewrite Htoken. simpl.
    destruct (String.eqb (normalizeBaseUrl (DemoConfig.baseUrl config)) "");
      simpl; [reflexivity|].
    destruct (String.eqb (normalizeBaseUrl (DemoConfig.baseUrl config))
                (normalizeBaseUrl (DemoConfig.baseUrl cfg)));
      simpl; reflexivity. }
  split.
  - intros Hbase Hproject. rewrite Hload.
    apply String.eqb_neq in Hbase. rewrite Hbase, String.eqb_refl. simpl.
    destruct (DemoConfig.projectId config) as [p|]; simpl; [|reflexivity].
    destruct Hproject as [-> | [-> | ->]]; simpl;
      rewrite ?Z.eqb_refl, ?andb_false_r; reflexivity.
  - intros Hdiffer. split; [|apply lookup_delete_eq]. rewrite Hload.
    assert (Hneq : String.eqb (normalizeBaseUrl (DemoConfig.baseUrl config))
                     (normalizeBaseUrl (DemoConfig.baseUrl config')) = false).
    { apply String.eqb_neq. congruence. }
    rewrite Hneq, andb_false_r. reflexivity.
Qed.

(** [session0], saved under the reference configuration, comes back under
    it and is purged under another base URL. *)
Lemma persist_load_roundtrip_witness :
  @loadStoredSession Reference.online Reference.config Reference.saved
  = (Some (session_value Reference.session0), Reference.saved)
  /\ @loadStoredSession Reference.online
       (DemoConfig.mk "http://localhost:8000/" (Some 7) "pub_key" "manage_key"
          "todos")
       Reference.saved
     = (None, Storage ∅).
Proof.
  destruct (@persist_load_roundtrip Reference.online Reference.session0
              Reference.config
              (DemoConfig.mk "http://localhost:8000/" (Some 7) "pub_key"
                 "manage_key" "todos")
              ∅)
    as [Hsame Hchanged];
    [ by vm_compute | vm_compute; discriminate | vm_compute; discriminate | ].
  split.
  - apply Hsame; [vm_compute; discriminate | vm_compute; auto].
  - destruct Hchanged as [Hload _]; [vm_compute; discriminate|].
    etrans; [exact Hload|]. vm_compute. reflexivity.
Defined.

(** ** Session validity *)

Section Validity.
Context `{Platform}.

(** A session the store holds a token for, and that has not expired, passes
    the check, which then changes nothing. *)
Lemma ensureActiveSession_active config s missingMessage st w :
  (hasStoredSessionToken config (World.storage w)).1 = true ->
  isSessionExpired (Some s) (World.now w) = false ->
  ensureActiveSession config (Some s) missingMessage st w = (Some s, st, w).
Proof.
  intros Hstored Hlive. unfold ensureActiveSession.
  rewrite (hasStoredSessionToken_true _ _ Hstored), with_storage_same.
  cbn [negb]. by rewrite Hlive.
Qed.

(** An expired session does not. *)
Lemma ensureActiveSession_expired config s missingMessage st w :
  isSessionExpired (Some s) (World.now w) = true ->
  (ensureActiveSession config (Some s) missingMessage st w).1.1 = None.
Proof.
  intros Hexpired. unfold ensureActiveSession.
  destruct (hasStoredSessionToken config (World.storage w)) as [has ls].
  destruct has; [|reflexivity]. cbn [negb].
  replace (World.now (World.with_storage ls w)) with (World.now w)
    by by destruct w.
  by rewrite Hexpired.
Qed.

End Validity.

(** C1, as stated, fails: a session that expires one microsecond after the
    current time, and that the store holds a token for, is not valid.
    [getTime] reads the expiry in whole milliseconds, what is left of the
    fraction dropped, so at the millisecond of [Date.now()] the two readings
    are equal and the session is expired. *)
Lemma microsecond_ahead_is_expired :
  Reference.iso_instant (Session.expiresAt Reference.session1)
  = Some (Reference.expiry0 * 1000 + 1)
  /\ (@hasStoredSessionToken Reference.online Reference.config
        Reference.saved1).1
     = true
  /\ @isSessionExpired Reference.online (Some Reference.session1)
       Reference.expiry0
     = true
  /\ (@ensureActiveSession Reference.online Reference.config
        (Some Reference.session1) "Access required. Request access."
        Reference.state0
        (World.mk Reference.saved1 Reference.expiry0 [])).1.1
     = None.
Proof. repeat split; vm_compute; reflexivity. Qed.

(** C1, amended.  Times are compared in whole milliseconds: [getTime]
    reads the instant [expiresAt] denotes (here in microseconds) with what
    is left of the millisecond dropped, and [Date.now()] is a whole number
    of milliseconds.  A session whose [expiresAt] denotes exactly the current
    time is expired, and so is one whose [expiresAt] lies in the future but
    within the current millisecond: the validity check returns nothing for
    either.  A session whose [expiresAt] lies in a later millisecond, and
    that the store still holds a token for, is valid: the check returns it
    and changes nothing. *)
Theorem session_expiry_boundary `{Platform} (config : DemoConfig.t)
    (s : Session.t) (instant : Z) (missingMessage : string)
    (st : AppState.t) (w : World.t) :
  Date_getTime (Session.expiresAt s) = Some (instant / 1000) ->
  (instant = World.now w * 1000 ->
   isSessionExpired (Some s) (World.now w) = true
   /\ (ensureActiveSession config (Some s) missingMessage st w).1.1 = None)
  /\ (World.now w * 1000 < instant < (World.now w + 1) * 1000 ->
      isSessionExpired (Some s) (World.now w) = true
      /\ (ensureActiveSession config (Some s) missingMessage st w).1.1 = None)
  /\ ((World.now w + 1) * 1000 <= instant ->
      Session.expiresAt s <> "" ->
      (hasStoredSessionToken config (World.storage w)).1 = true ->
      isSessionExpired (Some s) (World.now w) = false
      /\ ensureActiveSession config (Some s) missingMessage st w
         = (Some s, st, w)).
Proof.
  intros Hparse.
  pose proof (Z.div_mod instant 1000 ltac:(lia)) as Hdiv.
  pose proof (Z.mod_pos_bound instant 1000 ltac:(lia)) as Hmod.
  assert (Hexpired : instant / 1000 <= World.now w ->
                     isSessionExpired (Some s) (World.now w) = true).
  { intros Hle. unfold isSessionExpired. rewrite Hparse.
    destruct (negb (str_truthy (Session.expiresAt s))); [reflexivity|].
    by apply Z.leb_le. }
  split; [|split].
  - intros Hnow. assert (Hle : instant / 1000 <= World.now w) by lia.
    split; [by apply Hexpired|].
    by apply ensureActiveSession_expired, Hexpired.
  - intros Hwithin. assert (Hle : instant / 1000 <= World.now w) by lia.
    split; [by apply Hexpired|].
    by apply ensureActiveSession_expired, Hexpired.
  - intros Hlater Hnonempty Hstored.
    assert (Hlive : isSessionExpired (Some s) (World.now w) = false).
    { unfold isSessionExpired, str_truthy. rewrite Hparse.
      apply String.eqb_neq in Hnonempty. rewrite Hnonempty. simpl.
      apply Z.leb_gt. lia. }
    split; [exact Hlive|]. by apply ensureActiveSession_active.
Qed.

(** [session0] at the millisecond of its expiry and one millisecond before,
    and [session1], which expires a microsecond later, at that same
    millisecond. *)
Lemma session_expiry_boundary_witness :
  (@ensureActiveSession Reference.online Reference.config
     (Some Reference.session0) "Access required. Request access."
     Reference.state0 (Reference.world_at Reference.expiry0)).1.1
  = None
  /\ (@ensureActiveSession Reference.online Reference.config
        (Some Reference.session1) "Access required. Request access."
        Reference.state0
        (World.mk Reference.saved1 Reference.expiry0 [])).1.1
     = None
  /\ @ensureActiveSession Reference.online Reference.config
       (Some Reference.session0) "Access required. Request access."
       Reference.state0 (Reference.world_at (Reference.expiry0 - 1))
     = (Some Reference.session0, Reference.state0,
        Reference.world_at (Reference.expiry0 - 1)).
Proof.
  split; [|split].
  - destruct (@session_expiry_boundary Reference.online Reference.config
                Reference.session0 (Reference.expiry0 * 1000)
                "Access required. Request access." Reference.state0
                (Reference.world_at Reference.expiry0))
      as (Hequal & _); [by vm_compute|].
    by apply Hequal.
  - destruct (@session_expiry_boundary Reference.online Reference.config
                Reference.session1 (Reference.expiry0 * 1000 + 1)
                "Access required. Request access." Reference.state0
                (World.mk Reference.saved1 Reference.expiry0 []))
      as (_ & Hwithin & _); [by vm_compute|].
    apply Hwithin. by vm_compute.
  - destruct (@session_expiry_boundary Reference.online Reference.config
                Reference.session0 (Reference.expiry0 * 1000)
                "Access required. Request access." Reference.state0
                (Reference.world_at (Reference.expiry0 - 1)))
      as (_ & _ & Hlater); [by vm_compute|].
    apply Hlater; [by vm_compute | discriminate | by vm_compute].
Defined.

(** ** Record handlers *)

Section Handlers.
Context `{Platform}.
Variable config : DemoConfig.t.
Hypothesis Hslug : DemoConfig.collectionSlug config <> "".

Lemma slug_truthy : str_truthy (DemoConfig.collectionSlug config) = true.
Proof.
  unfold str_truthy. apply String.eqb_neq in Hslug. by rewrite Hslug.
Qed.

(** A call made with a token goes out and moves the clock on. *)
Lemma session_call_world path method token body w :
  token <> "" ->
  (jsonRequest config path (session_options method token body) w).2
  = World.mk (World.storage w)
      (World.now w + latency (session_request config path method token body))
      (World.sent w ++ [session_request config path method token body]).
Proof.
  intros Htoken.
  by destruct (jsonRequest_sends config path _ w _
                 (prepare_session_request config path method token body
                    Htoken)).
Qed.

Lemma session_call_outcome path method token body w :
  token <> "" ->
  (jsonRequest config path (session_options method token body) w).1
  = match fetch (session_request config path method token body) with
    | Responded response => jsonRequest_receive response
    | Rejected => ThrownOther
    end.
Proof.
  intros Htoken.
  by destruct (jsonRequest_sends config path _ w _
                 (prepare_session_request config path method token body
                    Htoken)).
Qed.



Lemma updateTodo_world token todoId todo w :
  token <> "" ->
  (updateTodo config token todoId todo w).2
  = (jsonRequest config (record_path config todoId)
       (session_options "PUT" token (VObj [("data", payload_value todo)]))
       w).2.
Proof.
  intros Htoken. unfold updateTodo. rewrite slug_truthy. simpl.
  by destruct (jsonRequest _ _ _ _) as [[?|?|] ?].
Qed.

(** With an active session, [refreshTodos] sends the list request for the
    page and the page size it was given or found in the closure. *)
Lemma refreshTodos_sends cl args st w s :
  AppState.session cl = Some s ->
  RefreshArgs.activeSession args = None ->
  Session.token s <> "" ->
  (hasStoredSessionToken config (World.storage w)).1 = true ->
  isSessionExpired (Some s) (World.now w) = false ->
  World.sent (refreshTodos config cl args st w).2
  = World.sent w
    ++ [let opts :=
          ListOptions.mk
            (Some (default (AppState.todoPage cl) (RefreshArgs.page args)))
            (Some (default (AppState.todoPageSize cl)
                     (RefreshArgs.limit args)))
            (Some Desc) in
        session_request config
          (todos_path config "desc" (effective_limit opts)
             (effective_page opts))
          "GET" (Session.token s) VUndefined].
Proof.
  intros Hsession Hargs Htoken Hstored Hlive. unfold refreshTodos.
  rewrite Hargs, Hsession.
  rewrite (ensureActiveSession_active _ _ _ _ _ Hstored Hlive).
  pose proof (fetchTodos_sends config (Session.token s)
                (ListOptions.mk
                   (Some (default (AppState.todoPage cl)
                            (RefreshArgs.page args)))
                   (Some (default (AppState.todoPageSize cl)
                            (RefreshArgs.limit args)))
                   (Some Desc))
                w Hslug Htoken) as Hsent.
  destruct (fetchTodos _ _ _ _) as [result w'']. simpl in Hsent |- *.
  exact Hsent.
Qed.

End Handlers.

(** C2, as stated, fails: a requested page size of 0 is not raised to 1.
    [Number(opts.limit) || 10] takes 0 for a missing value, and the request
    goes out with the default page size 10. *)
Lemma page_size_zero_lists_ten :
  effective_limit (ListOptions.mk (Some 1) (Some 0) (Some Desc)) = 10
  /\ map Request.url
       (World.sent
          (@fetchTodos Reference.online Reference.config "tok"
             (ListOptions.mk (Some 1) (Some 0) (Some Desc))
             Reference.empty_world).2)
     = ["https://reqres.in/app/collections/todos/records?order=desc&limit=10&page=1"].
Proof. split; vm_compute; reflexivity. Qed.

(** C2, amended.  In the list request [fetchTodos] sends, a requested page
    size of 500 becomes 100 and a requested page of 0 becomes 1; a requested
    page size of 0 counts as not given and becomes the default 10.  Every
    other page size is clamped to 1..100, and with a collection and a token
    configured the request that goes out carries exactly these values.  A
    page size of 0 becomes 1 only on its way through the page-size control,
    which clamps before it lists. *)
Theorem list_query_clamp `{Platform} (config : DemoConfig.t)
    (sessionToken : string) (opts : ListOptions.t) (w : World.t) :
  (ListOptions.limit opts = Some 0 -> effective_limit opts = 10)
  /\ (ListOptions.limit opts = Some 500 -> effective_limit opts = 100)
  /\ (ListOptions.page opts = Some 0 -> effective_page opts = 1)
  /\ (forall n, ListOptions.limit opts = Some n -> n <> 0 ->
        effective_limit opts = Z.min (Z.max n 1) 100)
  /\ 1 <= effective_limit opts <= 100
  /\ 1 <= effective_page opts
  /\ (DemoConfig.collectionSlug config <> "" -> sessionToken <> "" ->
      exists req,
        World.sent (fetchTodos config sessionToken opts w).2
        = World.sent w ++ [req]
        /\ Request.url req
           = request_url config
               (todos_path config (effective_order opts)
                  (effective_limit opts) (effective_page opts)))
  /\ (forall cl s,
        AppState.session cl = Some s ->
        Session.token s = sessionToken ->
        DemoConfig.collectionSlug config <> "" -> sessionToken <> "" ->
        (hasStoredSessionToken config (World.storage w)).1 = true ->
        isSessionExpired (Some s) (World.now w) = false ->
        World.sent (handlePageSizeChange config cl 0 w).2
        = World.sent w
          ++ [session_request config (todos_path config "desc" 1 1) "GET"
                sessionToken VUndefined]).
Proof.
  repeat split.
  - intros Hl. unfold effective_limit. by rewrite Hl.
  - intros Hl. unfold effective_limit. by rewrite Hl.
  - intros Hp. unfold effective_page. by rewrite Hp.
  - intros n Hl Hn. unfold effective_limit, number_or. rewrite Hl.
    apply Z.eqb_neq in Hn. by rewrite Hn.
  - apply effective_limit_range.
  - apply effective_limit_range.
  - apply effective_page_range.
  - intros Hslug Htoken. eexists. split.
    + by apply fetchTodos_sends.
    + reflexivity.
  - intros cl s Hsession <- Hslug Htoken Hstored Hlive.
    unfold handlePageSizeChange.
    exact (refreshTodos_sends config Hslug cl
             (RefreshArgs.mk (Some 1) (Some (Z.min (Z.max 0 1) 100)) None)
             _ w s Hsession eq_refl Htoken Hstored Hlive).
Qed.




Section Toggle.
Context `{Platform}.

(** Reading a field of [data ?? {}] is reading it of [data]. *)
Lemma get_coalesce_empty (data : value) (k : string) :
  get (js_coalesce data (VObj [])) k = get data k.
Proof. by destruct data. Qed.

(** The payload of a toggle: three fields, read off the record's data. *)
Lemma toggle_payload_fields (todo : value) :
  payload_value (toggle_payload todo)
  = VObj [("title",
           VStr (match get (get todo "data") "title" with
                 | VStr title => title
                 | _ => ""
                 end));
          ("notes",
           VStr (match get (get todo "data") "notes" with
                 | VStr notes => notes
                 | _ => ""
                 end));
          ("completed",
           VBool (negb (TodoPayload.completed
                          (normalizeTodo (get todo "data")))))].
Proof.
  unfold payload_value, toggle_payload, normalizeTodo; simpl.
  by rewrite !get_coalesce_empty.
Qed.

Lemma updateTodo_succeeds config token todoId todo w response :
  DemoConfig.collectionSlug config <> "" ->
  token <> "" ->
  fetch (session_request config (record_path config todoId) "PUT" token
           (VObj [("data", payload_value todo)])) = Responded response ->
  Response.ok response = true ->
  (updateTodo config token todoId todo w).1
  = Returned
      (get (js_coalesce (response_data (Response.text response)) (VObj []))
         "data").
Proof.
  intros Hslug Htoken Hfetch Hok. unfold updateTodo.
  rewrite (slug_truthy config Hslug). simpl.
  pose proof (session_call_outcome config (record_path config todoId) "PUT"
                token (VObj [("data", payload_value todo)]) w Htoken) as Hout.
  rewrite Hfetch in Hout. unfold jsonRequest_receive in Hout.
  rewrite Hok in Hout. simpl in Hout.
  destruct (jsonRequest _ _ _ _) as [[res|e|] w']; simpl in Hout |- *;
    by inversion Hout.
Qed.

End Toggle.

(** C8, as stated, fails: the payload of a toggle does not keep every other
    field of the record.  [normalizeTodo] reads [title], [notes] and
    [completed] only, so the [priority] of this record is not in the
    replacement that is sent. *)
Lemma toggle_drops_extension_field :
  TodoPayload.completed (normalizeTodo (get Reference.todo0 "data")) = false
  /\ get (get Reference.todo0 "data") "priority" = VNum 3
  /\ get (payload_value (toggle_payload Reference.todo0)) "priority"
     = VUndefined
  /\ ~ preserves_other_fields (get Reference.todo0 "data")
         (payload_value (toggle_payload Reference.todo0))
  /\ map Request.body
       (World.sent
          (@handleToggleTodo Reference.online Reference.config
             Reference.state0 Reference.todo0
             (Reference.world_at (Reference.expiry0 - 1000))).2)
     = [Some (Reference.json_text
                "{'data':{'title':'Buy milk','notes':'','completed':true}}")].
Proof.
  repeat split; try (vm_compute; reflexivity).
  intros Hkeeps. by specialize (Hkeeps "priority" ltac:(discriminate)).
Qed.

(** C8, amended.  For a record whose completion flag reads false, the
    toggle, made with active access, sends exactly one request: a [PUT] to
    the record whose body is the replacement
    [{title, notes, completed: true}].  Title and notes are the record's
    when they are strings and empty otherwise; no other field of the record
    is carried.  When the service answers with a success, the list holds the
    record it returned in place of the toggled one, and every other record
    as before. *)
Theorem toggle_sends_normalized_payload `{Platform} (config : DemoConfig.t)
    (cl : AppState.t) (todo : value) (w : World.t) (s : Session.t) :
  let data := get todo "data" in
  let payload := payload_value (toggle_payload todo) in
  let putReq :=
    session_request config (record_path config (todo_id todo)) "PUT"
      (Session.token s) (VObj [("data", payload)]) in
  TodoPayload.completed (normalizeTodo data) = false ->
  AppState.session cl = Some s ->
  Session.token s <> "" ->
  DemoConfig.collectionSlug config <> "" ->
  (hasStoredSessionToken config (World.storage w)).1 = true ->
  isSessionExpired (Some s) (World.now w) = false ->
  payload
  = VObj [("title",
           VStr (match get data "title" with VStr title => title | _ => "" end));
          ("notes",
           VStr (match get data "notes" with VStr notes => notes | _ => "" end));
          ("completed", VBool true)]
  /\ World.sent (handleToggleTodo config cl todo w).2 = World.sent w ++ [putReq]
  /\ Request.body putReq = Some (JSON_stringify (VObj [("data", payload)]))
  /\ (forall response,
        fetch putReq = Responded response ->
        Response.ok response = true ->
        AppState.todos (handleToggleTodo config cl todo w).1
        = map (fun item =>
                 if strict_eq (get item "id") (get todo "id")
                 then get (js_coalesce
                             (response_data (Response.text response))
                             (VObj []))
                        "data"
                 else item)
            (AppState.todos cl)).
Proof.
  intros data payload putReq Hopen Hsession Htoken Hslug Hstored Hlive.
  subst data payload putReq.
  split; [|split; [|split]].
  - rewrite toggle_payload_fields, Hopen. reflexivity.
  - unfold handleToggleTodo. rewrite Hsession.
    rewrite (ensureActiveSession_active _ _ _ _ _ Hstored Hlive).
    pose proof (updateTodo_world config Hslug (Session.token s) (todo_id todo)
                  (toggle_payload todo) w Htoken) as Hw.
    rewrite (session_call_world config _ _ _ _ w Htoken) in Hw.
    destruct (updateTodo _ _ _ _ _) as [result w1]. simpl in Hw |- *.
    by subst w1.
  - reflexivity.
  - intros response Hfetch Hok. unfold handleToggleTodo. rewrite Hsession.
    rewrite (ensureActiveSession_active _ _ _ _ _ Hstored Hlive).
    pose proof (updateTodo_succeeds config (Session.token s) (todo_id todo)
                  (toggle_payload todo) w response Hslug Htoken Hfetch Hok)
      as Hres.
    destruct (updateTodo _ _ _ _ _) as [result w1]. simpl in Hres |- *.
    by subst result.
Qed.

(** Toggling [todo0] sends its title and notes with [completed: true]. *)
Lemma toggle_sends_normalized_payload_witness :
  map Request.body
    (World.sent
       (@handleToggleTodo Reference.online Reference.config Reference.state0
          Reference.todo0 (Reference.world_at (Reference.expiry0 - 1000))).2)
  = [Some (Reference.json_text
             "{'data':{'title':'Buy milk','notes':'','completed':true}}")].
Proof.
  destruct (@toggle_sends_normalized_payload Reference.online Reference.config
              Reference.state0 Reference.todo0
              (Reference.world_at (Reference.expiry0 - 1000))
              Reference.session0)
    as (_ & Hsent & _ & _);
    [ by vm_compute | by vm_compute | vm_compute; discriminate
    | vm_compute; discriminate | by vm_compute | by vm_compute | ].
  rewrite Hsent. vm_compute. reflexivity.
Defined.

(** * Further properties *)

(** ** The store and the validity check *)

Section StoreMore.
Context `{Platform}.

(** What a load leaves behind: the store as it was, or without the session
    key. *)
Lemma loadStoredSession_store config ls :
  (loadStoredSession config ls).2 = ls
  \/ ((loadStoredSession config ls).1 = None
      /\ (loadStoredSession config ls).2 = removeItem SESSION_STORAGE_KEY ls).
Proof.
  destruct ls as [|items]; [by left|].
  unfold loadStoredSession, loadStoredSession_try. simpl.
  destruct (items !! SESSION_STORAGE_KEY) as [raw|]; [|by left].
  destruct (negb (str_truthy raw)); [by left|].
  destruct (JSON_parse raw) as [parsed|]; [|by left].
  repeat match goal with |- context [if ?b then _ else _] =>
           destruct b; simpl; auto end.
Qed.

(** Nothing is found in a store that has no session key. *)
Lemma loadStoredSession_absent config ls :
  getItem SESSION_STORAGE_KEY ls = None ->
  loadStoredSession config ls = (None, ls).
Proof.
  destruct ls as [|items]; [reflexivity|]. simpl. intros Hnone.
  unfold loadStoredSession, loadStoredSession_try. simpl. by rewrite Hnone.
Qed.

Lemma getItem_removeItem k ls : getItem k (removeItem k ls) = None.
Proof. destruct ls; [reflexivity|]. apply lookup_delete_eq. Qed.

Lemma getItem_removeItem_ne k k' ls :
  k <> k' -> getItem k' (removeItem k ls) = getItem k' ls.
Proof. intros Hne. destruct ls; [reflexivity|]. by apply lookup_delete_ne. Qed.

Lemma removeItem_twice k ls : removeItem k (removeItem k ls) = removeItem k ls.
Proof.
  destruct ls as [|items]; [reflexivity|]. simpl. f_equal.
  apply delete_id, lookup_delete_eq.
Qed.

(** The session the check returns, and the world it leaves, do not depend
    on the React state it is given. *)
Lemma ensureActiveSession_state_blind config activeSession message st st' w :
  (ensureActiveSession config activeSession message st w).1.1
  = (ensureActiveSession config activeSession message st' w).1.1
  /\ (ensureActiveSession config activeSession message st w).2
     = (ensureActiveSession config activeSession message st' w).2.
Proof.
  unfold ensureActiveSession. destruct activeSession as [s|]; [|by split].
  destruct (hasStoredSessionToken config (World.storage w)) as [has ls].
  destruct has; [|by split]. cbn [negb].
  destruct (isSessionExpired (Some s) (World.now (World.with_storage ls w)));
    by split.
Qed.

(** The check sends nothing and only ever removes the session key. *)
Lemma ensureActiveSession_world config activeSession message st w :
  let w' := (ensureActiveSession config activeSession message st w).2 in
  World.sent w' = World.sent w
  /\ World.now w' = World.now w
  /\ (World.storage w' = World.storage w
      \/ World.storage w'
         = removeItem SESSION_STORAGE_KEY (World.storage w)).
Proof.
  unfold ensureActiveSession. destruct activeSession as [s|]; [|by auto].
  unfold hasStoredSessionToken.
  pose proof (loadStoredSession_store config (World.storage w)) as Hstore.
  destruct (loadStoredSession config (World.storage w)) as [loaded ls].
  simpl in Hstore.
  assert (Hclear : removeItem SESSION_STORAGE_KEY ls
                   = removeItem SESSION_STORAGE_KEY (World.storage w)).
  { destruct Hstore as [-> | [_ ->]]; [reflexivity|]. apply removeItem_twice. }
  destruct (truthy (get (default VNull loaded) "token")); cbn [negb].
  - destruct (isSessionExpired (Some s) (World.now (World.with_storage ls w))).
    + unfold clearSession, World.with_storage. simpl. rewrite Hclear. auto.
    + simpl. destruct Hstore as [-> | [_ ->]]; auto.
  - unfold clearSession, World.with_storage. simpl. rewrite Hclear. auto.
Qed.

(** A check that passes returns the session it was given and changes
    nothing. *)
Lemma ensureActiveSession_passes config activeSession message st w s :
  (ensureActiveSession config activeSession message st w).1.1 = Some s ->
  ensureActiveSession config activeSession message st w
  = (activeSession, st, w)
  /\ activeSession = Some s
  /\ (hasStoredSessionToken config (World.storage w)).1 = true
  /\ isSessionExpired (Some s) (World.now w) = false.
Proof.
  unfold ensureActiveSession. destruct activeSession as [s'|]; [|discriminate].
  destruct (hasStoredSessionToken config (World.storage w)) as [has ls]
    eqn:Hhas.
  destruct has; [|discriminate]. cbn [negb].
  pose proof (hasStoredSessionToken_true config (World.storage w)) as Htrue.
  rewrite Hhas in Htrue. specialize (Htrue eq_refl). injection Htrue as ->.
  rewrite with_storage_same.
  destruct (isSessionExpired (Some s') (World.now w)) eqn:Hexp;
    [discriminate|].
  intros [= ->]. auto.
Qed.

End StoreMore.

(** X1.  Loading the stored session never writes: every other key of the
    store is left as it was, and the session key is either left or removed,
    removed only when nothing is returned.  Loading twice is loading once:
    the second load returns the same result and changes nothing more. *)
Theorem loadStoredSession_only_purges `{Platform} (config : DemoConfig.t)
    (ls : LocalStorage) :
  let '(loaded, ls') := loadStoredSession config ls in
  (forall k, k <> SESSION_STORAGE_KEY -> getItem k ls' = getItem k ls)
  /\ (ls' = ls \/ (loaded = None /\ ls' = removeItem SESSION_STORAGE_KEY ls))
  /\ loadStoredSession config ls' = (loaded, ls').
Proof.
  pose proof (loadStoredSession_store config ls) as Hstore.
  destruct (loadStoredSession config ls) as [loaded ls'] eqn:Hload.
  simpl in Hstore. split; [|split].
  - intros k Hk. destruct Hstore as [-> | [_ ->]]; [reflexivity|].
    by apply getItem_removeItem_ne.
  - exact Hstore.
  - destruct Hstore as [-> | [-> ->]]; [exact Hload|].
    apply loadStoredSession_absent, getItem_removeItem.
Qed.

(** X2.  Signing out twice is signing out once, signing out leaves nothing
    to load, whatever was stored, and it touches no other key of the
    store. *)
Theorem clearSession_idempotent `{Platform} (config : DemoConfig.t)
    (st : AppState.t) (w : World.t) :
  let '(st', w') := clearSession st w in
  clearSession st' w' = (st', w')
  /\ loadStoredSession config (World.storage w') = (None, World.storage w')
  /\ (hasStoredSessionToken config (World.storage w')).1 = false
  /\ (forall k, k <> SESSION_STORAGE_KEY ->
        getItem k (World.storage w') = getItem k (World.storage w))
  /\ World.sent w' = World.sent w.
Proof.
  unfold clearSession. simpl.
  assert (Hload : loadStoredSession config
                    (removeItem SESSION_STORAGE_KEY (World.storage w))
                  = (None, removeItem SESSION_STORAGE_KEY (World.storage w)))
    by apply loadStoredSession_absent, getItem_removeItem.
  repeat split.
  - unfold World.with_storage. simpl. by rewrite removeItem_twice.
  - exact Hload.
  - unfold hasStoredSessionToken. by rewrite Hload.
  - intros k Hk. by apply getItem_removeItem_ne.
Qed.


(** X4.  Expiry is permanent: a session that is expired at one clock
    reading is expired at every later one.  No session, a session with an
    empty expiry and a session whose expiry does not parse are expired at
    every clock reading. *)
Theorem expiry_is_permanent `{Platform} (session : option Session.t)
    (now later : Z) :
  (now <= later ->
   isSessionExpired session now = true ->
   isSessionExpired session later = true)
  /\ isSessionExpired None now = true
  /\ (forall s, Session.expiresAt s = "" ->
        isSessionExpired (Some s) now = true)
  /\ (forall s, Date_getTime (Session.expiresAt s) = None ->
        isSessionExpired (Some s) now = true).
Proof.
  repeat split.
  - intros Hle. unfold isSessionExpired. destruct session as [s|]; [|done].
    destruct (negb (str_truthy (Session.expiresAt s))); [done|].
    destruct (Date_getTime (Session.expiresAt s)) as [t|]; [|done].
    intros Hexp. apply Z.leb_le in Hexp. apply Z.leb_le. lia.
  - intros s Hempty. unfold isSessionExpired. by rewrite Hempty.
  - intros s Hnan. unfold isSessionExpired. rewrite Hnan.
    by destruct (negb (str_truthy (Session.expiresAt s))).
Qed.

(** X5.  The validity check has two outcomes only.  Either it returns the
    session it was given and changes neither the state nor the world; or it
    returns nothing, and then, if a session was given, the operator is
    signed out: session, profile, records, drafts and pagination are reset,
    the stored session is gone and the error names the reason, [Access not
    active] when the store holds no token and [Access expired] when it does
    and the session is past its expiry.  With no session given only the
    error is set.  It never sends a request. *)
Theorem ensureActiveSession_outcomes `{Platform} (config : DemoConfig.t)
    (activeSession : option Session.t) (missingMessage : string)
    (st : AppState.t) (w : World.t) :
  let '(result, st', w') :=
    ensureActiveSession config activeSession missingMessage st w in
  let stored := (hasStoredSessionToken config (World.storage w)).1 in
  World.sent w' = World.sent w
  /\ match result with
     | Some s =>
         activeSession = Some s /\ st' = st /\ w' = w
     | None =>
         match activeSession with
         | None =>
             st' = AppState.setError (Some missingMessage) st /\ w' = w
         | Some _ =>
             AppState.session st' = None
             /\ AppState.profile st' = None
             /\ AppState.todos st' = []
             /\ AppState.todoDrafts st' = ∅
             /\ AppState.todoMeta st' = None
             /\ AppState.todoPage st' = 1
             /\ AppState.todoPageSize st' = DEFAULT_PAGE_SIZE
             /\ AppState.status st' = Some "Signed out."
             /\ AppState.error st'
                = Some (if stored
                        then "Access expired. Request access again."
                        else "Access not active. Request access.")
             /\ (stored = true ->
                 isSessionExpired activeSession (World.now w) = true)
             /\ getItem SESSION_STORAGE_KEY (World.storage w') = None
         end
     end.
Proof.
  pose proof (ensureActiveSession_world config activeSession missingMessage
                st w) as [Hsent _].
  pose proof (ensureActiveSession_passes config activeSession missingMessage
                st w) as Hpass.
  destruct (ensureActiveSession config activeSession missingMessage st w)
    as [[result st'] w'] eqn:Hrun.
  simpl in Hsent, Hpass. cbv zeta. split; [exact Hsent|].
  destruct result as [s|].
  - destruct (Hpass s eq_refl) as (Heq & Hactive & _). by inversion Heq.
  - clear Hpass. unfold ensureActiveSession in Hrun.
    destruct activeSession as [s|]; [|by inversion Hrun].
    destruct (hasStoredSessionToken config (World.storage w)) as [has ls].
    cbn [fst].
    destruct has; cbn [negb] in Hrun.
    + destruct (isSessionExpired (Some s) (World.now (World.with_storage ls w)))
        eqn:Hexpired;
        inversion Hrun; subst; simpl.
      repeat split; auto. apply getItem_removeItem.
    + inversion Hrun; subst; simpl.
      repeat split; auto; [discriminate | apply getItem_removeItem].
Qed.

(** ** The transport client, further *)

Lemma strip_trailing_slash_added (b : string) :
  strip_trailing_slash (b +:+ "/") = b.
Proof.
  induction b as [|c b IH]; [reflexivity|].
  change (String c b +:+ "/") with (String c (b +:+ "/")).
  cbn [strip_trailing_slash]. rewrite IH.
  destruct b; reflexivity.
Qed.

(** X6.  A successful call never returns [null] or [undefined]: an empty
    response body, or one that parses to [null], comes back as the empty
    object, and a body that is not JSON comes back as its text. *)
Theorem jsonRequest_never_returns_null `{Platform} (config : DemoConfig.t)
    (path : string) (options : RequestOptions.t) (w : World.t) :
  match (jsonRequest config path options w).1 with
  | Returned v => nullish v = false
  | _ => True
  end
  /\ (forall req response,
        jsonRequest_prepare config path options = inr req ->
        fetch req = Responded response ->
        Response.ok response = true ->
        (Response.text response = "" ->
         (jsonRequest config path options w).1 = Returned (VObj []))
        /\ (Response.text response <> "" ->
            JSON_parse (Response.text response) = Some VNull ->
            (jsonRequest config path options w).1 = Returned (VObj []))
        /\ (Response.text response <> "" ->
            JSON_parse (Response.text response) = None ->
            (jsonRequest config path options w).1
            = Returned (VStr (Response.text response)))).
Proof.
  split.
  - unfold jsonRequest, do_fetch.
    destruct (jsonRequest_prepare config path options) as [e|req]; [exact I|].
    destruct (fetch req) as [response|]; [|exact I]. simpl.
    unfold jsonRequest_receive.
    destruct (negb (Response.ok response)); [exact I|].
    unfold js_coalesce.
    by destruct (nullish (response_data (Response.text response))) eqn:Hnull.
  - intros req response Hprep Hfetch Hok.
    destruct (jsonRequest_sends config path options w req Hprep) as [_ Hout].
    rewrite Hout, Hfetch. unfold jsonRequest_receive, response_data, str_truthy.
    rewrite Hok. simpl. repeat split.
    + by intros ->.
    + intros Hne Hparse. apply String.eqb_neq in Hne.
      by rewrite Hne, Hparse.
    + intros Hne Hparse. apply String.eqb_neq in Hne.
      by rewrite Hne, Hparse.
Qed.

(** X7.  The URL of a request: a path is taken with or without its leading
    slash; one trailing slash of the base URL is dropped; an empty base URL
    stands for [https://reqres.in]; and with a base URL configured, requests
    go to the very base URL sessions are stored under. *)
Theorem request_url_normalised `{Platform} (config : DemoConfig.t)
    (path : string) :
  let rooted := if startsWith path "/" then path else "/" +:+ path in
  let at_base (b : string) :=
    request_url
      (DemoConfig.mk b (DemoConfig.projectId config)
         (DemoConfig.publicProjectKey config)
         (DemoConfig.manageProjectKey config)
         (DemoConfig.collectionSlug config))
      path in
  (startsWith path "/" = false ->
   request_url config ("/" +:+ path) = request_url config path)
  /\ (forall b, at_base (b +:+ "/") = b +:+ rooted)
  /\ at_base "" = "https://reqres.in" +:+ rooted
  /\ (DemoConfig.baseUrl config <> "" ->
      request_url config path
      = normalizeBaseUrl (DemoConfig.baseUrl config) +:+ rooted).
Proof.
  intros rooted at_base. subst rooted at_base. unfold request_url.
  split; [|split; [|split]].
  - intros Hrel. rewrite Hrel.
    assert (Hrooted : startsWith ("/" +:+ path) "/" = true)
      by (unfold startsWith; simpl; by destruct path).
    by rewrite Hrooted.
  - intros b. cbn [DemoConfig.baseUrl].
    assert (Hne : str_truthy (b +:+ "/") = true) by by destruct b.
    by rewrite Hne, strip_trailing_slash_added.
  - reflexivity.
  - intros Hbase. unfold normalizeBaseUrl, str_truthy.
    apply String.eqb_neq in Hbase. by rewrite Hbase.
Qed.

(** X8.  What a request that passes the credential checks carries.  It
    accepts JSON unless the caller set another [Accept]; it declares a JSON
    content type exactly when a body was given, [null] included, unless the
    caller set one; every other header of the caller is passed on.  A body
    that is a string is sent as it is, any other body is serialized, and a
    [null] body is not sent at all. *)
Theorem request_headers_and_body `{Platform} (config : DemoConfig.t)
    (path : string) (options : RequestOptions.t) (req : Request.t) :
  jsonRequest_prepare config path options = inr req ->
  let caller := RequestOptions.headers options in
  let body := RequestOptions.body options in
  Request.url req = request_url config path
  /\ Request.method req = RequestOptions.method options
  /\ Request.headers req !! "Accept"
     = Some (default "application/json" (caller !! "Accept"))
  /\ Request.headers req !! "Content-Type"
     = match caller !! "Content-Type" with
       | Some given => Some given
       | None =>
           if strict_eq body VUndefined then None
           else Some "application/json"
       end
  /\ (forall k, k <> "Accept" -> k <> "Content-Type" ->
        k <> "Authorization" -> k <> "x-api-key" ->
        Request.headers req !! k = caller !! k)
  /\ Request.body req
     = (if nullish body then None
        else Some (match body with
                   | VStr text => text
                   | _ => JSON_stringify body
                   end)).
Proof.
  intros Hprep caller body. subst caller body.
  destruct options as [method caller token usePub useMan body require].
  unfold jsonRequest_prepare in Hprep. simpl in Hprep |- *.
  set (base := caller
               ∪ (if negb (strict_eq body VUndefined)
                  then {[ "Content-Type" := "application/json" ]} else ∅)
               ∪ {[ "Accept" := "application/json" ]}) in Hprep.
  assert (Haccept : base !! "Accept"
                    = Some (default "application/json" (caller !! "Accept"))).
  { subst base. destruct (caller !! "Accept") as [a|] eqn:Ha; simpl.
    - apply lookup_union_Some_l, lookup_union_Some_l. exact Ha.
    - rewrite lookup_union_r.
      + apply lookup_singleton_eq.
      + apply lookup_union_None_2; [exact Ha|].
        destruct (negb (strict_eq body VUndefined)); by simplify_map_eq. }
  assert (Hct : base !! "Content-Type"
                = match caller !! "Content-Type" with
                  | Some given => Some given
                  | None => if strict_eq body VUndefined then None
                            else Some "application/json"
                  end).
  { subst base. destruct (caller !! "Content-Type") as [c|] eqn:Hc.
    - apply lookup_union_Some_l, lookup_union_Some_l. exact Hc.
    - destruct (strict_eq body VUndefined); simpl.
      + apply lookup_union_None_2; [|by simplify_map_eq].
        apply lookup_union_None_2; [exact Hc | by simplify_map_eq].
      + apply lookup_union_Some_l. rewrite lookup_union_r; [|exact Hc].
        apply lookup_singleton_eq. }
  assert (Hother : forall k, k <> "Accept" -> k <> "Content-Type" ->
                             base !! k = caller !! k).
  { intros k Hk1 Hk2. subst base.
    destruct (caller !! k) as [v|] eqn:Hv.
    - apply lookup_union_Some_l, lookup_union_Some_l. exact Hv.
    - apply lookup_union_None_2; [|by simplify_map_eq].
      apply lookup_union_None_2; [exact Hv|].
      destruct (negb (strict_eq body VUndefined)); by simplify_map_eq. }
  clearbody base.
  repeat match type of Hprep with
         | context [if ?b then _ else _] => destruct b; simpl in Hprep
         end;
    try discriminate; injection Hprep as <-; simpl;
    (split; [reflexivity|]); (split; [reflexivity|]);
    (split; [by simplify_map_eq|]); (split; [by simplify_map_eq|]);
    (split; [|reflexivity]);
    intros k Hk1 Hk2 Hk3 Hk4; rewrite <- (Hother k Hk1 Hk2);
    by simplify_map_eq.
Qed.

(** ** The calls of [src/api.ts], further *)

Section CallFacts.
Context `{Platform}.

Lemma session_request_bearer_only config path method token body :
  bearer_only token (session_request config path method token body).
Proof.
  unfold bearer_only, session_request. simpl. split; [by simplify_map_eq|].
  rewrite lookup_insert_ne by discriminate.
  apply lookup_union_None_2; [|by simplify_map_eq].
  apply lookup_union_None_2; [by simplify_map_eq|].
  destruct (negb (strict_eq body VUndefined)); by simplify_map_eq.
Qed.

Lemma key_request_key_only config path method body key :
  key_only key (key_request config path method body key).
Proof.
  unfold key_only, key_request. simpl. split; [by simplify_map_eq|].
  rewrite lookup_insert_ne by discriminate.
  apply lookup_union_None_2; [|by simplify_map_eq].
  apply lookup_union_None_2; [by simplify_map_eq|].
  destruct (negb (strict_eq body VUndefined)); by simplify_map_eq.
Qed.

(** A call made with a session token: refused without one, sent with one. *)
Lemma session_call config path method token body w :
  jsonRequest config path (session_options method token body) w
  = if str_truthy token then
      (match fetch (session_request config path method token body) with
       | Responded response => jsonRequest_receive response
       | Rejected => ThrownOther
       end,
       World.mk (World.storage w)
         (World.now w
          + latency (session_request config path method token body))
         (World.sent w ++ [session_request config path method token body]))
    else
      (ThrownApi
         (new_ApiError (VStr "Access is required for this action.") None
            VUndefined),
       w).
Proof.
  destruct (str_truthy token) eqn:Htoken.
  - assert (Hne : token <> "").
    { intros ->. discriminate Htoken. }
    pose proof (jsonRequest_sends config path _ w _
                  (prepare_session_request config path method token body Hne))
      as [Hw Hout].
    destruct (jsonRequest _ _ _ _) as [out w']. simpl in *. by subst.
  - unfold str_truthy in Htoken. apply negb_false_iff, String.eqb_eq in Htoken.
    subst token. reflexivity.
Qed.

(** A call made with the public key. *)
Lemma public_call config path method body w :
  jsonRequest config path (key_options method body RequirePublic) w
  = if str_truthy (DemoConfig.publicProjectKey config) then
      let req :=
        key_request config path method body
          (DemoConfig.publicProjectKey config) in
      (match fetch req with
       | Responded response => jsonRequest_receive response
       | Rejected => ThrownOther
       end,
       World.mk (World.storage w) (World.now w + latency req)
         (World.sent w ++ [req]))
    else
      (ThrownApi
         (new_ApiError (VStr "Public access key is missing.") None VUndefined),
       w).
Proof.
  unfold jsonRequest, jsonRequest_prepare, key_options, require_is, do_fetch.
  simpl. destruct (str_truthy (DemoConfig.publicProjectKey config)); simpl;
    [|reflexivity].
  unfold key_request. by destruct (fetch _).
Qed.

(** A call made with the manage key. *)
Lemma manage_call config path method body w :
  jsonRequest config path (key_options method body RequireManage) w
  = if str_truthy (DemoConfig.manageProjectKey config) then
      let req :=
        key_request config path method body
          (DemoConfig.manageProjectKey config) in
      (match fetch req with
       | Responded response => jsonRequest_receive response
       | Rejected => ThrownOther
       end,
       World.mk (World.storage w) (World.now w + latency req)
         (World.sent w ++ [req]))
    else
      (ThrownApi
         (new_ApiError (VStr "Management access key is missing.") None
            VUndefined),
       w).
Proof.
  unfold jsonRequest, jsonRequest_prepare, key_options, require_is, do_fetch.
  simpl. destruct (str_truthy (DemoConfig.manageProjectKey config)); simpl;
    [|reflexivity].
  unfold key_request. by destruct (fetch _).
Qed.

Lemma session_call_sends config path method token body w :
  sends_at_most_one w
    (jsonRequest config path (session_options method token body) w).2
    (fun req => req = session_request config path method token body).
Proof.
  rewrite session_call. destruct (str_truthy token); [right|by left].
  eexists. by split.
Qed.

End CallFacts.

(** X9.  The record calls and the profile call authenticate with the
    session only: each sends at most one request, and a request it sends
    carries [Authorization: Bearer <token>] and no project key. *)
Theorem record_calls_carry_the_session_only `{Platform} (config : DemoConfig.t)
    (sessionToken todoId : string) (opts : ListOptions.t)
    (todo : TodoPayload.t) (w : World.t) :
  sends_at_most_one w (fetchTodos config sessionToken opts w).2
    (bearer_only sessionToken)
  /\ sends_at_most_one w (createTodo config sessionToken todo w).2
       (bearer_only sessionToken)
  /\ sends_at_most_one w (updateTodo config sessionToken todoId todo w).2
       (bearer_only sessionToken)
  /\ sends_at_most_one w (deleteTodo config sessionToken todoId w).2
       (bearer_only sessionToken)
  /\ sends_at_most_one w (fetchProfile config sessionToken w).2
       (bearer_only sessionToken).
Proof.
  assert (Hcall : forall path method body,
    sends_at_most_one w
      (jsonRequest config path (session_options method sessionToken body) w).2
      (bearer_only sessionToken)).
  { intros path method body.
    destruct (session_call_sends config path method sessionToken body w)
      as [Hsame | (req & Hsent & ->)]; [by left|].
    right. eexists. split; [exact Hsent|].
    apply session_request_bearer_only. }
  repeat split.
  - unfold fetchTodos.
    destruct (negb (str_truthy (DemoConfig.collectionSlug config)));
      [by left|].
    match goal with |- context [jsonRequest config ?p ?o w] =>
      specialize (Hcall p "GET" VUndefined);
      destruct (jsonRequest config p o w) as [[res|e|] w'] end;
      exact Hcall.
  - unfold createTodo.
    destruct (negb (str_truthy (DemoConfig.collectionSlug config)));
      [by left|].
    match goal with |- context [jsonRequest config ?p ?o w] =>
      specialize (Hcall p "POST" (VObj [("data", payload_value todo)]));
      destruct (jsonRequest config p o w) as [[res|e|] w'] end;
      exact Hcall.
  - unfold updateTodo.
    destruct (negb (str_truthy (DemoConfig.collectionSlug config)));
      [by left|].
    match goal with |- context [jsonRequest config ?p ?o w] =>
      specialize (Hcall p "PUT" (VObj [("data", payload_value todo)]));
      destruct (jsonRequest config p o w) as [[res|e|] w'] end;
      exact Hcall.
  - unfold deleteTodo.
    destruct (negb (str_truthy (DemoConfig.collectionSlug config)));
      [by left|].
    match goal with |- context [jsonRequest config ?p ?o w] =>
      specialize (Hcall p "DELETE" VUndefined);
      destruct (jsonRequest config p o w) as [[res|e|] w'] end;
      exact Hcall.
  - unfold fetchProfile.
    match goal with |- context [jsonRequest config ?p ?o w] =>
      specialize (Hcall p "GET" VUndefined);
      destruct (jsonRequest config p o w) as [[res|e|] w'] end;
      exact Hcall.
Qed.

(** X10.  The sign-in calls and the operator count authenticate with a
    project key only: each sends at most one request, and a request it sends
    carries the key in [x-api-key] and no bearer token.  The code request
    uses the public key, the verification the manage key, and the count the
    public key when one is configured and the manage key otherwise. *)
Theorem key_calls_carry_a_project_key_only `{Platform}
    (StringToNumber : string -> option Z) (config : DemoConfig.t)
    (email token : string) (w : World.t) :
  sends_at_most_one w (requestMagicLink config email w).2
    (key_only (DemoConfig.publicProjectKey config))
  /\ sends_at_most_one w (verifyMagicToken config token w).2
       (key_only (DemoConfig.manageProjectKey config))
  /\ sends_at_most_one w (fetchAppUserTotal StringToNumber config w).2
       (key_only
          (if str_truthy (DemoConfig.publicProjectKey config)
           then DemoConfig.publicProjectKey config
           else DemoConfig.manageProjectKey config)).
Proof.
  repeat split.
  - unfold requestMagicLink. destruct (no_project config); [by left|].
    destruct (str_truthy (DemoConfig.publicProjectKey config)) eqn:Hkey;
      simpl; [|by left].
    rewrite public_call, Hkey. right. eexists. split; [|apply key_request_key_only].
    cbv zeta. destruct (fetch _) as [response|];
      [by destruct (jsonRequest_receive response)|done].
  - unfold verifyMagicToken. destruct (no_project config); [by left|].
    rewrite manage_call.
    destruct (str_truthy (DemoConfig.manageProjectKey config)) eqn:Hkey;
      [|by left].
    right. eexists. split; [|apply key_request_key_only].
    cbv zeta. destruct (fetch _) as [response|];
      [by destruct (jsonRequest_receive response)|done].
  - unfold fetchAppUserTotal. destruct (no_project config); [by left|].
    destruct (str_truthy (DemoConfig.publicProjectKey config)) eqn:Hpublic;
      simpl.
    + rewrite public_call, Hpublic. right. eexists. split; [|apply key_request_key_only].
    cbv zeta. destruct (fetch _) as [response|];
      [by destruct (jsonRequest_receive response)|done].
    + destruct (str_truthy (DemoConfig.manageProjectKey config)) eqn:Hmanage;
        simpl; [|by left].
      rewrite manage_call, Hmanage. right. eexists. split; [|apply key_request_key_only].
    cbv zeta. destruct (fetch _) as [response|];
      [by destruct (jsonRequest_receive response)|done].
Qed.

Section KeyCallFacts.
Context `{Platform}.

Lemma has_project config p :
  DemoConfig.projectId config = Some p -> p <> 0 ->
  no_project config = false /\ project_number config = p.
Proof.
  intros Hp Hne. unfold no_project, project_number. rewrite Hp. simpl.
  split; [|reflexivity].
  apply negb_false_iff, negb_true_iff. by apply Z.eqb_neq.
Qed.

Lemma no_project_iff config :
  no_project config = true
  <-> DemoConfig.projectId config = None \/ DemoConfig.projectId config = Some 0.
Proof.
  unfold no_project. destruct (DemoConfig.projectId config) as [p|]; simpl.
  - rewrite negb_true_iff, negb_false_iff, Z.eqb_eq.
    split; [intros ->; by right | by intros [|[= ->]]].
  - split; [by left | done].
Qed.

Lemma str_truthy_true s : s <> "" -> str_truthy s = true.
Proof. intros Hne. unfold str_truthy. by apply negb_true_iff, String.eqb_neq. Qed.

Lemma public_call_ok config path method body w response :
  DemoConfig.publicProjectKey config <> "" ->
  fetch (key_request config path method body
           (DemoConfig.publicProjectKey config)) = Responded response ->
  Response.ok response = true ->
  (jsonRequest config path (key_options method body RequirePublic) w).1
  = Returned (js_coalesce (response_data (Response.text response)) (VObj [])).
Proof.
  intros Hkey Hfetch Hok. rewrite public_call, (str_truthy_true _ Hkey).
  cbv zeta. rewrite Hfetch. unfold jsonRequest_receive. by rewrite Hok.
Qed.

Lemma manage_call_ok config path method body w response :
  DemoConfig.manageProjectKey config <> "" ->
  fetch (key_request config path method body
           (DemoConfig.manageProjectKey config)) = Responded response ->
  Response.ok response = true ->
  (jsonRequest config path (key_options method body RequireManage) w).1
  = Returned (js_coalesce (response_data (Response.text response)) (VObj [])).
Proof.
  intros Hkey Hfetch Hok. rewrite manage_call, (str_truthy_true _ Hkey).
  cbv zeta. rewrite Hfetch. unfold jsonRequest_receive. by rewrite Hok.
Qed.

Lemma key_request_headers config path method body key :
  strict_eq body VUndefined = false ->
  Request.headers (key_request config path method body key)
  = {[ "x-api-key" := key; "Content-Type" := "application/json";
       "Accept" := "application/json" ]}.
Proof.
  intros Hbody. unfold key_request. simpl. rewrite Hbody. simpl.
  by rewrite (left_id_L ∅ (∪)), <- insert_union_singleton_l.
Qed.

End KeyCallFacts.

(** A call with a [null] body and a header of the caller's. *)
Lemma request_headers_and_body_witness :
  exists req,
    @jsonRequest_prepare Reference.online Reference.config "ping"
      (RequestOptions.mk (Some "PATCH") {[ "X-Trace" := "1" ]} None false false
         VNull None)
    = inr req
    /\ Request.url req = "https://reqres.in/ping"
    /\ Request.headers req !! "Content-Type" = Some "application/json"
    /\ Request.headers req !! "X-Trace" = Some "1"
    /\ Request.body req = None.
Proof.
  destruct (@jsonRequest_prepare Reference.online Reference.config "ping"
              (RequestOptions.mk (Some "PATCH") {[ "X-Trace" := "1" ]} None
                 false false VNull None)) as [e|req] eqn:Hprep;
    [vm_compute in Hprep; discriminate|].
  exists req. split; [reflexivity|].
  destruct (@request_headers_and_body Reference.online Reference.config "ping"
              _ req Hprep) as (Hurl & _ & _ & Hct & Hother & Hbody).
  split; [by rewrite Hurl|]. split; [by rewrite Hct|].
  split; [by rewrite Hother|by rewrite Hbody].
Defined.

(** X11.  The sign-in calls and the operator count fail before the network
    when the configuration cannot serve them, with an error that has no
    status: without a project id (absent or zero) all three; with one, the
    code request without a public key, the verification without a manage
    key, and the count without any key.  Nothing is sent and the clock does
    not move. *)
Theorem key_calls_fail_before_the_network `{Platform}
    (StringToNumber : string -> option Z) (config : DemoConfig.t)
    (email token : string) (w : World.t) :
  let refused (message : string) : ApiError.t :=
    ApiError.mk message None VUndefined in
  let has_project :=
    exists p, DemoConfig.projectId config = Some p /\ p <> 0 in
  (DemoConfig.projectId config = None \/ DemoConfig.projectId config = Some 0 ->
   let e := refused "Project identifier is missing. Update configuration." in
   requestMagicLink config email w = (ThrownApi e, w)
   /\ verifyMagicToken config token w = (ThrownApi e, w)
   /\ fetchAppUserTotal StringToNumber config w = (ThrownApi e, w))
  /\ (has_project -> DemoConfig.publicProjectKey config = "" ->
      requestMagicLink config email w
      = (ThrownApi
           (refused
              "Public access key is missing. Access requests are disabled."),
         w))
  /\ (has_project -> DemoConfig.manageProjectKey config = "" ->
      verifyMagicToken config token w
      = (ThrownApi (refused "Management access key is missing."), w))
  /\ (has_project -> DemoConfig.publicProjectKey config = "" ->
      DemoConfig.manageProjectKey config = "" ->
      fetchAppUserTotal StringToNumber config w
      = (ThrownApi
           (refused "Access key is missing. Add a public or management key."),
         w)).
Proof.
  intros refused has_project. subst refused has_project.
  split; [|split; [|split]].
  - intros Hno. apply no_project_iff in Hno.
    unfold requestMagicLink, verifyMagicToken, fetchAppUserTotal.
    by rewrite Hno.
  - intros (p & Hp & Hne) Hkey.
    destruct (has_project config p Hp Hne) as [Hproject _].
    unfold requestMagicLink. by rewrite Hproject, Hkey.
  - intros (p & Hp & Hne) Hkey.
    destruct (has_project config p Hp Hne) as [Hproject _].
    unfold verifyMagicToken. by rewrite Hproject, manage_call, Hkey.
  - intros (p & Hp & Hne) Hpublic Hmanage.
    destruct (has_project config p Hp Hne) as [Hproject _].
    unfold fetchAppUserTotal. by rewrite Hproject, Hpublic, Hmanage.
Qed.

(** X12.  With a project id and a public key configured, asking for a
    sign-in code sends exactly one request: a [POST] to
    [/api/app-users/login] whose body is the JSON text of the email and the
    project id, with the public key as its only credential. *)
Theorem requestMagicLink_request `{Platform} (config : DemoConfig.t)
    (email : string) (w : World.t) (p : Z) :
  DemoConfig.projectId config = Some p ->
  p <> 0 ->
  DemoConfig.publicProjectKey config <> "" ->
  exists req,
    World.sent (requestMagicLink config email w).2 = World.sent w ++ [req]
    /\ Request.url req = request_url config "/api/app-users/login"
    /\ Request.method req = Some "POST"
    /\ Request.body req
       = Some (JSON_stringify
                 (VObj [("email", VStr email); ("project_id", VNum p)]))
    /\ Request.headers req
       = {[ "x-api-key" := DemoConfig.publicProjectKey config;
            "Content-Type" := "application/json";
            "Accept" := "application/json" ]}.
Proof.
  intros Hp Hne Hkey. destruct (has_project config p Hp Hne) as [Hproject Hnum].
  unfold requestMagicLink.
  rewrite Hproject, (str_truthy_true _ Hkey). cbn [negb].
  rewrite public_call, (str_truthy_true _ Hkey). cbv zeta.
  eexists. split.
  - destruct (fetch _) as [response|];
      [by destruct (jsonRequest_receive response)|done].
  - split; [reflexivity|]. split; [reflexivity|].
    split; [by unfold login_body; rewrite Hnum|].
    by apply key_request_headers.
Qed.

(** The reference configuration asks for a code for [a@b.com]. *)
Lemma requestMagicLink_request_witness :
  map Request.body
    (World.sent
       (@requestMagicLink Reference.online Reference.config "a@b.com"
          Reference.empty_world).2)
  = [Some (Reference.json_text "{'email':'a@b.com','project_id':7}")].
Proof.
  destruct (@requestMagicLink_request Reference.online Reference.config
              "a@b.com" Reference.empty_world 7)
    as (req & Hsent & _ & _ & Hbody & _);
    [reflexivity | discriminate | discriminate |].
  rewrite Hsent. simpl. rewrite Hbody. vm_compute. reflexivity.
Defined.

(** X13.  How the answer to a code request is read.  The payload is the
    [data] member of the reply when it has one and the reply itself
    otherwise; the code counts as sent unless the payload says otherwise, so
    a success with an empty body reports a code sent and nothing else. *)
Theorem requestMagicLink_reads_reply `{Platform} (config : DemoConfig.t)
    (email : string) (w : World.t) (p : Z) (response : Response.t) :
  DemoConfig.projectId config = Some p ->
  p <> 0 ->
  DemoConfig.publicProjectKey config <> "" ->
  fetch (key_request config "/api/app-users/login" "POST"
           (login_body config email) (DemoConfig.publicProjectKey config))
  = Responded response ->
  Response.ok response = true ->
  let reply := response_data (Response.text response) in
  let payload :=
    if nullish (get reply "data") then reply else get reply "data" in
  exists result,
    (requestMagicLink config email w).1 = Returned result
    /\ get result "sent"
       = VBool (if nullish (get payload "sent") then true
                else truthy (get payload "sent"))
    /\ get result "token" = get payload "token"
    /\ get result "magicLink" = get payload "magicLink"
    /\ get result "expiresInMinutes" = get payload "expires_in_minutes"
    /\ get result "note" = get payload "note"
    /\ get result "message" = get payload "message"
    /\ (Response.text response = "" ->
        get result "sent" = VBool true /\ get result "token" = VUndefined).
Proof.
  intros Hp Hne Hkey Hfetch Hok reply payload.
  destruct (has_project config p Hp Hne) as [Hproject _].
  pose proof (public_call_ok config _ _ _ w response Hkey Hfetch Hok) as Hcall.
  unfold requestMagicLink.
  rewrite Hproject, (str_truthy_true _ Hkey). cbn [negb].
  destruct (jsonRequest _ _ _ w) as [out w']. simpl in Hcall. subst out.
  eexists. split; [reflexivity|]. fold reply.
  assert (Hget : forall k,
    get (js_coalesce (get (js_coalesce reply (VObj [])) "data")
           (js_coalesce reply (VObj []))) k
    = get payload k).
  { intros k. subst payload. unfold js_coalesce.
    destruct (nullish reply) eqn:Hreply; [by destruct reply|].
    by destruct (nullish (get reply "data")). }
  unfold magic_link_result.
  cbn [get assoc String.eqb Ascii.eqb Bool.eqb default]. rewrite !Hget.
  split; [unfold js_coalesce; by destruct (nullish (get payload "sent"))|].
  repeat (split; [reflexivity|]).
  intros Htext. subst payload reply. unfold response_data. by rewrite Htext.
Qed.

(** A service that answers the code request with an empty success. *)
Lemma requestMagicLink_reads_reply_witness :
  exists result,
    (@requestMagicLink
       (Reference.platform (fun _ => Responded (Response.mk true 200 "OK" "")))
       Reference.config "a@b.com" Reference.empty_world).1
    = Returned result
    /\ get result "sent" = VBool true
    /\ get result "token" = VUndefined.
Proof.
  destruct (@requestMagicLink_reads_reply
              (Reference.platform
                 (fun _ => Responded (Response.mk true 200 "OK" "")))
              Reference.config "a@b.com" Reference.empty_world 7
              (Response.mk true 200 "OK" ""))
    as (result & Hresult & _ & _ & _ & _ & _ & _ & Hempty);
    [reflexivity | discriminate | discriminate | reflexivity | reflexivity |].
  exists result. split; [exact Hresult|]. by apply Hempty.
Defined.

(** X14.  Exchanging a code for a session, with a project id and a manage
    key configured and a service that answers with a success.  One request
    is sent: a [POST] whose body is the JSON text of the code and the project
    id.  A reply with a [data] member gives the session, read from its
    [session_token], [expires_at], [project_id] and [email]; a reply without
    one ends the call with an exception that is not an [ApiError], after the
    request has gone out. *)
Theorem verifyMagicToken_exchange `{Platform} (config : DemoConfig.t)
    (token : string) (w : World.t) (p : Z) (response : Response.t) :
  DemoConfig.projectId config = Some p ->
  p <> 0 ->
  DemoConfig.manageProjectKey config <> "" ->
  let req :=
    key_request config "/api/app-users/verify" "POST"
      (verify_body config token) (DemoConfig.manageProjectKey config) in
  fetch req = Responded response ->
  Response.ok response = true ->
  let data := get (response_data (Response.text response)) "data" in
  World.sent (verifyMagicToken config token w).2 = World.sent w ++ [req]
  /\ Request.body req
     = Some (JSON_stringify
               (VObj [("token", VStr token); ("project_id", VNum p)]))
  /\ (nullish data = true ->
      (verifyMagicToken config token w).1 = ThrownOther)
  /\ (nullish data = false ->
      (verifyMagicToken config token w).1
      = Returned
          (VObj [("token", get data "session_token");
                 ("expiresAt", get data "expires_at");
                 ("projectId", get data "project_id");
                 ("email", get data "email")])).
Proof.
  intros Hp Hne Hkey req Hfetch Hok data.
  destruct (has_project config p Hp Hne) as [Hproject Hnum].
  assert (Hcall :
    jsonRequest config "/api/app-users/verify"
      (key_options "POST" (verify_body config token) RequireManage) w
    = (Returned (js_coalesce (response_data (Response.text response))
                   (VObj [])),
       World.mk (World.storage w) (World.now w + latency req)
         (World.sent w ++ [req]))).
  { rewrite manage_call, (str_truthy_true _ Hkey). cbv zeta. fold req.
    rewrite Hfetch. unfold jsonRequest_receive. by rewrite Hok. }
  assert (Hdata :
    get (js_coalesce (response_data (Response.text response)) (VObj [])) "data"
    = data).
  { subst data. unfold js_coalesce.
    by destruct (response_data (Response.text response)). }
  unfold verifyMagicToken. rewrite Hproject, Hcall. cbn [fst snd World.sent].
  unfold verified_session. rewrite Hdata.
  split; [reflexivity|].
  split; [by subst req; unfold key_request, verify_body; rewrite Hnum|].
  split; intros Hnull; by rewrite Hnull.
Qed.

(** A service that answers the verification with [session0]. *)
Lemma verifyMagicToken_exchange_witness :
  (@verifyMagicToken
     (Reference.platform
        (fun _ =>
           Responded
             (Response.mk true 200 "OK"
                (Reference.json_text
                   "{'data':{'session_token':'tok','expires_at':'2030-01-01T00:00:00.000Z','project_id':7,'email':'a@b.com'}}"))))
     Reference.config "123456" Reference.empty_world).1
  = Returned (session_value Reference.session0).
Proof.
  destruct (@verifyMagicToken_exchange
              (Reference.platform
                 (fun _ =>
                    Responded
                      (Response.mk true 200 "OK"
                         (Reference.json_text
                            "{'data':{'session_token':'tok','expires_at':'2030-01-01T00:00:00.000Z','project_id':7,'email':'a@b.com'}}"))))
              Reference.config "123456" Reference.empty_world 7
              (Response.mk true 200 "OK"
                 (Reference.json_text
                    "{'data':{'session_token':'tok','expires_at':'2030-01-01T00:00:00.000Z','project_id':7,'email':'a@b.com'}}")))
    as (_ & _ & _ & Hsession);
    [reflexivity | discriminate | discriminate | reflexivity | reflexivity |].
  rewrite Hsession; by vm_compute.
Defined.

(** X15.  The operator count, with a project id and a key configured and a
    service that answers with a success.  One [GET] without a body or a
    content type goes to the project's total; a numeric [total] in the reply
    is the count, and a reply without one, an empty reply included, counts
    zero instead of failing. *)
Theorem fetchAppUserTotal_reads_total `{Platform}
    (StringToNumber : string -> option Z) (config : DemoConfig.t)
    (w : World.t) (p : Z) (response : Response.t) :
  DemoConfig.projectId config = Some p ->
  p <> 0 ->
  DemoConfig.publicProjectKey config <> ""
  \/ DemoConfig.manageProjectKey config <> "" ->
  let key :=
    if str_truthy (DemoConfig.publicProjectKey config)
    then DemoConfig.publicProjectKey config
    else DemoConfig.manageProjectKey config in
  let req :=
    key_request config
      ("/api/projects/" +:+ number_to_string p +:+ "/app-users/total")
      "GET" VUndefined key in
  fetch req = Responded response ->
  Response.ok response = true ->
  let total := get (response_data (Response.text response)) "total" in
  World.sent (fetchAppUserTotal StringToNumber config w).2
  = World.sent w ++ [req]
  /\ Request.body req = None
  /\ Request.headers req !! "Content-Type" = None
  /\ (forall n, total = VNum n ->
        (fetchAppUserTotal StringToNumber config w).1 = Returned n)
  /\ (nullish total = true ->
      (fetchAppUserTotal StringToNumber config w).1 = Returned 0).
Proof.
  intros Hp Hne Hkeys key req Hfetch Hok total.
  destruct (has_project config p Hp Hne) as [Hproject Hnum].
  assert (Hcall :
    jsonRequest config (total_path config)
      (key_options "GET" VUndefined
         (if str_truthy (DemoConfig.publicProjectKey config)
          then RequirePublic else RequireManage)) w
    = (Returned (js_coalesce (response_data (Response.text response))
                   (VObj [])),
       World.mk (World.storage w) (World.now w + latency req)
         (World.sent w ++ [req]))).
  { subst req key. unfold total_path in *. rewrite Hnum.
    destruct (str_truthy (DemoConfig.publicProjectKey config)) eqn:Hpublic.
    - rewrite public_call, Hpublic. cbv zeta.
      rewrite Hfetch. unfold jsonRequest_receive. by rewrite Hok.
    - assert (Hmanage : DemoConfig.manageProjectKey config <> "").
      { destruct Hkeys as [Hk|Hk]; [|exact Hk].
        by rewrite (str_truthy_true _ Hk) in Hpublic. }
      rewrite manage_call, (str_truthy_true _ Hmanage). cbv zeta.
      rewrite Hfetch. unfold jsonRequest_receive. by rewrite Hok. }
  assert (Hguard :
    negb (str_truthy (DemoConfig.publicProjectKey config))
    && negb (str_truthy (DemoConfig.manageProjectKey config)) = false).
  { destruct Hkeys as [Hk|Hk]; rewrite (str_truthy_true _ Hk); simpl;
      [reflexivity | apply andb_false_r]. }
  assert (Htotal :
    get (js_coalesce (response_data (Response.text response)) (VObj []))
      "total"
    = total).
  { subst total. unfold js_coalesce.
    by destruct (response_data (Response.text response)). }
  unfold fetchAppUserTotal. rewrite Hproject. cbv zeta.
  rewrite Hguard, Hcall. cbn [fst snd World.sent]. rewrite Htotal.
  split; [reflexivity|]. split; [reflexivity|].
  split.
  { subst req. unfold key_request. cbn [Request.headers strict_eq negb].
    rewrite lookup_insert_ne by discriminate. by simplify_map_eq. }
  split.
  - by intros n ->.
  - intros Hnull. by destruct total.
Qed.

(** A service that counts twelve operators. *)
Lemma fetchAppUserTotal_reads_total_witness :
  (@fetchAppUserTotal
     (Reference.platform
        (fun _ =>
           Responded
             (Response.mk true 200 "OK" (Reference.json_text "{'total':12}"))))
     (fun _ => None) Reference.config Reference.empty_world).1
  = Returned 12.
Proof.
  destruct (@fetchAppUserTotal_reads_total
              (Reference.platform
                 (fun _ =>
                    Responded
                      (Response.mk true 200 "OK"
                         (Reference.json_text "{'total':12}"))))
              (fun _ => None) Reference.config Reference.empty_world 7
              (Response.mk true 200 "OK" (Reference.json_text "{'total':12}")))
    as (_ & _ & _ & Hnumber & _);
    [reflexivity | discriminate | left; discriminate | reflexivity
    | reflexivity |].
  by apply Hnumber.
Defined.

Section ListingMore.
Context `{Platform}.

Lemma ceil_div_bounds (a b : Z) :
  1 <= a -> 1 <= b ->
  1 <= ceil_div a b /\ a <= ceil_div a b * b /\ (ceil_div a b - 1) * b < a.
Proof.
  intros Ha Hb. unfold ceil_div.
  pose proof (Z.div_mod (a + b - 1) b ltac:(lia)) as Hdiv.
  pose proof (Z.mod_pos_bound (a + b - 1) b ltac:(lia)) as Hmod.
  nia.
Qed.

Lemma session_call_ok config path method token body w response :
  token <> "" ->
  fetch (session_request config path method token body) = Responded response ->
  Response.ok response = true ->
  jsonRequest config path (session_options method token body) w
  = (Returned (js_coalesce (response_data (Response.text response)) (VObj [])),
     World.mk (World.storage w)
       (World.now w + latency (session_request config path method token body))
       (World.sent w ++ [session_request config path method token body])).
Proof.
  intros Htoken Hfetch Hok. rewrite session_call, (str_truthy_true _ Htoken).
  rewrite Hfetch. unfold jsonRequest_receive. by rewrite Hok.
Qed.

End ListingMore.

(** X16.  The page description of a listing the service answered without a
    [meta] member is made up from the request and the records received: the
    page and the page size are the ones asked for, the total is the number
    of records received, and the number of pages is the least number of
    pages of that size, and at least one, that holds them. *)
Theorem fetchTodos_fallback_meta `{Platform} (config : DemoConfig.t)
    (sessionToken : string) (opts : ListOptions.t) (w : World.t)
    (response : Response.t) :
  DemoConfig.collectionSlug config <> "" ->
  sessionToken <> "" ->
  fetch (session_request config
           (todos_path config (effective_order opts) (effective_limit opts)
              (effective_page opts))
           "GET" sessionToken VUndefined)
  = Responded response ->
  Response.ok response = true ->
  truthy (get (response_data (Response.text response)) "meta") = false ->
  exists data meta,
    (fetchTodos config sessionToken opts w).1 = Returned (data, meta)
    /\ PaginationMeta.page meta = effective_page opts
    /\ PaginationMeta.limit meta = effective_limit opts
    /\ PaginationMeta.total meta = Z.of_nat (length data)
    /\ 1 <= PaginationMeta.pages meta
    /\ PaginationMeta.total meta
       <= PaginationMeta.pages meta * PaginationMeta.limit meta
    /\ (PaginationMeta.pages meta - 1) * PaginationMeta.limit meta
       < Z.max 1 (PaginationMeta.total meta).
Proof.
  intros Hslug Htoken Hfetch Hok Hmeta.
  unfold fetchTodos. rewrite (str_truthy_true _ Hslug). cbn [negb]. cbv zeta.
  rewrite (session_call_ok _ _ _ _ _ w response Htoken Hfetch Hok).
  assert (Hget : forall k,
    get (js_coalesce (response_data (Response.text response)) (VObj [])) k
    = get (response_data (Response.text response)) k).
  { intros k. unfold js_coalesce.
    by destruct (response_data (Response.text response)). }
  rewrite !Hget, Hmeta. cbn [fst].
  eexists _, _. split; [reflexivity|].
  cbn [PaginationMeta.page PaginationMeta.limit PaginationMeta.total
       PaginationMeta.pages].
  pose proof (effective_limit_range opts) as Hlimit.
  set (count := Z.of_nat (length _)).
  assert (Hcount : 0 <= count) by (subst count; lia).
  split; [reflexivity|]. split; [reflexivity|]. split; [reflexivity|].
  destruct (count =? 0) eqn:Hz.
  - apply Z.eqb_eq in Hz.
    destruct (ceil_div_bounds 1 (effective_limit opts)) as (H1 & H2 & H3);
      [lia | lia |].
    nia.
  - apply Z.eqb_neq in Hz.
    destruct (ceil_div_bounds count (effective_limit opts)) as (H1 & H2 & H3);
      [lia | lia |].
    nia.
Qed.

(** Three records come back without a page description, two to a page. *)
Lemma fetchTodos_fallback_meta_witness :
  exists data,
    (@fetchTodos
       (Reference.platform
          (fun _ =>
             Responded
               (Response.mk true 200 "OK"
                  (Reference.json_text
                     "{'data':[{'id':'a'},{'id':'b'},{'id':'c'}]}"))))
       Reference.config "tok" (ListOptions.mk (Some 2) (Some 2) None)
       Reference.empty_world).1
    = Returned (data, PaginationMeta.mk 2 2 3 2).
Proof.
  destruct (@fetchTodos_fallback_meta
              (Reference.platform
                 (fun _ =>
                    Responded
                      (Response.mk true 200 "OK"
                         (Reference.json_text
                            "{'data':[{'id':'a'},{'id':'b'},{'id':'c'}]}"))))
              Reference.config "tok" (ListOptions.mk (Some 2) (Some 2) None)
              Reference.empty_world
              (Response.mk true 200 "OK"
                 (Reference.json_text
                    "{'data':[{'id':'a'},{'id':'b'},{'id':'c'}]}")))
    as (data & meta & Hresult & _);
    [discriminate | discriminate | reflexivity | reflexivity
    | by vm_compute |].
  exists data. rewrite Hresult. vm_compute in Hresult.
  by injection Hresult as <- <-.
Defined.

(** ** The handlers of [App.tsx], further *)

Section HandlerFacts.
Context `{Platform}.
Variable config : DemoConfig.t.

Lemma jsonRequest_storage path options w :
  World.storage (jsonRequest config path options w).2 = World.storage w.
Proof.
  unfold jsonRequest, do_fetch.
  destruct (jsonRequest_prepare config path options); [reflexivity|].
  by destruct (fetch _).
Qed.

Lemma fetchTodos_storage token opts w :
  World.storage (fetchTodos config token opts w).2 = World.storage w.
Proof.
  unfold fetchTodos.
  destruct (negb (str_truthy (DemoConfig.collectionSlug config)));
    [reflexivity|].
  cbv zeta.
  match goal with |- context [jsonRequest config ?p ?o w] =>
    pose proof (jsonRequest_storage p o w) as Hs;
    destruct (jsonRequest config p o w) as [[res|e|] w'] end;
    exact Hs.
Qed.

Lemma updateTodo_storage token todoId todo w :
  World.storage (updateTodo config token todoId todo w).2 = World.storage w.
Proof.
  unfold updateTodo.
  destruct (negb (str_truthy (DemoConfig.collectionSlug config)));
    [reflexivity|].
  match goal with |- context [jsonRequest config ?p ?o w] =>
    pose proof (jsonRequest_storage p o w) as Hs;
    destruct (jsonRequest config p o w) as [[res|e|] w'] end;
    exact Hs.
Qed.

Lemma createTodo_storage token todo w :
  World.storage (createTodo config token todo w).2 = World.storage w.
Proof.
  unfold createTodo.
  destruct (negb (str_truthy (DemoConfig.collectionSlug config)));
    [reflexivity|].
  match goal with |- context [jsonRequest config ?p ?o w] =>
    pose proof (jsonRequest_storage p o w) as Hs;
    destruct (jsonRequest config p o w) as [[res|e|] w'] end;
    exact Hs.
Qed.

Lemma deleteTodo_storage token todoId w :
  World.storage (deleteTodo config token todoId w).2 = World.storage w.
Proof.
  unfold deleteTodo.
  destruct (negb (str_truthy (DemoConfig.collectionSlug config)));
    [reflexivity|].
  match goal with |- context [jsonRequest config ?p ?o w] =>
    pose proof (jsonRequest_storage p o w) as Hs;
    destruct (jsonRequest config p o w) as [[res|e|] w'] end;
    exact Hs.
Qed.

Lemma store_kept_refl w : store_kept_or_signed_out w w.
Proof. by left. Qed.

Lemma store_kept_trans w1 w2 w3 :
  store_kept_or_signed_out w1 w2 -> store_kept_or_signed_out w2 w3 ->
  store_kept_or_signed_out w1 w3.
Proof.
  unfold store_kept_or_signed_out.
  intros [H12|H12] [H23|H23]; rewrite H23, H12; auto.
  right. apply removeItem_twice.
Qed.

Lemma store_kept_same w w' :
  World.storage w' = World.storage w -> store_kept_or_signed_out w w'.
Proof. by left. Qed.

Lemma ensureActiveSession_store activeSession message st w :
  store_kept_or_signed_out w
    (ensureActiveSession config activeSession message st w).2.
Proof. by destruct (ensureActiveSession_world config activeSession message st w)
         as (_ & _ & Hstore). Qed.

Lemma refreshTodos_store cl args st w :
  store_kept_or_signed_out w (refreshTodos config cl args st w).2.
Proof.
  unfold refreshTodos.
  destruct (match RefreshArgs.activeSession args with
            | Some s => Some s
            | None => AppState.session cl
            end) as [s|]; [|apply store_kept_refl].
  pose proof (ensureActiveSession_store (Some s)
                "Access required. Request access." st w) as Hcheck.
  destruct (ensureActiveSession config (Some s) _ st w) as [[ready st1] w1].
  destruct ready as [readySession|]; [|exact Hcheck].
  pose proof (fetchTodos_storage (Session.token readySession)
                (ListOptions.mk
                   (Some (default (AppState.todoPage cl)
                            (RefreshArgs.page args)))
                   (Some (default (AppState.todoPageSize cl)
                            (RefreshArgs.limit args)))
                   (Some Desc)) w1) as Hfetch.
  destruct (fetchTodos _ _ _ w1) as [result w2].
  eapply store_kept_trans; [exact Hcheck|]. by apply store_kept_same.
Qed.

(** Without an active session [refreshTodos] sends nothing. *)
Lemma refreshTodos_gated cl args st w :
  RefreshArgs.activeSession args = None ->
  (ensureActiveSession config (AppState.session cl)
     "Access required. Request access." cl w).1.1 = None ->
  World.sent (refreshTodos config cl args st w).2 = World.sent w.
Proof.
  intros Hargs Hnone. unfold refreshTodos. rewrite Hargs.
  destruct (AppState.session cl) as [s|] eqn:Hsession; [|reflexivity].
  destruct (ensureActiveSession_state_blind config (Some s)
              "Access required. Request access." cl st w) as [Hsame _].
  rewrite Hnone in Hsame.
  pose proof (ensureActiveSession_world config (Some s)
                "Access required. Request access." st w) as (Hsent & _).
  destruct (ensureActiveSession config (Some s) _ st w) as [[ready st1] w1].
  simpl in Hsame, Hsent. by subst ready.
Qed.

End HandlerFacts.

(** X17.  No handler sends a request unless the validity check passes for
    the session in its state: signed out, with the stored session gone, or
    past the expiry, toggling, deleting, saving, creating, paging and
    resizing the page all leave the network alone. *)
Theorem no_request_without_active_session `{Platform} (config : DemoConfig.t)
    (cl : AppState.t) (w : World.t) (todo : value) (todoId : string)
    (confirmDelete : bool) (form : Forms.t) (direction : Direction)
    (nextLimit : Z) :
  (ensureActiveSession config (AppState.session cl)
     "Access required. Request access." cl w).1.1 = None ->
  World.sent (handleToggleTodo config cl todo w).2 = World.sent w
  /\ World.sent (handleDeleteTodo config cl todoId confirmDelete w).2
     = World.sent w
  /\ World.sent (handleUpdateTodo config cl todoId w).2 = World.sent w
  /\ World.sent (handleCreateTodo config cl form w).2 = World.sent w
  /\ World.sent (handlePageChange config cl direction w).2 = World.sent w
  /\ World.sent (handlePageSizeChange config cl nextLimit w).2 = World.sent w.
Proof.
  intros Hnone.
  pose proof (ensureActiveSession_world config (AppState.session cl)
                "Access required. Request access." cl w) as (Hsent & _).
  unfold handleToggleTodo, handleDeleteTodo, handleUpdateTodo,
    handleCreateTodo, handlePageChange, handlePageSizeChange.
  split; [|split; [|split; [|split; [|split]]]];
    try by apply refreshTodos_gated.
  all: destruct (ensureActiveSession config (AppState.session cl) _ cl w)
         as [[ready st1] w1]; simpl in Hnone, Hsent; by subst ready.
Qed.

(** At the millisecond of its expiry the session of [state0] no longer
    lets a delete through. *)
Lemma no_request_without_active_session_witness :
  World.sent
    (@handleDeleteTodo Reference.online Reference.config Reference.state0 "r1"
       true (Reference.world_at Reference.expiry0)).2
  = [].
Proof.
  destruct (@no_request_without_active_session Reference.online
              Reference.config Reference.state0
              (Reference.world_at Reference.expiry0) Reference.todo0 "r1" true
              (Forms.mk emptyTodo false) Next 10)
    as (_ & Hdelete & _); [by vm_compute|].
  exact Hdelete.
Defined.

(** X18.  No handler ever writes the store: after toggling, deleting,
    saving, creating, paging or resizing the page, the store is as it was
    or has lost the session key, whatever the service answered. *)
Theorem handlers_never_write_the_store `{Platform} (config : DemoConfig.t)
    (cl : AppState.t) (w : World.t) (todo : value) (todoId : string)
    (confirmDelete : bool) (form : Forms.t) (direction : Direction)
    (nextLimit : Z) :
  store_kept_or_signed_out w (handleToggleTodo config cl todo w).2
  /\ store_kept_or_signed_out w
       (handleDeleteTodo config cl todoId confirmDelete w).2
  /\ store_kept_or_signed_out w (handleUpdateTodo config cl todoId w).2
  /\ store_kept_or_signed_out w (handleCreateTodo config cl form w).2
  /\ store_kept_or_signed_out w (handlePageChange config cl direction w).2
  /\ store_kept_or_signed_out w
       (handlePageSizeChange config cl nextLimit w).2.
Proof.
  pose proof (ensureActiveSession_store config (AppState.session cl)
                "Access required. Request access." cl w) as Hcheck.
  unfold handleToggleTodo, handleDeleteTodo, handleUpdateTodo,
    handleCreateTodo, handlePageChange, handlePageSizeChange.
  split; [|split; [|split; [|split; [|split]]]];
    try apply refreshTodos_store.
  - destruct (ensureActiveSession config (AppState.session cl) _ cl w)
      as [[ready st1] w1].
    destruct ready as [s|]; [|exact Hcheck].
    pose proof (updateTodo_storage config (Session.token s) (todo_id todo)
                  (toggle_payload todo) w1) as Hcall.
    destruct (updateTodo _ _ _ _ w1) as [result w2].
    eapply store_kept_trans; [exact Hcheck|]. by apply store_kept_same.
  - destruct (ensureActiveSession config (AppState.session cl) _ cl w)
      as [[ready st1] w1].
    destruct ready as [s|]; [|exact Hcheck].
    destruct confirmDelete; [|exact Hcheck]. cbn [negb].
    pose proof (deleteTodo_storage config (Session.token s) todoId w1)
      as Hcall.
    destruct (deleteTodo _ _ _ w1) as [result w2].
    apply (store_kept_trans _ w1); [exact Hcheck|].
    apply (store_kept_trans _ w2); [by apply store_kept_same|].
    destruct result as [[]|e|]; try apply store_kept_refl.
    match goal with |- context [refreshTodos config cl ?a ?st w2] =>
      pose proof (refreshTodos_store config cl a st w2) as Hrefresh;
      destruct (refreshTodos config cl a st w2) as [st3 w3] end.
    exact Hrefresh.
  - destruct (ensureActiveSession config (AppState.session cl) _ cl w)
      as [[ready st1] w1].
    destruct ready as [s|]; [|exact Hcheck].
    destruct (AppState.todoDrafts cl !! todoId) as [draft|]; [|exact Hcheck].
    destruct (negb (str_truthy (trim (TodoPayload.title draft))));
      [exact Hcheck|].
    cbv zeta.
    pose proof (updateTodo_storage config (Session.token s) todoId
                  (trimmed_payload draft) w1) as Hcall.
    destruct (updateTodo _ _ _ _ w1) as [result w2].
    eapply store_kept_trans; [exact Hcheck|]. by apply store_kept_same.
  - destruct (ensureActiveSession config (AppState.session cl) _ cl w)
      as [[ready st1] w1].
    destruct ready as [s|]; [|exact Hcheck]. cbv zeta.
    destruct (negb (str_truthy (trim (TodoPayload.title (Forms.draftTodo form)))));
      [exact Hcheck|].
    pose proof (createTodo_storage config (Session.token s)
                  (trimmed_payload (Forms.draftTodo form)) w1) as Hcall.
    destruct (createTodo _ _ _ w1) as [result w2].
    apply (store_kept_trans _ w1); [exact Hcheck|].
    apply (store_kept_trans _ w2); [by apply store_kept_same|].
    destruct result as [created|e|]; try apply store_kept_refl.
    match goal with |- context [refreshTodos config cl ?a ?st w2] =>
      pose proof (refreshTodos_store config cl a st w2) as Hrefresh;
      destruct (refreshTodos config cl a st w2) as [st3 w3] end.
    exact Hrefresh.
Qed.

Section TrimFacts.

Lemma trimStart_blank s : trimStart s = "" <-> blank s = true.
Proof.
  induction s as [|c rest IH]; simpl; [done|].
  destruct (is_js_space c); simpl; [exact IH|]. split; discriminate.
Qed.

Lemma trimEnd_blank s : blank (trimEnd s) = blank s.
Proof.
  induction s as [|c rest IH]; simpl; [done|].
  destruct (trimEnd rest) as [|k kept] eqn:Hend.
  - rewrite <- IH. simpl. destruct (is_js_space c) eqn:Hc; simpl; [done|].
    by rewrite Hc.
  - rewrite <- IH. reflexivity.
Qed.

(** [trim] leaves nothing exactly of the texts of white space only. *)
Lemma trim_blank s : trim s = "" <-> blank s = true.
Proof. unfold trim. by rewrite trimStart_blank, trimEnd_blank. Qed.

Lemma trim_blank_falsy s : blank s = true -> str_truthy (trim s) = false.
Proof. intros Hblank. apply trim_blank in Hblank. by rewrite Hblank. Qed.

Lemma trim_not_blank_truthy s : blank s = false -> str_truthy (trim s) = true.
Proof.
  intros Hblank. apply str_truthy_true. intros Htrim.
  apply trim_blank in Htrim. congruence.
Qed.

End TrimFacts.

Section MutationFacts.
Context `{Platform}.
Variable config : DemoConfig.t.
Hypothesis Hslug : DemoConfig.collectionSlug config <> "".

Lemma createTodo_call token todo w :
  token <> "" ->
  let req :=
    session_request config (records_path config) "POST" token
      (VObj [("data", payload_value todo)]) in
  createTodo config token todo w
  = (match fetch req with
     | Responded response =>
         match jsonRequest_receive response with
         | Returned res => Returned (get res "data")
         | other => other
         end
     | Rejected => ThrownOther
     end,
     World.mk (World.storage w) (World.now w + latency req)
       (World.sent w ++ [req])).
Proof.
  intros Htoken req. unfold createTodo.
  rewrite (str_truthy_true _ Hslug). cbn [negb].
  rewrite session_call, (str_truthy_true _ Htoken). fold req.
  destruct (fetch req) as [response|]; [|reflexivity].
  by destruct (jsonRequest_receive response).
Qed.

Lemma updateTodo_call token todoId todo w :
  token <> "" ->
  let req :=
    session_request config (record_path config todoId) "PUT" token
      (VObj [("data", payload_value todo)]) in
  updateTodo config token todoId todo w
  = (match fetch req with
     | Responded response =>
         match jsonRequest_receive response with
         | Returned res => Returned (get res "data")
         | other => other
         end
     | Rejected => ThrownOther
     end,
     World.mk (World.storage w) (World.now w + latency req)
       (World.sent w ++ [req])).
Proof.
  intros Htoken req. unfold updateTodo.
  rewrite (str_truthy_true _ Hslug). cbn [negb].
  rewrite session_call, (str_truthy_true _ Htoken). fold req.
  destruct (fetch req) as [response|]; [|reflexivity].
  by destruct (jsonRequest_receive response).
Qed.

Lemma deleteTodo_call token todoId w :
  token <> "" ->
  let req :=
    session_request config (record_path config todoId) "DELETE" token
      VUndefined in
  deleteTodo config token todoId w
  = (match fetch req with
     | Responded response =>
         match jsonRequest_receive response with
         | Returned _ => Returned tt
         | ThrownApi e => ThrownApi e
         | ThrownOther => ThrownOther
         end
     | Rejected => ThrownOther
     end,
     World.mk (World.storage w) (World.now w + latency req)
       (World.sent w ++ [req])).
Proof.
  intros Htoken req. unfold deleteTodo.
  rewrite (str_truthy_true _ Hslug). cbn [negb].
  rewrite session_call, (str_truthy_true _ Htoken). fold req.
  destruct (fetch req) as [response|]; [|reflexivity].
  by destruct (jsonRequest_receive response).
Qed.

Lemma receive_ok response :
  Response.ok response = true ->
  jsonRequest_receive response
  = Returned (js_coalesce (response_data (Response.text response)) (VObj [])).
Proof. intros Hok. unfold jsonRequest_receive. by rewrite Hok. Qed.

Lemma receive_refused response :
  Response.ok response = false ->
  jsonRequest_receive response
  = ThrownApi
      (ApiError.mk
         (ToString
            (failure_message (response_data (Response.text response))
               (Response.statusText response)))
         (Some (Response.status response))
         (response_data (Response.text response))).
Proof. intros Hok. unfold jsonRequest_receive. by rewrite Hok. Qed.

Lemma get_coalesce_object (data : value) (k : string) :
  get (js_coalesce data (VObj [])) k = get data k.
Proof. unfold js_coalesce. by destruct data. Qed.

End MutationFacts.

(** X19.  Paging with an active session sends one list request, for the
    page size in the state and a page that is never below 1.  Back asks for
    the page before the current one, and for page 1 from page 1.  Forward
    asks for the page after the current one, and for the last page again
    from the last page; with no page description in the state it asks for
    page 1. *)
Theorem handlePageChange_request `{Platform} (config : DemoConfig.t)
    (cl : AppState.t) (direction : Direction) (w : World.t) (s : Session.t) :
  AppState.session cl = Some s ->
  Session.token s <> "" ->
  DemoConfig.collectionSlug config <> "" ->
  (hasStoredSessionToken config (World.storage w)).1 = true ->
  isSessionExpired (Some s) (World.now w) = false ->
  let limit :=
    effective_limit
      (ListOptions.mk None (Some (AppState.todoPageSize cl)) None) in
  exists page,
    World.sent (handlePageChange config cl direction w).2
    = World.sent w
      ++ [session_request config (todos_path config "desc" limit page) "GET"
            (Session.token s) VUndefined]
    /\ 1 <= page
    /\ (direction = Prev -> page = Z.max 1 (currentPage cl - 1))
    /\ (direction = Next ->
        forall meta, AppState.todoMeta cl = Some meta ->
        1 <= PaginationMeta.pages meta -> 1 <= currentPage cl ->
        page = Z.min (PaginationMeta.pages meta) (currentPage cl + 1))
    /\ (direction = Next -> AppState.todoMeta cl = None -> page = 1).
Proof.
  intros Hsession Htoken Hslug Hstored Hlive limit.
  unfold handlePageChange. cbv zeta.
  match goal with |- context [refreshTodos config cl ?args ?st w] =>
    pose proof (refreshTodos_sends config Hslug cl args st w s Hsession
                  eq_refl Htoken Hstored Hlive) as Hsent
  end.
  eexists. split; [exact Hsent|].
  cbn [RefreshArgs.page default ListOptions.page ListOptions.limit].
  unfold effective_page, number_or. cbn [ListOptions.page]. unfold id.
  split; [lia|]. split; [|split].
  - intros ->. destruct (Z.max 1 (currentPage cl - 1) =? 0) eqn:Hz;
      [apply Z.eqb_eq in Hz|]; lia.
  - intros -> meta Hmeta Hpages Hcurrent. rewrite Hmeta.
    destruct (PaginationMeta.pages meta =? 0) eqn:Hp;
      [apply Z.eqb_eq in Hp; lia|].
    destruct (Z.min _ _ =? 0) eqn:Hz; [apply Z.eqb_eq in Hz|]; lia.
  - intros -> Hmeta. rewrite Hmeta.
    destruct (Z.min _ _ =? 0) eqn:Hz; [apply Z.eqb_eq in Hz|]; lia.
Qed.

(** From page 3 of 3, forward lists page 3 again and back lists page 2. *)
Lemma handlePageChange_request_witness :
  map Request.url
    (World.sent
       (@handlePageChange Reference.online Reference.config Reference.state0
          Next (Reference.world_at 0)).2)
  = ["https://reqres.in/app/collections/todos/records?order=desc&limit=10&page=3"].
Proof.
  destruct (@handlePageChange_request Reference.online Reference.config
              Reference.state0 Next (Reference.world_at 0) Reference.session0)
    as (page & Hsent & _ & _ & Hnext & _);
    [ reflexivity | discriminate | discriminate | by vm_compute
    | by vm_compute | ].
  rewrite Hsent,
    (Hnext eq_refl (PaginationMeta.mk 3 10 21 3) eq_refl ltac:(simpl; lia)
       ltac:(by vm_compute)).
  vm_compute. reflexivity.
Defined.

(** X20.  A record needs a title.  With an active session, creating from a
    draft whose title is white space only, and saving a record that has no
    draft or whose draft has such a title, are turned down before any
    request: the error asks for a title and nothing else changes, the
    create form included. *)
Theorem blank_title_is_rejected `{Platform} (config : DemoConfig.t)
    (cl : AppState.t) (form : Forms.t) (todoId : string) (w : World.t)
    (s : Session.t) :
  AppState.session cl = Some s ->
  (hasStoredSessionToken config (World.storage w)).1 = true ->
  isSessionExpired (Some s) (World.now w) = false ->
  let rejected :=
    AppState.setError (Some "Enter a record title before saving.") cl in
  (blank (TodoPayload.title (Forms.draftTodo form)) = true ->
   handleCreateTodo config cl form w = (rejected, form, w))
  /\ (AppState.todoDrafts cl !! todoId = None ->
      handleUpdateTodo config cl todoId w = (rejected, w))
  /\ (forall draft,
        AppState.todoDrafts cl !! todoId = Some draft ->
        blank (TodoPayload.title draft) = true ->
        handleUpdateTodo config cl todoId w = (rejected, w)).
Proof.
  intros Hsession Hstored Hlive rejected. subst rejected.
  unfold handleCreateTodo, handleUpdateTodo. rewrite Hsession.
  rewrite (ensureActiveSession_active _ _ _ _ _ Hstored Hlive).
  split; [|split].
  - intros Hblank. cbv zeta. by rewrite (trim_blank_falsy _ Hblank).
  - by intros ->.
  - intros draft -> Hblank. by rewrite (trim_blank_falsy _ Hblank).
Qed.

(** A draft of two spaces and a tab is not created. *)
Lemma blank_title_is_rejected_witness :
  World.sent
    (@handleCreateTodo Reference.online Reference.config Reference.state0
       (Forms.mk (TodoPayload.mk "  " "note" false) false)
       (Reference.world_at 0)).2
  = []
  /\ AppState.error
       (@handleCreateTodo Reference.online Reference.config Reference.state0
          (Forms.mk (TodoPayload.mk "  " "note" false) false)
          (Reference.world_at 0)).1.1
     = Some "Enter a record title before saving.".
Proof.
  destruct (@blank_title_is_rejected Reference.online Reference.config
              Reference.state0
              (Forms.mk (TodoPayload.mk "  " "note" false) false) "r1"
              (Reference.world_at 0) Reference.session0)
    as (Hcreate & _); [reflexivity | by vm_compute | by vm_compute |].
  rewrite Hcreate; [|reflexivity]. by split.
Defined.

(** X21.  Saving an edited record, with an active session and a draft that
    has a title.  One [PUT] goes out, with the draft's title and notes
    trimmed.  On a success every record of the list with that id is replaced
    by the record the service returned, the others stay in place, and the
    editor closes; on a refusal the list, the drafts and the open editor are
    left as they were and the error is the message of the failure.  Either
    way the busy mark is cleared. *)
Theorem handleUpdateTodo_saves `{Platform} (config : DemoConfig.t)
    (cl : AppState.t) (todoId : string) (w : World.t) (s : Session.t)
    (draft : TodoPayload.t) (response : Response.t) :
  AppState.session cl = Some s ->
  Session.token s <> "" ->
  DemoConfig.collectionSlug config <> "" ->
  (hasStoredSessionToken config (World.storage w)).1 = true ->
  isSessionExpired (Some s) (World.now w) = false ->
  AppState.todoDrafts cl !! todoId = Some draft ->
  blank (TodoPayload.title draft) = false ->
  let payload :=
    TodoPayload.mk (trim (TodoPayload.title draft))
      (trim (TodoPayload.notes draft)) (TodoPayload.completed draft) in
  let req :=
    session_request config (record_path config todoId) "PUT" (Session.token s)
      (VObj [("data", payload_value payload)]) in
  fetch req = Responded response ->
  let st := (handleUpdateTodo config cl todoId w).1 in
  World.sent (handleUpdateTodo config cl todoId w).2 = World.sent w ++ [req]
  /\ AppState.todoBusyId st = None
  /\ AppState.todoDrafts st = AppState.todoDrafts cl
  /\ (Response.ok response = true ->
      AppState.todos st
      = map (fun todo =>
               if strict_eq (get todo "id") (VStr todoId)
               then get (response_data (Response.text response)) "data"
               else todo)
          (AppState.todos cl)
      /\ AppState.activeEditId st = None
      /\ AppState.status st = Some "Record updated."
      /\ AppState.error st = None)
  /\ (Response.ok response = false ->
      AppState.todos st = AppState.todos cl
      /\ AppState.activeEditId st = AppState.activeEditId cl
      /\ AppState.status st = None
      /\ AppState.error st
         = Some (ToString
                   (failure_message (response_data (Response.text response))
                      (Response.statusText response)))).
Proof.
  intros Hsession Htoken Hslug Hstored Hlive Hdraft Htitle payload req Hfetch
    st.
  subst st. unfold handleUpdateTodo. rewrite Hsession.
  rewrite (ensureActiveSession_active _ _ _ _ _ Hstored Hlive), Hdraft.
  rewrite (trim_not_blank_truthy _ Htitle). cbn [negb]. cbv zeta.
  rewrite (updateTodo_call config Hslug _ _ _ _ Htoken). cbv zeta.
  change (trimmed_payload draft) with payload. fold req. rewrite Hfetch.
  destruct (Response.ok response) eqn:Hok.
  - rewrite (receive_ok _ Hok), get_coalesce_object. cbn.
    repeat split; discriminate.
  - rewrite (receive_refused _ Hok). cbn.
    repeat split; discriminate.
Qed.

(** The draft of [r1] is saved with its title trimmed. *)
Lemma handleUpdateTodo_saves_witness :
  map Request.body
    (World.sent
       (@handleUpdateTodo Reference.online Reference.config
          (setTodoDrafts {[ "r1" := TodoPayload.mk " Buy oat milk " "" false ]}
             Reference.state0)
          "r1" (Reference.world_at 0)).2)
  = [Some
       (Reference.json_text
          "{'data':{'title':'Buy oat milk','notes':'','completed':false}}")].
Proof.
  destruct (@handleUpdateTodo_saves Reference.online Reference.config
              (setTodoDrafts
                 {[ "r1" := TodoPayload.mk " Buy oat milk " "" false ]}
                 Reference.state0)
              "r1" (Reference.world_at 0) Reference.session0
              (TodoPayload.mk " Buy oat milk " "" false)
              (Response.mk true 200 "OK"
                 (Reference.stringify
                    (VObj [("data",
                            VObj [("id", VStr "r1");
                                  ("data",
                                   payload_value
                                     (TodoPayload.mk "Buy oat milk" "" false));
                                  ("created_at",
                                   VStr "2030-01-01T00:00:00.000Z");
                                  ("updated_at",
                                   VStr "2030-01-02T00:00:00.000Z")])]))))
    as (Hsent & _);
    [ reflexivity | discriminate | discriminate | by vm_compute
    | by vm_compute | reflexivity | reflexivity | by vm_compute | ].
  rewrite Hsent. vm_compute. reflexivity.
Defined.

(** X22.  Creating a record, with an active session and a draft that has a
    title.  The [POST] carries the draft with its title and notes trimmed.
    When the service refuses it nothing else is sent, the draft stays in the
    form and the list stays as it was.  When the service accepts it the
    draft is cleared and the status says so, whatever becomes of the listing
    that follows; and if the session is still valid when the answer
    arrives, that listing asks for page 1 at the page size in the state.
    Either way the form is no longer busy. *)
Theorem handleCreateTodo_creates `{Platform} (config : DemoConfig.t)
    (cl : AppState.t) (form : Forms.t) (w : World.t) (s : Session.t)
    (response : Response.t) :
  AppState.session cl = Some s ->
  Session.token s <> "" ->
  DemoConfig.collectionSlug config <> "" ->
  (hasStoredSessionToken config (World.storage w)).1 = true ->
  isSessionExpired (Some s) (World.now w) = false ->
  blank (TodoPayload.title (Forms.draftTodo form)) = false ->
  let draft := Forms.draftTodo form in
  let payload :=
    TodoPayload.mk (trim (TodoPayload.title draft))
      (trim (TodoPayload.notes draft)) (TodoPayload.completed draft) in
  let createReq :=
    session_request config (records_path config) "POST" (Session.token s)
      (VObj [("data", payload_value payload)]) in
  let listReq :=
    session_request config
      (todos_path config "desc"
         (effective_limit
            (ListOptions.mk None (Some (AppState.todoPageSize cl)) None))
         1)
      "GET" (Session.token s) VUndefined in
  fetch createReq = Responded response ->
  let st := (handleCreateTodo config cl form w).1.1 in
  let form' := (handleCreateTodo config cl form w).1.2 in
  let sent := World.sent (handleCreateTodo config cl form w).2 in
  Forms.creatingTodo form' = false
  /\ (Response.ok response = false ->
      sent = World.sent w ++ [createReq]
      /\ Forms.draftTodo form' = draft
      /\ AppState.todos st = AppState.todos cl
      /\ AppState.status st = AppState.status cl
      /\ AppState.error st
         = Some (ToString
                   (failure_message (response_data (Response.text response))
                      (Response.statusText response))))
  /\ (Response.ok response = true ->
      Forms.draftTodo form' = emptyTodo
      /\ AppState.status st = Some "Record created."
      /\ (isSessionExpired (Some s) (World.now w + latency createReq) = false ->
          sent = World.sent w ++ [createReq; listReq])).
Proof.
  intros Hsession Htoken Hslug Hstored Hlive Htitle draft payload createReq
    listReq Hfetch st form' sent.
  subst st form' sent. unfold handleCreateTodo. rewrite Hsession.
  rewrite (ensureActiveSession_active _ _ _ _ _ Hstored Hlive). cbv zeta.
  rewrite (trim_not_blank_truthy _ Htitle). cbn [negb].
  rewrite (createTodo_call config Hslug _ _ _ Htoken). cbv zeta.
  change (trimmed_payload (Forms.draftTodo form)) with payload.
  fold createReq. rewrite Hfetch.
  destruct (Response.ok response) eqn:Hok.
  - rewrite (receive_ok _ Hok).
    match goal with |- context [refreshTodos config cl ?args ?st1 ?w1] =>
      pose proof (refreshTodos_sends config Hslug cl args st1 w1 s Hsession
                    eq_refl Htoken Hstored) as Hrefresh;
      destruct (refreshTodos config cl args st1 w1) as [st2 w2]
    end.
    cbn. split; [reflexivity|]. split; [discriminate|]. intros _.
    split; [reflexivity|]. split; [reflexivity|].
    intros Hlive'. cbn in Hrefresh. rewrite (Hrefresh Hlive'), <- app_assoc.
    reflexivity.
  - rewrite (receive_refused _ Hok). cbn.
    repeat split; discriminate.
Qed.

(** A service that refuses the create: the draft stays in the form. *)
Lemma handleCreateTodo_creates_witness :
  Forms.draftTodo
    (@handleCreateTodo Reference.turned_down Reference.config Reference.state0
       (Forms.mk (TodoPayload.mk "Call back" " soon " false) false)
       (World.mk Reference.saved 0 [])).1.2
  = TodoPayload.mk "Call back" " soon " false
  /\ AppState.error
       (@handleCreateTodo Reference.turned_down Reference.config
          Reference.state0
          (Forms.mk (TodoPayload.mk "Call back" " soon " false) false)
          (World.mk Reference.saved 0 [])).1.1
     = Some "Invalid token".
Proof.
  destruct (@handleCreateTodo_creates Reference.turned_down Reference.config
              Reference.state0
              (Forms.mk (TodoPayload.mk "Call back" " soon " false) false)
              (World.mk Reference.saved 0 []) Reference.session0
              Reference.unauthorized)
    as (_ & Hrefused & _);
    [ reflexivity | discriminate | discriminate | by vm_compute
    | by vm_compute | reflexivity | reflexivity | ].
  destruct (Hrefused eq_refl) as (_ & Hdraft & _ & _ & Herror).
  split; [exact Hdraft|]. rewrite Herror. by vm_compute.
Defined.

(** X23.  With the network down and an active session, every handler sends
    its one request, reports its own fallback message and leaves the list,
    the page description and the session as they were; the create form
    keeps its draft. *)
Theorem offline_handlers_keep_the_list `{Platform} (config : DemoConfig.t)
    (cl : AppState.t) (w : World.t) (s : Session.t) (todo : value)
    (todoId : string) (draft : TodoPayload.t) (form : Forms.t)
    (direction : Direction) :
  (forall req, fetch req = Rejected) ->
  AppState.session cl = Some s ->
  Session.token s <> "" ->
  DemoConfig.collectionSlug config <> "" ->
  (hasStoredSessionToken config (World.storage w)).1 = true ->
  isSessionExpired (Some s) (World.now w) = false ->
  AppState.todoDrafts cl !! todoId = Some draft ->
  blank (TodoPayload.title draft) = false ->
  blank (TodoPayload.title (Forms.draftTodo form)) = false ->
  let kept (message : string) (result : AppState.t * World.t) :=
    AppState.error result.1 = Some message
    /\ AppState.todos result.1 = AppState.todos cl
    /\ AppState.todoMeta result.1 = AppState.todoMeta cl
    /\ AppState.session result.1 = Some s
    /\ AppState.todoBusyId result.1 = None
    /\ AppState.loadingTodos result.1 = AppState.loadingTodos cl
    /\ length (World.sent result.2) = S (length (World.sent w)) in
  kept "Could not update record." (handleToggleTodo config cl todo w)
  /\ kept "Could not update record." (handleUpdateTodo config cl todoId w)
  /\ kept "Could not archive record."
       (handleDeleteTodo config cl todoId true w)
  /\ (let '(st, form', w') := handleCreateTodo config cl form w in
      AppState.error st = Some "Could not add record."
      /\ AppState.todos st = AppState.todos cl
      /\ AppState.todoMeta st = AppState.todoMeta cl
      /\ AppState.session st = Some s
      /\ AppState.loadingTodos st = AppState.loadingTodos cl
      /\ Forms.draftTodo form' = Forms.draftTodo form
      /\ Forms.creatingTodo form' = false
      /\ length (World.sent w') = S (length (World.sent w)))
  /\ (let '(st, w') := handlePageChange config cl direction w in
      AppState.error st = Some "Could not load records."
      /\ AppState.todos st = AppState.todos cl
      /\ AppState.todoMeta st = AppState.todoMeta cl
      /\ AppState.session st = Some s
      /\ AppState.todoBusyId st = AppState.todoBusyId cl
      /\ AppState.loadingTodos st = false
      /\ length (World.sent w') = S (length (World.sent w))).
Proof.
  intros Hoffline Hsession Htoken Hslug Hstored Hlive Hdraft Htitle Hform kept.
  subst kept.
  pose proof (ensureActiveSession_active config s
                "Access required. Request access." cl w Hstored Hlive)
    as Hcheck.
  split; [|split; [|split; [|split]]].
  - unfold handleToggleTodo. rewrite Hsession, Hcheck. cbv zeta.
    rewrite (updateTodo_call config Hslug _ _ _ _ Htoken). cbv zeta.
    rewrite Hoffline. cbn. rewrite length_app, Nat.add_1_r.
    repeat split; assumption.
  - unfold handleUpdateTodo. rewrite Hsession, Hcheck, Hdraft.
    rewrite (trim_not_blank_truthy _ Htitle). cbn [negb]. cbv zeta.
    rewrite (updateTodo_call config Hslug _ _ _ _ Htoken). cbv zeta.
    rewrite Hoffline. cbn. rewrite length_app, Nat.add_1_r.
    repeat split; assumption.
  - unfold handleDeleteTodo. rewrite Hsession, Hcheck. cbn [negb]. cbv zeta.
    rewrite (deleteTodo_call config Hslug _ _ _ Htoken). cbv zeta.
    rewrite Hoffline. cbn. rewrite length_app, Nat.add_1_r.
    repeat split; assumption.
  - unfold handleCreateTodo. rewrite Hsession, Hcheck. cbv zeta.
    rewrite (trim_not_blank_truthy _ Hform). cbn [negb].
    rewrite (createTodo_call config Hslug _ _ _ Htoken). cbv zeta.
    rewrite Hoffline. cbn. rewrite length_app, Nat.add_1_r.
    repeat split; assumption.
  - unfold handlePageChange, refreshTodos. cbv zeta.
    cbn [RefreshArgs.activeSession RefreshArgs.page RefreshArgs.limit].
    rewrite Hsession.
    rewrite (ensureActiveSession_active config s
               "Access required. Request access." _ w Hstored Hlive).
    unfold fetchTodos. rewrite (str_truthy_true _ Hslug). cbn [negb].
    cbv zeta. rewrite session_call, (str_truthy_true _ Htoken), Hoffline.
    cbn. rewrite length_app, Nat.add_1_r.
    repeat split; assumption.
Qed.

(** The reference platform with the network down: a toggle fails and
    [todo0] stays as it was. *)
Lemma offline_handlers_keep_the_list_witness :
  AppState.todos
    (@handleToggleTodo (Reference.platform (fun _ => Rejected))
       Reference.config
       (setTodoDrafts {[ "r1" := TodoPayload.mk "Buy milk" "" false ]}
          Reference.state0)
       Reference.todo0 (World.mk Reference.saved 0 [])).1
  = [Reference.todo0].
Proof.
  destruct (@offline_handlers_keep_the_list
              (Reference.platform (fun _ => Rejected)) Reference.config
              (setTodoDrafts {[ "r1" := TodoPayload.mk "Buy milk" "" false ]}
                 Reference.state0)
              (World.mk Reference.saved 0 []) Reference.session0
              Reference.todo0 "r1" (TodoPayload.mk "Buy milk" "" false)
              (Forms.mk (TodoPayload.mk "Buy bread" "" false) false) Next)
    as ((_ & Htodos & _) & _);
    [ reflexivity | reflexivity | discriminate | discriminate | by vm_compute
    | by vm_compute | reflexivity | reflexivity | reflexivity | ].
  exact Htodos.
Defined.

(** ** Filters, counters and the request log *)

Lemma visibleTodos_completed (todos : list value) :
  visibleTodos FilterCompleted todos = List.filter is_completed todos.
Proof.
  unfold visibleTodos. apply List.filter_ext. intros todo.
  by destruct (is_completed todo).
Qed.

Lemma visibleTodos_active (todos : list value) :
  visibleTodos FilterActive todos
  = List.filter (fun todo => negb (is_completed todo)) todos.
Proof.
  unfold visibleTodos. apply List.filter_ext. intros todo.
  by destruct (is_completed todo).
Qed.

(** X24.  The filters split the list: every record shows under exactly one
    of [completed] and [active], in the order of the list, [all] shows the
    list itself, and the two counters are the sizes of the two filtered
    lists, so they add up to the size of the list. *)
Theorem filters_partition_the_list (todos : list value) :
  visibleTodos FilterAll todos = todos
  /\ visibleTodos FilterCompleted todos ++ visibleTodos FilterActive todos
     ≡ₚ todos
  /\ visibleTodos FilterCompleted todos `sublist_of` todos
  /\ visibleTodos FilterActive todos `sublist_of` todos
  /\ (forall todo,
        todo ∈ visibleTodos FilterCompleted todos
        <-> todo ∈ todos /\ is_completed todo = true)
  /\ (forall todo,
        todo ∈ visibleTodos FilterActive todos
        <-> todo ∈ todos /\ is_completed todo = false)
  /\ completedCount todos
     = Z.of_nat (length (visibleTodos FilterCompleted todos))
  /\ remainingCount todos
     = Z.of_nat (length (visibleTodos FilterActive todos))
  /\ completedCount todos + remainingCount todos = Z.of_nat (length todos).
Proof.
  rewrite visibleTodos_completed, visibleTodos_active.
  assert (Hperm : List.filter is_completed todos
                  ++ List.filter (fun todo => negb (is_completed todo)) todos
                  ≡ₚ todos).
  { induction todos as [|todo rest IH]; [done|]. simpl.
    destruct (is_completed todo); simpl.
    - by constructor.
    - rewrite <- Permutation_middle. by constructor. }
  assert (Hsub : forall (f : value -> bool) (l : list value),
                   List.filter f l `sublist_of` l).
  { intros f l. induction l as [|todo rest IH]; [done|]. simpl.
    destruct (f todo); by constructor. }
  split; [reflexivity|]. split; [exact Hperm|].
  split; [apply Hsub|]. split; [apply Hsub|].
  split.
  { intros todo. rewrite !list_elem_of_In. apply List.filter_In. }
  split.
  { intros todo. rewrite !list_elem_of_In, List.filter_In.
    by rewrite negb_true_iff. }
  split; [reflexivity|].
  assert (Hlen : (length todos
                  = length (List.filter is_completed todos)
                    + length (List.filter
                                (fun todo => negb (is_completed todo)) todos))%nat).
  { by rewrite <- length_app, Hperm. }
  unfold remainingCount, completedCount. split; lia.
Qed.

(** X25.  The request log is bounded and newest first: logging a request
    puts it at the head, shows it in the toast and keeps at most [MAX_LOGS]
    entries, dropping the oldest.  Settling a request changes the entries
    with its id only, keeps their number and order, and leaves the toast
    showing the entry as it was logged. *)
Theorem request_log_is_bounded (entry : ApiRequestLog.t) (id : string)
    (patch : LogPatch.t) (logs : LogState.t) :
  let pushed := pushRequestLog entry logs in
  let settled := updateRequestLog id patch logs in
  (length (LogState.requestLogs pushed) <= MAX_LOGS)%nat
  /\ head (LogState.requestLogs pushed) = Some entry
  /\ LogState.requestToast pushed = Some entry
  /\ LogState.requestLogs pushed
     `prefix_of` entry :: LogState.requestLogs logs
  /\ ((length (LogState.requestLogs logs) < MAX_LOGS)%nat ->
      LogState.requestLogs pushed = entry :: LogState.requestLogs logs)
  /\ length (LogState.requestLogs settled)
     = length (LogState.requestLogs logs)
  /\ LogState.requestToast settled = LogState.requestToast logs
  /\ (forall i log,
        LogState.requestLogs logs !! i = Some log ->
        LogState.requestLogs settled !! i
        = Some (if String.eqb (ApiRequestLog.id log) id
                then apply_patch log patch else log))
  /\ (LogPatch.id patch = None ->
      map ApiRequestLog.id (LogState.requestLogs settled)
      = map ApiRequestLog.id (LogState.requestLogs logs)).
Proof.
  intros pushed settled. subst pushed settled.
  unfold pushRequestLog, updateRequestLog. cbn [LogState.requestLogs
    LogState.requestToast].
  split; [apply firstn_le_length|].
  split; [reflexivity|]. split; [reflexivity|].
  split; [apply prefix_take|].
  split.
  { intros Hlen. apply take_ge. simpl. lia. }
  split; [apply length_map|]. split; [reflexivity|].
  split.
  { intros i log Hlog. by rewrite list_lookup_fmap, Hlog. }
  intros Hid. rewrite map_map. apply map_ext. intros log.
  destruct (String.eqb (ApiRequestLog.id log) id); [|reflexivity].
  unfold apply_patch. by rewrite Hid.
Qed.

(** ** Configuration resolver *)

Lemma missing_not_ready (config : DemoConfig.t) (item : ConfigItem) :
  missing config item = true -> configReady config = false.
Proof.
  intros Hmissing. unfold configReady. rewrite configWarnings_filter.
  assert (Hin : item ∈ filter (fun item => missing config item = true)
                         [ProjectId; PublicKey; ManageKey; CollectionSlug]).
  { apply list_elem_of_filter. split; [exact Hmissing|].
    destruct item; set_solver. }
  destruct (filter _ _) as [|first others]; [|reflexivity].
  by apply elem_of_nil in Hin.
Qed.

(** X26.  What the resolver makes of the environment.  The base URL is
    never empty: unset, or nothing but white space once one trailing slash
    is dropped, it is the local service in development and
    [https://reqres.in] otherwise.  An
    unset or empty collection slug becomes [todos], but a slug of white
    space only is trimmed to nothing, and an unset, empty or zero project id
    gives no usable project; either way the configuration check fails
    before any request. *)
Theorem resolveConfig_edges (StringToNumber : string -> option Z)
    (env : Env.t) (st : AppState.t) :
  let config := resolveConfig StringToNumber env in
  let fallback :=
    if Env.DEV env then "http://localhost:8000" else "https://reqres.in" in
  let stopped :=
    (false, AppState.setError (Some "System configuration is incomplete.") st)
  in
  DemoConfig.baseUrl config <> ""
  /\ (Env.VITE_REQRES_BASE_URL env = None ->
      DemoConfig.baseUrl config = fallback)
  /\ (forall url, Env.VITE_REQRES_BASE_URL env = Some url ->
        blank (strip_trailing_slash url) = true ->
        DemoConfig.baseUrl config = fallback)
  /\ (Env.VITE_REQRES_COLLECTION_SLUG env = None
      \/ Env.VITE_REQRES_COLLECTION_SLUG env = Some "" ->
      DemoConfig.collectionSlug config = "todos")
  /\ (forall slug, Env.VITE_REQRES_COLLECTION_SLUG env = Some slug ->
        slug <> "" -> blank slug = true ->
        DemoConfig.collectionSlug config = ""
        /\ ensureConfigReady config st = stopped)
  /\ (Env.VITE_REQRES_PROJECT_ID env = None
      \/ Env.VITE_REQRES_PROJECT_ID env = Some "" ->
      DemoConfig.projectId config = None
      /\ ensureConfigReady config st = stopped)
  /\ (forall text, Env.VITE_REQRES_PROJECT_ID env = Some text ->
        StringToNumber text = Some 0 ->
        ensureConfigReady config st = stopped).
Proof.
  intros config fallback stopped.
  assert (Hfallback : fallback <> "") by (subst fallback; by destruct (Env.DEV env)).
  assert (Hstop : forall item, missing config item = true ->
                               ensureConfigReady config st = stopped).
  { intros item Hmissing. unfold ensureConfigReady.
    by rewrite (missing_not_ready _ _ Hmissing). }
  assert (Hbase : DemoConfig.baseUrl config
                  = if str_truthy (sanitizeBaseUrl (Env.VITE_REQRES_BASE_URL env))
                    then sanitizeBaseUrl (Env.VITE_REQRES_BASE_URL env)
                    else fallback) by reflexivity.
  split.
  { rewrite Hbase.
    destruct (str_truthy (sanitizeBaseUrl _)) eqn:Hs; [|exact Hfallback].
    intros Hempty. by rewrite Hempty in Hs. }
  split.
  { intros Hunset. rewrite Hbase, Hunset. reflexivity. }
  split.
  { intros url Hurl Hblank. rewrite Hbase, Hurl. unfold sanitizeBaseUrl.
    destruct (str_truthy url); [|reflexivity].
    by rewrite (trim_blank_falsy _ Hblank). }
  split.
  { intros [Hslug|Hslug]; subst config; unfold resolveConfig;
      by rewrite Hslug. }
  split.
  { intros slug Hslug Hne Hblank.
    assert (Hempty : DemoConfig.collectionSlug config = "").
    { subst config. unfold resolveConfig. rewrite Hslug. simpl.
      rewrite (str_truthy_true _ Hne). by apply trim_blank. }
    split; [exact Hempty|]. apply (Hstop CollectionSlug).
    unfold missing, config_item. by rewrite Hempty. }
  split.
  { intros Hid.
    assert (Hnone : DemoConfig.projectId config = None).
    { subst config. unfold resolveConfig. by destruct Hid as [-> | ->]. }
    split; [exact Hnone|]. apply (Hstop ProjectId).
    unfold missing, config_item. by rewrite Hnone. }
  intros text Hid Hzero. apply (Hstop ProjectId).
  unfold missing, config_item. subst config. unfold resolveConfig.
  cbn [DemoConfig.projectId]. rewrite Hid. unfold numberFromEnv.
  destruct (str_truthy text); by rewrite ?Hzero.
Qed.

(** ** Normalised records *)

(** X27.  Normalising is a retraction onto the payloads: a payload written
    as record data reads back as itself, so normalising twice is
    normalising once; missing data reads as the empty payload; and the
    payload of a toggle, stored as the record's data, toggles back to what
    the record read as before. *)
Theorem normalizeTodo_roundtrip (payload : TodoPayload.t) (data : value)
    (todo : value) :
  normalizeTodo (payload_value payload) = payload
  /\ normalizeTodo (payload_value (normalizeTodo data)) = normalizeTodo data
  /\ normalizeTodo VNull = emptyTodo
  /\ normalizeTodo VUndefined = emptyTodo
  /\ normalizeTodo (VObj []) = emptyTodo
  /\ toggle_payload
       (VObj [("id", get todo "id");
              ("data", payload_value (toggle_payload todo))])
     = normalizeTodo (get todo "data").
Proof.
  assert (Hround : forall p, normalizeTodo (payload_value p) = p)
    by (by intros [title notes completed]).
  split; [apply Hround|]. split; [apply Hround|].
  split; [reflexivity|]. split; [reflexivity|]. split; [reflexivity|].
  unfold toggle_payload at 1.
  change (get (VObj [("id", get todo "id");
                     ("data", payload_value (toggle_payload todo))]) "data")
    with (payload_value (toggle_payload todo)).
  rewrite Hround. unfold toggle_payload.
  cbn [TodoPayload.title TodoPayload.notes TodoPayload.completed].
  rewrite negb_involutive. by destruct (normalizeTodo (get todo "data")).
Qed.

(** ** Editing, listing and the stored session *)

(** X28.  Opening the editor on a record and saving at once sends the
    record as it reads when normalised, with title and notes trimmed: the
    draft the editor starts from is the normalised record data.  Opening the
    editor changes nothing in the list, and closing it keeps the draft. *)
Theorem edit_then_save_sends_the_record `{Platform} (config : DemoConfig.t)
    (cl : AppState.t) (todo : value) (w : World.t) (s : Session.t) :
  AppState.session cl = Some s ->
  Session.token s <> "" ->
  DemoConfig.collectionSlug config <> "" ->
  (hasStoredSessionToken config (World.storage w)).1 = true ->
  isSessionExpired (Some s) (World.now w) = false ->
  let current := normalizeTodo (get todo "data") in
  blank (TodoPayload.title current) = false ->
  let editing := beginEditTodo cl todo in
  let payload :=
    TodoPayload.mk (trim (TodoPayload.title current))
      (trim (TodoPayload.notes current)) (TodoPayload.completed current) in
  AppState.activeEditId editing = Some (todo_id todo)
  /\ AppState.todos editing = AppState.todos cl
  /\ (forall other, other <> todo_id todo ->
        AppState.todoDrafts editing !! other = AppState.todoDrafts cl !! other)
  /\ World.sent (handleUpdateTodo config editing (todo_id todo) w).2
     = World.sent w
       ++ [session_request config (record_path config (todo_id todo)) "PUT"
             (Session.token s) (VObj [("data", payload_value payload)])]
  /\ AppState.activeEditId (cancelEditTodo editing) = None
  /\ AppState.todoDrafts (cancelEditTodo editing) !! todo_id todo
     = Some current.
Proof.
  intros Hsession Htoken Hslug Hstored Hlive current Htitle editing payload.
  assert (Hdraft : AppState.todoDrafts editing !! todo_id todo = Some current)
    by (subst editing; unfold beginEditTodo; cbn; by simplify_map_eq).
  split; [reflexivity|]. split; [reflexivity|].
  split.
  { intros other Hother. subst editing. unfold beginEditTodo. cbn.
    by apply lookup_insert_ne. }
  split; [|split; [reflexivity | exact Hdraft]].
  unfold handleUpdateTodo.
  change (AppState.session editing) with (AppState.session cl).
  rewrite Hsession, (ensureActiveSession_active _ _ _ _ _ Hstored Hlive).
  rewrite Hdraft, (trim_not_blank_truthy _ Htitle). cbn [negb]. cbv zeta.
  by rewrite (updateTodo_call config Hslug _ _ _ _ Htoken).
Qed.

(** Opening the editor on [todo0] and saving drops its extension field. *)
Lemma edit_then_save_sends_the_record_witness :
  map Request.body
    (World.sent
       (@handleUpdateTodo Reference.online Reference.config
          (beginEditTodo Reference.state0 Reference.todo0) "r1"
          (Reference.world_at 0)).2)
  = [Some
       (Reference.json_text
          "{'data':{'title':'Buy milk','notes':'','completed':false}}")].
Proof.
  destruct (@edit_then_save_sends_the_record Reference.online Reference.config
              Reference.state0 Reference.todo0 (Reference.world_at 0)
              Reference.session0)
    as (_ & _ & _ & Hsent & _);
    [ reflexivity | discriminate | discriminate | by vm_compute
    | by vm_compute | reflexivity | ].
  etrans; [apply (f_equal (map Request.body) Hsent)|].
  vm_compute. reflexivity.
Defined.

(** X29.  After a listing that succeeds, the pagination cells agree: the
    page and the page size in the state are those of the page description,
    and the list is what the service returned.  The page description is the
    service's where it sent one: each of its page, page size, total and
    number of pages is the number the service gave, and where the service
    gave none, or no description at all, it is the value made up from the
    request and the records received.  After a listing the service refuses,
    the list and the pagination cells are left alone and the error is the
    message of the failure.  Either way the loading mark is cleared. *)
Theorem refreshTodos_adopts_the_page `{Platform} (config : DemoConfig.t)
    (cl : AppState.t) (args : RefreshArgs.t) (st : AppState.t) (w : World.t)
    (s : Session.t) (response : Response.t) :
  AppState.session cl = Some s ->
  RefreshArgs.activeSession args = None ->
  Session.token s <> "" ->
  DemoConfig.collectionSlug config <> "" ->
  (hasStoredSessionToken config (World.storage w)).1 = true ->
  isSessionExpired (Some s) (World.now w) = false ->
  let opts :=
    ListOptions.mk
      (Some (default (AppState.todoPage cl) (RefreshArgs.page args)))
      (Some (default (AppState.todoPageSize cl) (RefreshArgs.limit args)))
      (Some Desc) in
  fetch (session_request config
           (todos_path config "desc" (effective_limit opts)
              (effective_page opts))
           "GET" (Session.token s) VUndefined)
  = Responded response ->
  let reply := response_data (Response.text response) in
  let described := get reply "meta" in
  let st' := (refreshTodos config cl args st w).1 in
  let count := Z.of_nat (length (AppState.todos st')) in
  let made_up :=
    PaginationMeta.mk (effective_page opts) (effective_limit opts) count
      (Z.max 1
         (ceil_div (if count =? 0 then 1 else count) (effective_limit opts)))
  in
  AppState.loadingTodos st' = false
  /\ (Response.ok response = true ->
      AppState.error st' = None
      /\ AppState.todos st' = array_items (js_or (get reply "data") (VArr []))
      /\ exists meta,
           AppState.todoMeta st' = Some meta
           /\ AppState.todoPage st' = PaginationMeta.page meta
           /\ AppState.todoPageSize st' = PaginationMeta.limit meta
           /\ (truthy described = false -> meta = made_up)
           /\ (truthy described = true ->
               (forall n, get described "page" = VNum n ->
                  PaginationMeta.page meta = n)
               /\ (forall n, get described "limit" = VNum n ->
                     PaginationMeta.limit meta = n)
               /\ (forall n, get described "total" = VNum n ->
                     PaginationMeta.total meta = n)
               /\ (forall n, get described "pages" = VNum n ->
                     PaginationMeta.pages meta = n)
               /\ (nullish (get described "page") = true ->
                   PaginationMeta.page meta = PaginationMeta.page made_up)
               /\ (nullish (get described "limit") = true ->
                   PaginationMeta.limit meta = PaginationMeta.limit made_up)
               /\ (nullish (get described "total") = true ->
                   PaginationMeta.total meta = PaginationMeta.total made_up)
               /\ (nullish (get described "pages") = true ->
                   PaginationMeta.pages meta
                   = PaginationMeta.pages made_up)))
  /\ (Response.ok response = false ->
      AppState.todos st' = AppState.todos st
      /\ AppState.todoMeta st' = AppState.todoMeta st
      /\ AppState.todoPage st' = AppState.todoPage st
      /\ AppState.todoPageSize st' = AppState.todoPageSize st
      /\ AppState.error st'
         = Some (ToString
                   (failure_message reply (Response.statusText response)))).
Proof.
  intros Hsession Hargs Htoken Hslug Hstored Hlive opts Hfetch reply described
    st' count made_up.
  subst made_up count st'. unfold refreshTodos. rewrite Hargs, Hsession.
  rewrite (ensureActiveSession_active _ _ _ _ _ Hstored Hlive).
  fold opts. unfold fetchTodos. rewrite (str_truthy_true _ Hslug).
  cbn [negb]. cbv zeta.
  change (effective_order opts) with "desc".
  rewrite session_call, (str_truthy_true _ Htoken), Hfetch.
  destruct (Response.ok response) eqn:Hok.
  - rewrite (receive_ok _ Hok), !get_coalesce_object. fold reply.
    fold described.
    split; [reflexivity|]. split; [|discriminate]. intros _.
    split; [reflexivity|]. split; [reflexivity|].
    eexists. split; [reflexivity|]. split; [reflexivity|].
    split; [reflexivity|]. cbn.
    destruct (truthy described) eqn:Hmeta.
    + split; [discriminate|]. intros _. cbn.
      repeat split;
        try (intros n Hn; by rewrite Hn);
        intros Hnull;
        match type of Hnull with
        | nullish ?v = true => by destruct v
        end.
    + split; [by intros _ | discriminate].
  - rewrite (receive_refused _ Hok). fold reply. cbn.
    repeat split; discriminate.
Qed.

(** The reference service lists one empty page: the state takes its page
    description, page 1 of ten to a page, not the page 2 asked for. *)
Lemma refreshTodos_adopts_the_page_witness :
  AppState.todoPage
    (@refreshTodos Reference.online Reference.config Reference.state0
       (RefreshArgs.mk (Some 2) None None) Reference.state0
       (Reference.world_at 0)).1
  = 1
  /\ AppState.todoPageSize
       (@refreshTodos Reference.online Reference.config Reference.state0
          (RefreshArgs.mk (Some 2) None None) Reference.state0
          (Reference.world_at 0)).1
     = 10.
Proof.
  destruct (@refreshTodos_adopts_the_page Reference.online Reference.config
              Reference.state0 (RefreshArgs.mk (Some 2) None None)
              Reference.state0 (Reference.world_at 0) Reference.session0
              (Response.mk true 200 "OK"
                 (Reference.json_text
                    "{'data':[],'meta':{'page':1,'limit':10,'total':0,'pages':1}}")))
    as (_ & Hok & _);
    [ reflexivity | reflexivity | discriminate | discriminate | by vm_compute
    | by vm_compute | by vm_compute | ].
  destruct (Hok eq_refl) as (_ & _ & meta & _ & Hpage & Hsize & _ & Hserver).
  destruct (Hserver ltac:(by vm_compute)) as (Hp & Hl & _).
  rewrite Hpage, Hsize. split; [apply Hp | apply Hl]; by vm_compute.
Defined.

(** X30.  The stored session depends on the configuration through its
    normalised base URL and its project id only: two configurations that
    agree on these save the same text and load the same session from any
    store, whatever their keys and collections are. *)
Theorem stored_session_depends_on_base_and_project `{Platform}
    (config config' : DemoConfig.t) (session : Session.t)
    (ls : LocalStorage) :
  normalizeBaseUrl (DemoConfig.baseUrl config)
  = normalizeBaseUrl (DemoConfig.baseUrl config') ->
  DemoConfig.projectId config = DemoConfig.projectId config' ->
  persistSession session config ls = persistSession session config' ls
  /\ loadStoredSession config ls = loadStoredSession config' ls
  /\ hasStoredSessionToken config ls = hasStoredSessionToken config' ls.
Proof.
  intros Hbase Hproject.
  assert (Hload : loadStoredSession config ls = loadStoredSession config' ls).
  { unfold loadStoredSession, loadStoredSession_try.
    by rewrite Hbase, Hproject. }
  split; [|split; [exact Hload|]].
  - unfold persistSession, stored_session. by rewrite Hbase.
  - unfold hasStoredSessionToken. by rewrite Hload.
Qed.

(** A configuration with a trailing slash, other keys and another
    collection finds the session saved under the reference one. *)
Lemma stored_session_depends_on_base_and_project_witness :
  @loadStoredSession Reference.online
    (DemoConfig.mk "https://reqres.in/" (Some 7) "other_key" "" "notes")
    Reference.saved
  = (Some (session_value Reference.session0), Reference.saved).
Proof.
  destruct (@stored_session_depends_on_base_and_project Reference.online
              (DemoConfig.mk "https://reqres.in/" (Some 7) "other_key" ""
                 "notes")
              Reference.config Reference.session0 Reference.saved)
    as (_ & Hload & _); [reflexivity | reflexivity |].
  rewrite Hload. by vm_compute.
Defined.
